(** * SysMLv2 value resolution: a shallow embedding of
      [sysmlv2_api_helpers.py] and [sysmlv2-api-server.py]

    The two Python modules walk a graph of JSON documents served by a
    SysMLv2 REST repository.  Python values are embedded as the inductive
    type [json]; the HTTP session is an oracle that answers a request
    from the history of requests made so far; Python exceptions are the
    [Raise] outcome of a small state-and-error monad.  [print] calls are
    kept only where evaluating their argument can raise; writing a
    whole value into a diagnostic can, once the value is nested beyond
    what the interpreter formats, and [ensure_dict_run] is the Graph
    Normalizer with that. *)

From Stdlib Require Import List String Ascii ZArith Bool Lia DecimalString.
Import ListNotations.
Open Scope string_scope.
Open Scope Z_scope.
Set Warnings "-register-all".

(* ================================================================== *)
(** ** Python values *)
(* ================================================================== *)

(** The values that [response.json()] and [request.json] produce, which
    are also the values the program passes around: [None] is [JNull], a
    [list] is [JList], a [dict] with string keys is [JDict] (in insertion
    order).  Numbers are integers; JSON numbers with a fraction are
    outside the model. *)
Inductive json : Type :=
| JNull
| JBool (b : bool)
| JNum (n : Z)
| JStr (s : string)
| JList (items : list json)
| JDict (fields : list (string * json)).

(** [d.get(key)] on the field list of a dict. *)
Fixpoint dict_get (fields : list (string * json)) (key : string) : option json :=
  match fields with
  | [] => None
  | (k, v) :: rest => if String.eqb k key then Some v else dict_get rest key
  end.

(** Truth value of a Python object, as [if x:] and [not x] take it. *)
Definition py_truthy (v : json) : bool :=
  match v with
  | JNull => false
  | JBool b => b
  | JNum n => negb (n =? 0)
  | JStr s => negb (String.eqb s "")
  | JList items => match items with [] => false | _ :: _ => true end
  | JDict fields => match fields with [] => false | _ :: _ => true end
  end.

(** Python's [==] on these values: [True == 1], lists compare member by
    member, dicts compare as mappings (order does not matter). *)
Fixpoint py_eq (a b : json) : bool :=
  match a, b with
  | JNull, JNull => true
  | JBool x, JBool y => Bool.eqb x y
  | JBool x, JNum n => Z.b2z x =? n
  | JNum n, JBool y => n =? Z.b2z y
  | JNum x, JNum y => x =? y
  | JStr x, JStr y => String.eqb x y
  | JList xs, JList ys =>
      (fix members (xs ys : list json) : bool :=
         match xs, ys with
         | [], [] => true
         | x :: xs', y :: ys' => py_eq x y && members xs' ys'
         | _, _ => false
         end) xs ys
  | JDict d1, JDict d2 =>
      Nat.eqb (List.length d1) (List.length d2)
      && (fix entries (d : list (string * json)) : bool :=
            match d with
            | [] => true
            | (k, v) :: d' =>
                match dict_get d2 k with
                | Some v' => py_eq v v' && entries d'
                | None => false
                end
            end) d1
  | _, _ => false
  end.

(* ------------------------------------------------------------------ *)
(** *** [str()] and [repr()] *)

Definition squote : ascii := "'"%char.
Definition dquote : ascii := "034"%char.
Definition backslash : ascii := "\"%char.

Fixpoint occurs (c : ascii) (s : string) : bool :=
  match s with
  | EmptyString => false
  | String x rest => Ascii.eqb x c || occurs c rest
  end.

Definition hex_digit (n : nat) : ascii :=
  nth n (list_ascii_of_string "0123456789abcdef") "0"%char.

(** One character of a string inside [repr]: the delimiter and the
    backslash are escaped, control characters are written as Python
    writes them.  A string is its bytes; this is [repr] for ASCII text.
    Beyond ASCII Python also escapes the code points its Unicode tables
    hold to be non-printable (U+00A0, U+2028, ...), which is not
    modelled; [ascii_text] marks the values for which [py_repr] is
    exact. *)
Definition repr_char (delim c : ascii) : string :=
  if Ascii.eqb c backslash then String backslash (String backslash "")
  else if Ascii.eqb c delim then String backslash (String delim "")
  else if Ascii.eqb c "009"%char then String backslash "t"
  else if Ascii.eqb c "010"%char then String backslash "n"
  else if Ascii.eqb c "013"%char then String backslash "r"
  else
    let n := nat_of_ascii c in
    if (Nat.ltb n 32 || Nat.eqb n 127)%bool
    then String backslash
           (String "x" (String (hex_digit (Nat.div n 16))
                          (String (hex_digit (Nat.modulo n 16)) "")))
    else String c "".

Fixpoint repr_chars (delim : ascii) (s : string) : string :=
  match s with
  | EmptyString => ""
  | String c rest => repr_char delim c ++ repr_chars delim rest
  end.

(** [repr(s)] of a [str]: single quotes, unless the text has a single
    quote and no double quote. *)
Definition repr_str (s : string) : string :=
  let delim := if (occurs squote s && negb (occurs dquote s))%bool
               then dquote else squote in
  String delim (repr_chars delim s ++ String delim "").

Definition str_of_Z (n : Z) : string := NilZero.string_of_int (Z.to_int n).

Fixpoint join (sep : string) (parts : list string) : string :=
  match parts with
  | [] => ""
  | [p] => p
  | p :: rest => p ++ sep ++ join sep rest
  end.

Fixpoint py_repr (v : json) : string :=
  match v with
  | JNull => "None"
  | JBool true => "True"
  | JBool false => "False"
  | JNum n => str_of_Z n
  | JStr s => repr_str s
  | JList items => "[" ++ join ", " (map py_repr items) ++ "]"
  | JDict fields =>
      "{" ++ join ", " (map (fun kv => repr_str (fst kv) ++ ": " ++ py_repr (snd kv))
                            fields) ++ "}"
  end.

(** [str(v)], which is also what an f-string writes for [{v}]. *)
Definition py_str (v : json) : string :=
  match v with
  | JStr s => s
  | _ => py_repr v
  end.

(** Every string in the value, keys included, is ASCII text. *)
Definition ascii_string (s : string) : bool :=
  forallb (fun c => Nat.ltb (nat_of_ascii c) 128) (list_ascii_of_string s).

Fixpoint ascii_text (v : json) : bool :=
  match v with
  | JStr s => ascii_string s
  | JList items => forallb ascii_text items
  | JDict fields =>
      forallb (fun kv => ascii_string (fst kv) && ascii_text (snd kv)) fields
  | _ => true
  end.

(** How many calls deep [repr] goes to write a value: one for the value
    itself and, for a list or a dict, those for its deepest member (a
    key is a string, one call).  The interpreter counts these calls
    against its recursion limit. *)
Fixpoint repr_depth (v : json) : nat :=
  match v with
  | JList items => S (fold_right (fun x d => Nat.max (repr_depth x) d) 0%nat items)
  | JDict fields =>
      S (fold_right (fun kv d => Nat.max 1 (Nat.max (repr_depth (snd kv)) d))
           0%nat fields)
  | _ => 1
  end.

(* ================================================================== *)
(** ** Exceptions and the operations that raise them *)
(* ================================================================== *)

(** The exception classes that can arise; all derive from [Exception].
    Only [ValueError] is raised by the program itself, with its text.
    [HTTPError] is the class [handle_errors] names first; a session
    raises it only on request. *)
Inductive exn : Type :=
| ValueError (msg : string)
| AttributeError
| TypeError
| KeyError
| IndexError
| UnboundLocalError
| RequestException
| HTTPError
| JSONDecodeError
| RecursionError.

Inductive outcome (A : Type) : Type :=
| Ok (a : A)
| Raise (e : exn).
Arguments Ok {A} a.
Arguments Raise {A} e.

(** [v.get(key, default)]: only a dict has the method. *)
Definition py_get_default (v : json) (key : string) (default : json) : outcome json :=
  match v with
  | JDict fields =>
      Ok (match dict_get fields key with Some x => x | None => default end)
  | _ => Raise AttributeError
  end.

(** [v.get(key)] *)
Definition py_get (v : json) (key : string) : outcome json :=
  py_get_default v key JNull.

(** [v[key]] for a string [key]. *)
Definition py_item (v : json) (key : string) : outcome json :=
  match v with
  | JDict fields =>
      match dict_get fields key with Some x => Ok x | None => Raise KeyError end
  | _ => Raise TypeError
  end.

(** [v[0]] *)
Definition py_first (v : json) : outcome json :=
  match v with
  | JList [] => Raise IndexError
  | JList (x :: _) => Ok x
  | JStr EmptyString => Raise IndexError
  | JStr (String c _) => Ok (JStr (String c ""))
  | JDict _ => Raise KeyError
  | _ => Raise TypeError
  end.

Fixpoint chars_of (s : string) : list json :=
  match s with
  | EmptyString => []
  | String c rest => JStr (String c "") :: chars_of rest
  end.

(** The members a [for] loop visits. *)
Definition py_iter (v : json) : outcome (list json) :=
  match v with
  | JList items => Ok items
  | JStr s => Ok (chars_of s)
  | JDict fields => Ok (map (fun kv => JStr (fst kv)) fields)
  | _ => Raise TypeError
  end.

(** [v.startswith(prefix)] *)
Definition py_startswith (v : json) (prefix : string) : outcome bool :=
  match v with
  | JStr s => Ok (String.prefix prefix s)
  | _ => Raise AttributeError
  end.

(** [s + v] for a [str] [s]. *)
Definition py_concat (s : string) (v : json) : outcome string :=
  match v with
  | JStr t => Ok (s ++ t)
  | _ => Raise TypeError
  end.

(** [v.get(key)] read purely: [None] where Python would raise or find
    nothing.  Used in statements, not in the program. *)
Definition field (v : json) (key : string) : json :=
  match v with
  | JDict fields => match dict_get fields key with Some x => x | None => JNull end
  | _ => JNull
  end.

(* ================================================================== *)
(** ** The HTTP session *)
(* ================================================================== *)

Inductive request : Type :=
| GET (url : string)
| POST (url : string) (payload : json).

(** What [requests] hands back: the status, the raw text, and the parsed
    body when the text is JSON ([response.json()] raises otherwise). *)
Record response : Type := mkResponse {
  status_code : Z;
  text : string;
  body : option json
}.

Inductive reply : Type :=
| ConnectionFailed
| Reply (r : response).

(** The requests handed to the session so far, oldest first.  A request
    that got a [Reply] was sent and answered.  [ConnectionFailed] stands
    for every way in which [requests] raises instead of answering: the
    connection fails, or the library refuses the URL (one without an
    [http] scheme, say) before anything leaves the machine.  So a
    request in the trace is known to have gone out only where the
    server's answer to it is a [Reply]. *)
Definition trace : Type := list request.

(** A computation reads and extends the trace and ends in a value or an
    exception. *)
Definition M (A : Type) : Type := trace -> outcome A * trace.

Definition ret {A} (a : A) : M A := fun tr => (Ok a, tr).

Definition raise {A} (e : exn) : M A := fun tr => (Raise e, tr).

Definition bind {A B} (m : M A) (k : A -> M B) : M B :=
  fun tr =>
    match m tr with
    | (Ok a, tr') => k a tr'
    | (Raise e, tr') => (Raise e, tr')
    end.

Definition lift {A} (o : outcome A) : M A := fun tr => (o, tr).

(** [try: body  except Exception as e: handler e] *)
Definition try_except {A} (body : M A) (handler : exn -> M A) : M A :=
  fun tr =>
    match body tr with
    | (Ok a, tr') => (Ok a, tr')
    | (Raise e, tr') => handler e tr'
    end.

Declare Scope py_scope.
Delimit Scope py_scope with py.
Notation "x <- m ;; k" := (bind m (fun x => k))
  (at level 61, m at next level, right associativity) : py_scope.
Notation "m ;;; k" := (bind m (fun _ => k))
  (at level 61, right associativity) : py_scope.
Open Scope py_scope.

Definition value_of {A} (r : outcome A * trace) : outcome A := fst r.
Definition trace_of {A} (r : outcome A * trace) : trace := snd r.

(** Exceptions in code that sends no request. *)
Definition obind {A B} (o : outcome A) (k : A -> outcome B) : outcome B :=
  match o with
  | Ok a => k a
  | Raise e => Raise e
  end.
Notation "x <~ o ;; k" := (obind o (fun x => k))
  (at level 61, o at next level, right associativity) : py_scope.

(* ------------------------------------------------------------------ *)
(** *** Dicts the program builds itself *)

(** The keys of [id_map] and [results] are whatever [domain_name] was:
    any hashable value.  [True] and [1] are the same key. *)
Inductive pykey : Type :=
| KNone
| KInt (n : Z)
| KStr (s : string).

Definition hash_key (v : json) : outcome pykey :=
  match v with
  | JNull => Ok KNone
  | JBool b => Ok (KInt (Z.b2z b))
  | JNum n => Ok (KInt n)
  | JStr s => Ok (KStr s)
  | JList _ | JDict _ => Raise TypeError
  end.

Definition pykey_eqb (a b : pykey) : bool :=
  match a, b with
  | KNone, KNone => true
  | KInt x, KInt y => x =? y
  | KStr x, KStr y => String.eqb x y
  | _, _ => false
  end.

Definition pydict : Type := list (pykey * json).

Fixpoint pd_get (d : pydict) (key : pykey) : option json :=
  match d with
  | [] => None
  | (k, v) :: rest => if pykey_eqb k key then Some v else pd_get rest key
  end.

(** [d[key] = v]: an existing key keeps its place. *)
Fixpoint pd_set (d : pydict) (key : pykey) (v : json) : pydict :=
  match d with
  | [] => [(key, v)]
  | (k, x) :: rest =>
      if pykey_eqb k key then (k, v) :: rest else (k, x) :: pd_set rest key v
  end.

Definition pd_keys (d : pydict) : list pykey := map fst d.

(* ================================================================== *)
(** ** [sysmlv2_api_helpers.py] *)
(* ================================================================== *)

Section Helpers.

(** The model server: its answer may depend on everything asked before. *)
Variable server : trace -> request -> reply.

(** [str(e)] for an exception the interpreter raised (its wording is the
    interpreter's, not the program's). *)
Variable interp_text : exn -> string.

Definition str_exn (e : exn) : string :=
  match e with
  | ValueError msg => msg
  | _ => interp_text e
  end.

(** Handing a request to the session: it is recorded, and the answer
    or the failure is the model server's. *)
Definition send (req : request) : M response :=
  fun tr =>
    match server tr req with
    | ConnectionFailed => (Raise RequestException, (tr ++ [req])%list)
    | Reply r => (Ok r, (tr ++ [req])%list)
    end.

(** [session.get(url)] *)
Definition session_get (url : string) : M response := send (GET url).

(** [session.post(url, json=payload)] *)
Definition session_post (url : string) (payload : json) : M response :=
  send (POST url payload).

(** [response.json()] *)
Definition response_json (r : response) : M json :=
  match body r with
  | Some j => ret j
  | None => raise JSONDecodeError
  end.

(** The query document that selects every element of one kind. *)
Definition type_query (extra : list (string * json)) (kind : string) : json :=
  JDict ([("@type", JStr "Query")] ++ extra ++
         [("where", JDict [("@type", JStr "PrimitiveConstraint");
                           ("inverse", JBool false);
                           ("operator", JStr "=");
                           ("property", JStr "@type");
                           ("value", JList [JStr kind])])])%list.

(** [next((item['@id'] for item in items
           if item.get('declaredShortName') == shortName), None)] *)
Fixpoint first_id_with_shortName (items : list json) (shortName : json)
  : outcome json :=
  match items with
  | [] => Ok JNull
  | item :: rest =>
      declared <~ py_get item "declaredShortName" ;;
      if py_eq declared shortName then py_item item "@id"
      else first_id_with_shortName rest shortName
  end.

Fixpoint build_id_map (items : list json) (metadata_shortnames : list json)
  (id_map : pydict) : outcome pydict :=
  match metadata_shortnames with
  | [] => Ok id_map
  | shortName :: rest =>
      matched_id <~ first_id_with_shortName items shortName ;;
      key <~ hash_key shortName ;;
      build_id_map items rest (pd_set id_map key matched_id)
  end.

Definition get_metadata_ids_by_name (query_url : string)
  (metadata_shortnames : list json) : M pydict :=
  let query_input :=
    type_query [("name", JStr "string");
                ("select", JList [JStr "declaredName"; JStr "declaredShortName";
                                  JStr "@id"; JStr "@type"; JStr "owner"])]
               "MetadataDefinition" in
  try_except
    (query_response <- session_post query_url query_input ;;
     if status_code query_response =? 200 then
       query_response_json <- response_json query_response ;;
       match query_response_json with
       | JList items => lift (build_id_map items metadata_shortnames [])
       | _ => ret [(KStr "error", JStr "Unexpected response format");
                   (KStr "details", query_response_json)]
       end
     else
       ret [(KStr "error",
             JStr ("Failed to query metadata. Status code: "
                   ++ str_of_Z (status_code query_response)));
            (KStr "details", JStr (text query_response))])
    (fun e => ret [(KStr "error", JStr (str_exn e))]).

(** [results[key].append(x)] *)
Definition results_append (results : pydict) (key : pykey) (x : json)
  : outcome pydict :=
  match pd_get results key with
  | None => Raise KeyError
  | Some (JList ids) => Ok (pd_set results key (JList (ids ++ [x])%list))
  | Some _ => Raise AttributeError
  end.

(** The diagnostic loop [print(f"... {annotated.get('name')}")]. *)
Fixpoint print_annotated_names (annotated_elements : list json) : outcome unit :=
  match annotated_elements with
  | [] => Ok tt
  | annotated :: rest =>
      _ <~ py_get annotated "name" ;;
      print_annotated_names rest
  end.

Fixpoint collect_annotated_ids (results : pydict) (key : pykey)
  (annotated_elements : list json) : outcome pydict :=
  match annotated_elements with
  | [] => Ok results
  | annotated :: rest =>
      annotated_id <~ py_get annotated "@id" ;;
      results' <~ (if py_truthy annotated_id
                   then results_append results key annotated_id
                   else Ok results) ;;
      collect_annotated_ids results' key rest
  end.

(** The body of [for key, metadefinition_id in metadefinition_dict.items()]. *)
Definition correlate_entry (item metadata_id : json) (results : pydict)
  (entry : pykey * json) : outcome pydict :=
  let (key, metadefinition_id) := entry in
  annotated_elements <~ py_get_default item "annotatedElement" (JList []) ;;
  _ <~ (if py_truthy annotated_elements then
          match annotated_elements with
          | JList l => print_annotated_names l
          | _ => Ok tt
          end
        else Ok tt) ;;
  if py_eq metadata_id metadefinition_id then
    annotated_elements <~ py_get_default item "annotatedElement" (JList []) ;;
    if py_truthy annotated_elements then
      match annotated_elements with
      | JList l => collect_annotated_ids results key l
      | JDict _ =>
          annotated_id <~ py_get annotated_elements "@id" ;;
          if py_truthy annotated_id
          then results_append results key annotated_id
          else Ok results
      | _ => Ok results
      end
    else
      item_id <~ py_get item "@id" ;;
      results_append results key item_id
  else Ok results.

Fixpoint correlate_entries (item metadata_id : json) (results : pydict)
  (entries : list (pykey * json)) : outcome pydict :=
  match entries with
  | [] => Ok results
  | entry :: rest =>
      results' <~ correlate_entry item metadata_id results entry ;;
      correlate_entries item metadata_id results' rest
  end.

(** The body of [for item in query_response_json]. *)
Definition correlate_usage (metadefinition_dict : pydict) (results : pydict)
  (item : json) : outcome pydict :=
  metadata <~ py_get item "metadataDefinition" ;;
  metadata_id <~ (match metadata with
                  | JDict _ => py_get metadata "@id"
                  | _ => Ok (JStr "Unknown")
                  end) ;;
  correlate_entries item metadata_id results metadefinition_dict.

Fixpoint correlate_usages (metadefinition_dict : pydict) (results : pydict)
  (items : list json) : outcome pydict :=
  match items with
  | [] => Ok results
  | item :: rest =>
      results' <~ correlate_usage metadefinition_dict results item ;;
      correlate_usages metadefinition_dict results' rest
  end.

(** [{metadata_name: [] for metadata_name in metadefinition_dict.keys()}] *)
Fixpoint empty_results (keys : list pykey) (results : pydict) : pydict :=
  match keys with
  | [] => results
  | metadata_name :: rest =>
      empty_results rest (pd_set results metadata_name (JList []))
  end.

Definition get_metadatausage_annotatedElement_ids (query_url : string)
  (metadefinition_dict : pydict) : M pydict :=
  let query_input := type_query [] "MetadataUsage" in
  query_response <- session_post query_url query_input ;;
  if negb (status_code query_response =? 200) then
    raise (ValueError ("Failed to query metadata usages. Status code: "
                       ++ str_of_Z (status_code query_response)
                       ++ ", details: " ++ text query_response))
  else
    query_response_json <- response_json query_response ;;
    match query_response_json with
    | JList ((_ :: _) as items) =>
        let results := empty_results (pd_keys metadefinition_dict) [] in
        lift (correlate_usages metadefinition_dict results items)
    | _ => ret []
    end.

(** The Element Fetcher.  Every exception raised inside is caught by
    the [except] clause, after which the function falls off its end. *)
Definition get_element_fromAPI (query_url : string) (element_id : json) : M json :=
  try_except
    (url <- lift (py_concat (query_url ++ "/elements/") element_id) ;;
     elements_response <- session_get url ;;
     if status_code elements_response =? 200 then
       element <- response_json elements_response ;;
       match element with
       | JList items =>
           ret (match items with
                | first :: _ => first
                | [] => JNull
                end)
       | _ =>
           (* print(f"Got element: {element.get('name')}") *)
           lift (py_get element "name") ;;;
           ret element
       end
     else ret JNull)
    (fun _ => ret JNull).

Fixpoint get_elements_loop (query_url : string) (element_ids : list json)
  (elements : list json) : M (list json) :=
  match element_ids with
  | [] => ret elements
  | element_id :: rest =>
      elements' <-
        try_except
          (element_json <- get_element_fromAPI query_url element_id ;;
           ret (match element_json with
                | JList l => elements ++ l
                | _ => elements ++ [element_json]
                end)%list)
          (fun _ => ret elements) ;;
      get_elements_loop query_url rest elements'
  end.

Definition get_elements_fromAPI (query_url : string) (element_ids : json)
  : M (list json) :=
  ids <- lift (py_iter element_ids) ;;
  get_elements_loop query_url ids [].

(** The Operator Expression decoder: the loop over the relationship
    stubs, then the function. *)
Fixpoint operator_expression_loop (query_url : string) (stubs : list json)
  : M json :=
  match stubs with
  | [] => ret JNull
  | relationship_id :: rest =>
      rel_id <- lift (py_item relationship_id "@id") ;;
      relationship <- get_element_fromAPI query_url rel_id ;;
      rel_type <- lift (py_get relationship "@type") ;;
      selected <- (if py_eq rel_type (JStr "ParameterMembership") then
                     memberName <- lift (py_get relationship "memberName") ;;
                     ret (py_eq memberName (JStr "x"))
                   else ret false) ;;
      if selected : bool then
        member_stub <- lift (py_item relationship "memberElement") ;;
        member_id <- lift (py_item member_stub "@id") ;;
        memberElement <- get_element_fromAPI query_url member_id ;;
        owned <- lift (py_item memberElement "ownedRelationship") ;;
        first_owned <- lift (py_first owned) ;;
        value_rel_id <- lift (py_item first_owned "@id") ;;
        featureValue <- get_element_fromAPI query_url value_rel_id ;;
        value_stub <- lift (py_item featureValue "memberElement") ;;
        value_id <- lift (py_item value_stub "@id") ;;
        get_element_fromAPI query_url value_id
      else operator_expression_loop query_url rest
  end.

Definition getValueFromOperatorExpressionUnit (query_url : string)
  (opExp : json) : M json :=
  owned <- lift (py_get opExp "ownedRelationship") ;;
  stubs <- lift (py_iter owned) ;;
  operator_expression_loop query_url stubs.

End Helpers.

(* ================================================================== *)
(** ** [sysmlv2-api-server.py] *)
(* ================================================================== *)

(** The Graph Normalizer where its diagnostics can be written: what it
    returns, and the depths the loop prints.  [depth] is the counter of
    the [while] loop.  The program applies it to values parsed from a
    response, and the JSON parser gives up on nesting before [str()]
    does. *)
Fixpoint ensure_dict_loop (depth : nat) (obj : json) : json * list nat :=
  match obj with
  | JList items =>
      match items with
      | [] => (JNull, [depth])
      | first :: _ =>
          let (result, printed) := ensure_dict_loop (S depth) first in
          (result, depth :: printed)
      end
  | JDict _ => (obj, [])
  | _ => (JNull, [])
  end.

Definition ensure_dict (obj : json) : json := fst (ensure_dict_loop 0 obj).

(** The Graph Normalizer as the interpreter runs it on any value.  Each
    turn of the loop first writes the whole of [obj] into its
    diagnostic; [repr_limit] is how deep [str()] can go at that point
    before the interpreter raises [RecursionError].  The result comes
    with the depths printed until then. *)
Definition formats (repr_limit : nat) (obj : json) : bool :=
  Nat.leb (repr_depth obj) repr_limit.

Fixpoint ensure_dict_while (repr_limit depth : nat) (obj : json)
  : outcome json * list nat :=
  match obj with
  | JList items =>
      (* print(f"Unwrapping list at depth {depth}: {obj}") *)
      if formats repr_limit obj then
        match items with
        | [] => (Ok JNull, [depth])
        | first :: _ =>
            let (result, printed) := ensure_dict_while repr_limit (S depth) first in
            (result, depth :: printed)
        end
      else (Raise RecursionError, [])
  | JDict _ => (Ok obj, [])
  | _ => (Ok JNull, [])
  end.

Definition ensure_dict_run (repr_limit : nat) (obj : json)
  : outcome json * list nat :=
  ensure_dict_while repr_limit 0 obj.

(* ------------------------------------------------------------------ *)
(** *** [csv.DictWriter] *)

Definition CR : ascii := "013"%char.
Definition LF : ascii := "010"%char.

(** The text [csv.writer] makes of one cell before quoting. *)
Definition cell_text (v : json) : string :=
  match v with
  | JNull => ""
  | _ => py_str v
  end.

Fixpoint double_quotes (s : string) : string :=
  match s with
  | EmptyString => ""
  | String c rest =>
      if Ascii.eqb c dquote
      then String dquote (String dquote (double_quotes rest))
      else String c (double_quotes rest)
  end.

Definition needs_quotes (s : string) : bool :=
  (occurs "," s || occurs dquote s || occurs CR s || occurs LF s)%bool.

(** [QUOTE_MINIMAL] with [doublequote]: the [excel] dialect. *)
Definition csv_cell (v : json) : string :=
  let s := cell_text v in
  if needs_quotes s then String dquote (double_quotes s ++ String dquote "")
  else s.

(** [writer.writerow(cells)]: the cells, a comma between them, and the
    line terminator; a lone empty cell is written quoted. *)
Definition csv_record (cells : list json) : string :=
  match cells with
  | [v] => if String.eqb (cell_text v) ""
           then String dquote (String dquote (String CR (String LF "")))
           else csv_cell v ++ String CR (String LF "")
  | _ => join "," (map csv_cell cells) ++ String CR (String LF "")
  end.

(** [DictWriter._dict_to_list]: a key outside [fieldnames] is an error,
    a missing one is written empty. *)
Definition dict_to_list (fieldnames : list string) (rowdict : json)
  : outcome (list json) :=
  match rowdict with
  | JDict row =>
      if forallb (fun kv => existsb (String.eqb (fst kv)) fieldnames) row
      then Ok (map (fun key => match dict_get row key with
                               | Some v => v
                               | None => JStr ""
                               end) fieldnames)
      else Raise (ValueError "dict contains fields not in fieldnames")
  | _ => Raise AttributeError
  end.

(** [writer.writerows(rows)] into an empty [StringIO], then
    [getvalue()]. *)
Fixpoint writerows (fieldnames : list string) (rows : list json)
  : outcome string :=
  match rows with
  | [] => Ok ""
  | row :: rest =>
      cells <~ dict_to_list fieldnames row ;;
      written <~ writerows fieldnames rest ;;
      Ok (csv_record cells ++ written)
  end.

(** What a Flask view hands back: a text, or [(jsonify(payload), status)]. *)
Inductive view_result : Type :=
| Text (s : string)
| Json (payload : json) (status : Z).

Section Server.

Variable server : trace -> request -> reply.
Variable interp_text : exn -> string.

(** The decorator: whatever the view raises becomes a 500 answer. *)
Definition handle_errors (func : M view_result) : M view_result :=
  try_except func
    (fun e =>
       match e with
       | HTTPError =>
           ret (Json (JDict [("error", JStr ("HTTP error: " ++ str_exn interp_text e))]) 500)
       | _ => ret (Json (JDict [("error", JStr (str_exn interp_text e))]) 500)
       end).

(** [f"{server_url}/projects/{project_id}/commits/{commit_id}"] *)
Definition commit_url (server_url project_id commit_id : json) : string :=
  py_str server_url ++ "/projects/" ++ py_str project_id
  ++ "/commits/" ++ py_str commit_id.

(** The body of [for relationship_id in owned_rel] in
    [getFeatureValueFromFeature]: [Some v] when the function returns
    [v], [None] when the loop runs to its end. *)
Fixpoint feature_value_loop (query_url : string) (owned_rel : list json)
  : M (option json) :=
  match owned_rel with
  | [] => ret None
  | relationship_id :: rest =>
      let continue := feature_value_loop query_url rest in
      let relationship_id := ensure_dict relationship_id in
      if negb (py_truthy relationship_id) then continue else
      rel_id <- lift (py_get relationship_id "@id") ;;
      if negb (py_truthy rel_id) then continue else
      fetched <- get_element_fromAPI server query_url rel_id ;;
      let relationship := ensure_dict fetched in
      if negb (py_truthy relationship) then continue else
      rel_type <- lift (py_get relationship "@type") ;;
      if py_eq rel_type (JStr "FeatureValue") then
        related_elements <-
          lift (py_get_default relationship "ownedRelatedElement" (JList [])) ;;
        if negb (py_truthy related_elements) then continue else
        first <- lift (py_first related_elements) ;;
        let first_related := ensure_dict first in
        if negb (py_truthy first_related) then continue else
        related_id <- lift (py_get first_related "@id") ;;
        if negb (py_truthy related_id) then continue else
        fetched_value <- get_element_fromAPI server query_url related_id ;;
        let featureValue := ensure_dict fetched_value in
        if negb (py_truthy featureValue) then continue else
        fv_type <- lift (py_get featureValue "@type") ;;
        if negb (py_truthy fv_type) then continue else
        is_literal <- lift (py_startswith fv_type "Literal") ;;
        if is_literal : bool then
          value_id <- lift (py_get featureValue "@id") ;;
          value <- lift (py_get featureValue "value") ;;
          ret (Some (JDict [("value_id", value_id); ("value", value)]))
        else if py_eq fv_type (JStr "OperatorExpression") then
          value <- getValueFromOperatorExpressionUnit server query_url featureValue ;;
          value_id <- lift (py_get value "@id") ;;
          value_value <- lift (py_get value "value") ;;
          ret (Some (JDict [("value_id", value_id); ("value", value_value)]))
        else continue
      else continue
  end.

(** The Value Resolver. *)
Definition getFeatureValueFromFeature (server_url project_id commit_id
  feature_id : json) : M json :=
  try_except
    (let query_url := commit_url server_url project_id commit_id in
     fetched <- get_element_fromAPI server query_url feature_id ;;
     let feature := ensure_dict fetched in
     if negb (py_truthy feature) then ret JNull else
     owned_rel <- lift (py_get_default feature "ownedRelationship" (JList [])) ;;
     stubs <- lift (py_iter owned_rel) ;;
     returned <- feature_value_loop query_url stubs ;;
     match returned with
     | Some v => ret v
     | None => ret JNull
     end)
    (fun _ => ret JNull).

Definition fields : list string :=
  ["@id"; "type"; "name"; "value"; "value_id"; "owner"].

(** The owner lookup of [outputAttributesToCSV], the inner [try].
    [owner] is bound as soon as the fetch returns, so the [print] that
    follows can fail without unbinding it; if the fetch itself raised,
    [owner] would still be the empty dict. *)
Definition fetch_owner (query_url : string) (item : json) : M json :=
  try_except
    (owner_stub <- lift (py_item item "owner") ;;
     owner_id <- lift (py_get_default owner_stub "@id" (JStr "")) ;;
     owner <- get_element_fromAPI server query_url owner_id ;;
     try_except
       (lift (py_get_default owner "declaredName" (JStr "Unknown")) ;;;
        ret owner)
       (fun _ => ret owner))
    (fun _ => ret (JDict [])).

(** The body of [for item in elements]: the rows collected so far go in
    and come out. *)
Fixpoint collect_rows (server_url project_id commit_id : json)
  (elements : list json) (csv_elements : list json) : M (list json) :=
  match elements with
  | [] => ret csv_elements
  | item :: rest =>
      let continue :=
        collect_rows server_url project_id commit_id rest csv_elements in
      let item := ensure_dict item in
      if negb (py_truthy item) then continue else
      item_type <- lift (py_get item "@type") ;;
      if negb (py_eq item_type (JStr "AttributeUsage")) then continue else
      owner_field <- lift (py_get item "owner") ;;
      owner <- (match owner_field with
                | JDict _ =>
                    fetch_owner (commit_url server_url project_id commit_id) item
                | _ => ret (JDict [])
                end) ;;
      item_id <- lift (py_get item "@id") ;;
      resolved <- getFeatureValueFromFeature server_url project_id commit_id item_id ;;
      let featureValue := if py_truthy resolved then resolved else JDict [] in
      row_id <- lift (py_get_default item "@id" (JStr "")) ;;
      row_type <- lift (py_get_default item "@type" (JStr "")) ;;
      row_name <- lift (py_get_default item "name" (JStr "")) ;;
      row_value <- lift (py_get_default featureValue "value" (JStr "")) ;;
      row_value_id <- lift (py_get_default featureValue "value_id" (JStr "")) ;;
      row_owner <- lift (py_get_default owner "declaredName" (JStr "")) ;;
      collect_rows server_url project_id commit_id rest
        (csv_elements ++
         [JDict [("@id", row_id); ("type", row_type); ("name", row_name);
                 ("value", row_value); ("value_id", row_value_id);
                 ("owner", row_owner)]])%list
  end.

Definition outputAttributesToCSV (server_url project_id commit_id : json)
  (elements : list json) : M view_result :=
  try_except
    (csv_elements <- collect_rows server_url project_id commit_id elements [] ;;
     csv_content <- lift (writerows fields csv_elements) ;;
     ret (Text csv_content))
    (fun _ => ret (Json (JDict [("error", JStr "Failed to generate csv")]) 500)).

(** [for attr in element.get("ownedFeature", [])]: a stub gives its
    [@id], a plain string is itself an id. *)
Fixpoint owned_feature_ids_of (attrs : list json) (owned_feature_ids : list json)
  : list json :=
  match attrs with
  | [] => owned_feature_ids
  | attr :: rest =>
      owned_feature_ids_of rest
        (match attr with
         | JDict d => match dict_get d "@id" with
                      | Some id => owned_feature_ids ++ [id]
                      | None => owned_feature_ids
                      end
         | JStr _ => owned_feature_ids ++ [attr]
         | _ => owned_feature_ids
         end)%list
  end.

Fixpoint collect_owned_features (domainElements : list json)
  (owned_feature_ids : list json) : outcome (list json) :=
  match domainElements with
  | [] => Ok owned_feature_ids
  | element :: rest =>
      (* print(f"Checking: {element.get('name')}") *)
      _ <~ py_get element "name" ;;
      owned <~ py_get_default element "ownedFeature" (JList []) ;;
      attrs <~ py_iter owned ;;
      collect_owned_features rest (owned_feature_ids_of attrs owned_feature_ids)
  end.

(** [/api/get-domain-features], before decoration. *)
Definition getDomainFeatures_view (input_data : json) : M view_result :=
  server_url <- lift (py_get input_data "server_url") ;;
  project_id <- lift (py_get input_data "project_id") ;;
  commit_id <- lift (py_get input_data "commit_id") ;;
  domain_name <- lift (py_get_default input_data "domain_name" JNull) ;;
  attribute_name <- lift (py_get_default input_data "attribute_name" JNull) ;;
  if (negb (py_truthy server_url) || negb (py_truthy project_id)
      || negb (py_truthy commit_id))%bool
  then raise (ValueError "Server_url, project_id, and commit_id are required.")
  else
    let metadata_names := [domain_name] in
    let query_url := py_str server_url ++ "/projects/" ++ py_str project_id
                     ++ "/query-results?commitId=" ++ py_str commit_id in
    domainDefinitions <-
      get_metadata_ids_by_name server interp_text query_url metadata_names ;;
    domainAnnotatedElementsIDs <-
      get_metadatausage_annotatedElement_ids server query_url domainDefinitions ;;
    let query_url := commit_url server_url project_id commit_id in
    domain_key <- lift (hash_key domain_name) ;;
    let domain_ids := match pd_get domainAnnotatedElementsIDs domain_key with
                      | Some ids => ids
                      | None => JList []
                      end in
    domainElements <- get_elements_fromAPI server query_url domain_ids ;;
    owned_feature_ids <- lift (collect_owned_features domainElements []) ;;
    features <- get_elements_fromAPI server query_url (JList owned_feature_ids) ;;
    outputAttributesToCSV server_url project_id commit_id features.

Definition getDomainFeatures (input_data : json) : M view_result :=
  handle_errors (getDomainFeatures_view input_data).

(** [/api/query-feature-value], before decoration.  The local [value]
    is an [option]: [None] while no assignment has run, and reading it
    then is Python's [UnboundLocalError]. *)
Definition queryFeatureValue_view (input_data : json) : M view_result :=
  server_url <- lift (py_get input_data "server_url") ;;
  project_id <- lift (py_get input_data "project_id") ;;
  commit_id <- lift (py_get input_data "commit_id") ;;
  element_id <- lift (py_get input_data "element_id") ;;
  let query_url := commit_url server_url project_id commit_id in
  featureValue <- get_element_fromAPI server query_url element_id ;;
  fv_type <- lift (py_get featureValue "@type") ;;
  is_literal <- lift (py_startswith fv_type "Literal") ;;
  value <- (if is_literal : bool then
              v <- lift (py_get_default featureValue "value" (JStr "")) ;;
              ret (Some v)
            else
              fv_type' <- lift (py_get featureValue "@type") ;;
              if py_eq fv_type' (JStr "OperatorExpression") then
                v <- getValueFromOperatorExpressionUnit server query_url featureValue ;;
                ret (Some v)
              else ret None) ;;
  owner_stub <- lift (py_get featureValue "owner") ;;
  owner_id <- lift (py_get owner_stub "@id") ;;
  owner <- get_element_fromAPI server query_url owner_id ;;
  (* print(f"featureValue: {owner.get('name', 'Unknown Owner')}={value}") *)
  lift (py_get_default owner "name" (JStr "Unknown Owner")) ;;;
  match value with
  | None => raise UnboundLocalError
  | Some v =>
      owner_name <- lift (py_get_default owner "name" (JStr "Unknown Owner")) ;;
      ret (Text (py_str owner_name ++ "=" ++ py_str v))
  end.

Definition queryFeatureValue (input_data : json) : M view_result :=
  handle_errors (queryFeatureValue_view input_data).

(** [/api/write-feature-value], before decoration. *)
Definition writeFeatureValue_view (input_data : json) : M view_result :=
  server_url <- lift (py_get input_data "server_url") ;;
  project_id <- lift (py_get input_data "project_id") ;;
  commit_id <- lift (py_get input_data "commit_id") ;;
  element_id <- lift (py_get input_data "element_id") ;;
  value <- lift (py_get input_data "value") ;;
  let query_url := py_str server_url ++ "/projects/" ++ py_str project_id
                   ++ "/commits" in
  element_url <- lift (py_concat (query_url ++ "/") commit_id) ;;
  element <- get_element_fromAPI server element_url element_id ;;
  element_type <- lift (py_get element "@type") ;;
  let commit_structure :=
    JDict [("@type", JStr "Commit");
           ("change",
            JList [JDict [("@type", JStr "DataVersion");
                          ("payload",
                           JDict [("@type", JStr (py_str element_type));
                                  ("value", JStr (py_str value));
                                  ("identifier", JStr (py_str element_id))]);
                          ("identity",
                           JDict [("@id", JStr (py_str element_id))])]]);
           ("previousCommit", JDict [("@id", JStr (py_str commit_id))])] in
  commit_post_response <- send server (POST query_url commit_structure) ;;
  new_commit_id <-
    (if status_code commit_post_response =? 200 then
       commit_response_json <- response_json commit_post_response ;;
       lift (py_item commit_response_json "@id")
     else ret (JStr "")) ;;
  ret (Text (py_str new_commit_id)).

Definition writeFeatureValue (input_data : json) : M view_result :=
  handle_errors (writeFeatureValue_view input_data).

End Server.

(* ================================================================== *)
(** ** Vocabulary of the statements *)
(* ================================================================== *)

(** [n] singleton lists around a value: [[[ ... x ... ]]]. *)
Fixpoint wrap (n : nat) (x : json) : json :=
  match n with
  | O => x
  | S n' => JList [wrap n' x]
  end.

(** How many lists [ensure_dict] opens on its way down. *)
Fixpoint nesting (obj : json) : nat :=
  match obj with
  | JList [] => 1
  | JList (first :: _) => S (nesting first)
  | _ => 0
  end.

Definition is_dict (v : json) : bool :=
  match v with
  | JDict _ => true
  | _ => false
  end.

(** The Element Fetcher's result, read off the server's answer: the
    first member of a sequence, [None] for an empty one; a mapping as it
    is; [None] for a status other than 200, for a body that is not
    JSON, for any other JSON value, and when no answer comes. *)
Definition fetched_element (r : reply) : json :=
  match r with
  | ConnectionFailed => JNull
  | Reply resp =>
      if status_code resp =? 200 then
        match body resp with
        | Some (JList (first :: _)) => first
        | Some (JList []) => JNull
        | Some (JDict fields) => JDict fields
        | Some _ => JNull
        | None => JNull
        end
      else JNull
  end.

(** The URL of one element under a commit. *)
Definition element_url (query_url id : string) : string :=
  (query_url ++ "/elements/") ++ id.

(** A status in the range the specification counts as success: the
    transport errors are the statuses that are not 2xx. *)
Definition is_success (status : Z) : bool :=
  ((200 <=? status) && (status <? 300))%bool.

(** A server behind a transforming proxy: every GET is answered with
    status 203 (Non-Authoritative Information) and the element asked
    for. *)
Definition proxied_element : json :=
  JDict [("@id", JStr "e1"); ("@type", JStr "PartUsage"); ("name", JStr "vehicle")].

Definition proxied_server : trace -> request -> reply :=
  fun _ _ => Reply (mkResponse 203 "{...}" (Some proxied_element)).

Definition is_list (v : json) : bool :=
  match v with
  | JList _ => true
  | _ => false
  end.

(** Every value of a [results] dict is a list. *)
Definition all_lists (results : pydict) : Prop :=
  Forall (fun kv => is_list (snd kv) = true) results.

(** What the correlation loop may end in: a dict with the given keys
    whose values are lists, or an [AttributeError]. *)
Definition keeps_keys (keys : list pykey) (o : outcome pydict) : Prop :=
  match o with
  | Ok results => pd_keys results = keys /\ all_lists results
  | Raise e => e = AttributeError
  end.

(** A server whose every answer is status 200 with an empty JSON array. *)
Definition empty_list_server : trace -> request -> reply :=
  fun _ _ => Reply (mkResponse 200 "[]" (Some (JList []))).

(** A server holding one [MetadataUsage] of definition [m1] that
    annotates the elements [e1] and [e2]. *)
Definition one_usage_server : trace -> request -> reply :=
  fun _ _ =>
    Reply (mkResponse 200 "[...]"
             (Some (JList [JDict [("@id", JStr "u1");
                                  ("@type", JStr "MetadataUsage");
                                  ("metadataDefinition", JDict [("@id", JStr "m1")]);
                                  ("annotatedElement",
                                   JList [JDict [("@id", JStr "e1")];
                                          JDict [("@id", JStr "e2")]])]]))).

(** *** A store that answers a GET the same way at every moment *)

(** The element the fetcher obtains for a string identity. *)
Definition fetch (store : string -> reply) (query_url id : string) : json :=
  fetched_element (store (element_url query_url id)).

(** The same for whatever value stands where an identity should. *)
Definition fetch_value (store : string -> reply) (query_url : string)
  (id : json) : json :=
  match id with
  | JStr s => fetch store query_url s
  | _ => JNull
  end.

Definition fetch_requests (query_url : string) (id : json) : list request :=
  match id with
  | JStr s => [GET (element_url query_url s)]
  | _ => []
  end.

(** A reference stub followed to its element: normalize the stub, read
    its [@id], fetch, normalize; [None] when a step gives nothing. *)
Definition resolve_stub (store : string -> reply) (query_url : string)
  (stub : json) : json :=
  let id := field (ensure_dict stub) "@id" in
  if py_truthy id then ensure_dict (fetch_value store query_url id) else JNull.

Definition stub_requests (query_url : string) (stub : json) : list request :=
  let id := field (ensure_dict stub) "@id" in
  if py_truthy id then fetch_requests query_url id else [].

(** [v.get("@type") == kind], read purely. *)
Definition has_type (kind : string) (v : json) : bool :=
  py_eq (field v "@type") (JStr kind).

(** The pair the Value Resolver returns. *)
Definition is_value_pair (v : json) : Prop :=
  exists value_id value, v = JDict [("value_id", value_id); ("value", value)].

(** What a run of the relationship loop may hand back: nothing, or a pair. *)
Definition returns_pair (r : outcome (option json) * trace) : Prop :=
  match fst r with
  | Ok (Some v) => is_value_pair v
  | _ => True
  end.

(** The element the fetcher obtains at one moment of the history. *)
Definition fetched_at (server : trace -> request -> reply) (query_url : string)
  (id : json) (tr : trace) : json :=
  match id with
  | JStr s => fetched_element (server tr (GET (element_url query_url s)))
  | _ => JNull
  end.

(** *** A small model store *)

Definition demo_url : string := "http://host/projects/p1/commits/c1".

Definition stub (id : string) : json := JDict [("@id", JStr id)].

(** An attribute [mass = 42] owned by the part [vehicle], an attribute
    without a value, an operator expression over the parameter [x], and
    an expression of a kind the resolver does not decode. *)
Definition demo_elements : list (string * json) :=
  [ ("f1", JDict [("@id", JStr "f1"); ("@type", JStr "AttributeUsage");
                  ("name", JStr "mass"); ("owner", stub "o1");
                  ("ownedRelationship", JList [stub "r0"; stub "r1"])]);
    ("r0", JDict [("@id", JStr "r0"); ("@type", JStr "FeatureTyping")]);
    ("r1", JDict [("@id", JStr "r1"); ("@type", JStr "FeatureValue");
                  ("ownedRelatedElement", JList [stub "v1"])]);
    ("v1", JDict [("@id", JStr "v1"); ("@type", JStr "LiteralInteger");
                  ("value", JNum 42); ("owner", stub "f1")]);
    ("f2", JDict [("@id", JStr "f2"); ("@type", JStr "AttributeUsage");
                  ("name", JStr "length"); ("owner", stub "o1");
                  ("ownedRelationship", JList [stub "r0"])]);
    ("o1", JDict [("@id", JStr "o1"); ("@type", JStr "PartUsage");
                  ("name", JStr "vehicle"); ("declaredName", JStr "vehicle")]);
    ("x1", JDict [("@id", JStr "x1"); ("@type", JStr "OperatorExpression");
                  ("owner", stub "f1");
                  ("ownedRelationship", JList [stub "pm0"; stub "pm1"])]);
    ("pm0", JDict [("@id", JStr "pm0"); ("@type", JStr "ParameterMembership");
                   ("memberName", JStr "y"); ("memberElement", stub "par0")]);
    ("pm1", JDict [("@id", JStr "pm1"); ("@type", JStr "ParameterMembership");
                   ("memberName", JStr "x"); ("memberElement", stub "par1")]);
    ("par1", JDict [("@id", JStr "par1"); ("@type", JStr "Feature");
                    ("ownedRelationship", JList [stub "fv9"])]);
    ("fv9", JDict [("@id", JStr "fv9"); ("@type", JStr "FeatureValue");
                   ("memberElement", stub "lit9")]);
    ("lit9", JDict [("@id", JStr "lit9"); ("@type", JStr "LiteralString");
                    ("value", JStr "ok")]);
    ("u1", JDict [("@id", JStr "u1"); ("@type", JStr "FeatureReferenceExpression");
                  ("owner", stub "f1")]) ].

Definition not_found : reply := Reply (mkResponse 404 "Not Found" None).

Fixpoint lookup_element (elements : list (string * json)) (url : string) : reply :=
  match elements with
  | [] => not_found
  | (id, element) :: rest =>
      if String.eqb url (element_url demo_url id)
      then Reply (mkResponse 200 "{...}" (Some element))
      else lookup_element rest url
  end.

Definition demo_store : string -> reply := lookup_element demo_elements.

Definition demo_server : trace -> request -> reply :=
  fun _ req =>
    match req with
    | GET url => demo_store url
    | POST _ _ => not_found
    end.

(** The element a stub points to, [fetch(stub["@id"])], without any
    normalization: [None] when the stub has no [@id] or the fetch gives
    nothing. *)
Definition target (store : string -> reply) (query_url : string)
  (stub : json) : json :=
  match stub with
  | JDict d =>
      match dict_get d "@id" with
      | Some id => fetch_value store query_url id
      | None => JNull
      end
  | _ => JNull
  end.

(** A [ParameterMembership] whose [memberName] is [x]. *)
Definition is_parameter_x (relationship : json) : bool :=
  (has_type "ParameterMembership" relationship
   && py_eq (field relationship "memberName") (JStr "x"))%bool.

(** The mapping has the key. *)
Definition has_key (v : json) (key : string) : bool :=
  match v with
  | JDict d => match dict_get d key with Some _ => true | None => false end
  | _ => false
  end.

(** The first member of a sequence, [None] where there is none. *)
Definition first_member (v : json) : json :=
  match v with
  | JList (first :: _) => first
  | _ => JNull
  end.

(** The chain the specification has the decoder follow from the
    selected parameter membership: the parameter feature its
    [memberElement] references, the element which that feature's first
    owned relationship names, and the element which that one's
    [memberElement] references, the decoded value. *)
Definition parameter_feature (store : string -> reply) (query_url : string)
  (relationship : json) : json :=
  fetch_value store query_url (field (field relationship "memberElement") "@id").

Definition parameter_binding (store : string -> reply) (query_url : string)
  (relationship : json) : json :=
  let feature := parameter_feature store query_url relationship in
  fetch_value store query_url
    (field (first_member (field feature "ownedRelationship")) "@id").

Definition parameter_value (store : string -> reply) (query_url : string)
  (relationship : json) : json :=
  let binding := parameter_binding store query_url relationship in
  fetch_value store query_url (field (field binding "memberElement") "@id").

(** Every link of that chain is there: the membership has a
    [memberElement] reference with an [@id]; the parameter feature was
    fetched and its [ownedRelationship] is a sequence whose first member
    is a reference with an [@id]; the element so named was fetched and
    has a [memberElement] reference with an [@id]. *)
Definition chain_complete (store : string -> reply) (query_url : string)
  (relationship : json) : bool :=
  let feature := parameter_feature store query_url relationship in
  let binding := parameter_binding store query_url relationship in
  (has_key relationship "memberElement"
   && has_key (field relationship "memberElement") "@id"
   && has_key (first_member (field feature "ownedRelationship")) "@id"
   && has_key binding "memberElement"
   && has_key (field binding "memberElement") "@id")%bool.

(** An expression whose parameter [x] names a feature that is not in
    the store. *)
Definition broken_expression : json :=
  JDict [("@id", JStr "x3"); ("@type", JStr "OperatorExpression");
         ("ownedRelationship", JList [stub "pm0"; stub "pm2"])].

Definition broken_elements : list (string * json) :=
  [ ("pm2", JDict [("@id", JStr "pm2"); ("@type", JStr "ParameterMembership");
                   ("memberName", JStr "x"); ("memberElement", stub "par9")]) ].

Definition broken_store : string -> reply :=
  lookup_element (broken_elements ++ demo_elements).

Definition broken_server : trace -> request -> reply :=
  fun _ req =>
    match req with
    | GET url => broken_store url
    | POST _ _ => not_found
    end.

(** An expression whose only relationship stub points to nothing. *)
Definition dangling_expression : json :=
  JDict [("@id", JStr "x2"); ("@type", JStr "OperatorExpression");
         ("ownedRelationship", JList [stub "gone"])].

(** A request for the value of one element of the model store. *)
Definition demo_request (element_id : string) : json :=
  JDict [("server_url", JStr "http://host"); ("project_id", JStr "p1");
         ("commit_id", JStr "c1"); ("element_id", JStr element_id)].

(** A server that answers every request with the same literal. *)
Definition literal_server : trace -> request -> reply :=
  fun _ _ =>
    Reply (mkResponse 200 "{...}"
             (Some (JDict [("@id", JStr "v1"); ("@type", JStr "LiteralInteger");
                           ("value", JNum 42); ("name", JStr "mass");
                           ("owner", stub "f1")]))).

(** A request that names no project. *)
Definition request_without_project : json :=
  JDict [("server_url", JStr "http://host"); ("commit_id", JStr "c1");
         ("element_id", JStr "v1"); ("value", JNum 43)].

(** The record [DictWriter.writeheader()] would write; the program
    never calls it. *)
Definition header_record : string := csv_record (map JStr fields).

(** A row as [outputAttributesToCSV] appends it. *)
Definition is_attribute_row (row : json) : Prop :=
  exists id name value value_id owner,
    row = JDict [("@id", id); ("type", JStr "AttributeUsage"); ("name", name);
                 ("value", value); ("value_id", value_id); ("owner", owner)].

(** What a run of the row loop may end in. *)
Definition collects_attribute_rows (r : outcome (list json) * trace) : Prop :=
  match fst r with
  | Ok rows => Forall is_attribute_row rows
  | Raise _ => True
  end.

(* ================================================================== *)
(** ** The remaining helpers and routes *)
(* ================================================================== *)

(** [find_element_by_id]: the first member whose [@id] equals the
    target; a member without [@id] on the way raises. *)
Fixpoint find_element_loop (elements : list json) (target_id : json)
  : outcome json :=
  match elements with
  | [] => Ok JNull
  | element :: rest =>
      id <~ py_item element "@id" ;;
      if py_eq id target_id then Ok element
      else find_element_loop rest target_id
  end.

Definition find_element_by_id (aggregated_results target_id : json)
  : outcome json :=
  elements <~ py_iter aggregated_results ;;
  find_element_loop elements target_id.

(** [v.append(x)]: only a list has the method. *)
Definition py_append (v x : json) : outcome json :=
  match v with
  | JList items => Ok (JList (items ++ [x]))
  | _ => Raise AttributeError
  end.

Fixpoint before_space (s : string) : string :=
  match s with
  | EmptyString => ""
  | String c rest =>
      if Ascii.eqb c " "%char then "" else String c (before_space rest)
  end.

(** [v.split(' ')[0]]: the text before the first space. *)
Definition py_split_first (v : json) : outcome json :=
  match v with
  | JStr s => Ok (JStr (before_space s))
  | _ => Raise AttributeError
  end.

(** The query document of [get_elements_byName_fromAPI]. *)
Definition name_query (name : string) : json :=
  JDict [("@type", JStr "Query");
         ("where", JDict [("@type", JStr "PrimitiveConstraint");
                          ("inverse", JBool false);
                          ("operator", JStr "=");
                          ("property", JStr "declaredName");
                          ("value", JList [JStr name])])].

(** [f"{server_url}/projects/{project_id}/query-results?commitId={commit_id}"] *)
Definition query_results_url (server_url project_id commit_id : json) : string :=
  py_str server_url ++ "/projects/" ++ py_str project_id
  ++ "/query-results?commitId=" ++ py_str commit_id.

Section MoreHelpers.

Variable server : trace -> request -> reply.

(** Python's built-in [sorted(items, key=key)], which the two listing
    helpers end with. *)
Variable sorted : (json -> outcome json) -> list json -> outcome (list json).

(** [str.lower] *)
Variable str_lower : string -> string.

Definition get_elements_byKind_fromAPI (server_url project_id commit_id
  kind : json) : M json :=
  let query_url := query_results_url server_url project_id commit_id in
  let query_input := type_query [] (py_str kind) in
  try_except
    (query_response <- session_post server query_url query_input ;;
     if status_code query_response =? 200 then
       response_json query_response
     else
       raise (ValueError ("Failed to query kinds. Status code: "
                          ++ str_of_Z (status_code query_response)
                          ++ ", details: " ++ text query_response)))
    (fun _ => ret (JList [])).

(** [for relationshipID in el.get('ownedRelationship', [])]: the body
    calls [get_element_fromAPI] with four arguments where it takes two,
    so, once the argument [relationshipID['@id']] is evaluated, the
    call raises [TypeError]; nothing after it in the body can run. *)
Definition by_name_relationships (relationships : list json) : M unit :=
  match relationships with
  | [] => ret tt
  | relationshipID :: _ =>
      lift (py_item relationshipID "@id") ;;;
      raise TypeError
  end.

(** [for el in elementsOfSameType] *)
Fixpoint by_name_same_type (element : json) (elementsOfSameType : list json)
  : M unit :=
  match elementsOfSameType with
  | [] => ret tt
  | el :: rest =>
      (* print(f"... {el.get('@type', 'Unknown')} ...") *)
      lift (py_get_default el "@type" (JStr "Unknown")) ;;;
      el_id <- lift (py_get el "@id") ;;
      element_id <- lift (py_get element "@id") ;;
      if negb (py_eq el_id element_id) then
        owned <- lift (py_get_default el "ownedRelationship" (JList [])) ;;
        relationships <- lift (py_iter owned) ;;
        by_name_relationships relationships ;;;
        by_name_same_type element rest
      else by_name_same_type element rest
  end.

(** [for element in query_response_json] *)
Fixpoint by_name_elements (server_url project_id commit_id : json)
  (elements : list json) : M unit :=
  match elements with
  | [] => ret tt
  | element :: rest =>
      (* print(f"Found element: {element.get('declaredName', 'Unknown')} ...") *)
      lift (py_get_default element "declaredName" (JStr "Unknown")) ;;;
      kind <- lift (py_get_default element "@type" (JStr "")) ;;
      elementsOfSameType <-
        get_elements_byKind_fromAPI server_url project_id commit_id kind ;;
      same_type <- lift (py_iter elementsOfSameType) ;;
      by_name_same_type element same_type ;;;
      by_name_elements server_url project_id commit_id rest
  end.

(** [additional_elements] is only ever appended to after the call that
    always raises, so it is still the empty list when it is appended,
    as one member, to the answer. *)
Definition get_elements_byName_fromAPI (server_url project_id commit_id
  name : json) : M json :=
  let query_input := name_query (py_str name) in
  try_except
    (let query_url := query_results_url server_url project_id commit_id in
     query_response <- session_post server query_url query_input ;;
     if status_code query_response =? 200 then
       query_response_json <- response_json query_response ;;
       let additional_elements := JList [] in
       elements <- lift (py_iter query_response_json) ;;
       by_name_elements server_url project_id commit_id elements ;;;
       lift (py_append query_response_json additional_elements)
     else
       raise (ValueError ("Failed to query names. Status code: "
                          ++ str_of_Z (status_code query_response)
                          ++ ", details: " ++ text query_response)))
    (fun _ => ret (JList [])).

(** [lambda x: x.get('createdAt', x.get('id', ''))] *)
Definition commit_sort_key (x : json) : outcome json :=
  id <~ py_get_default x "id" (JStr "") ;;
  py_get_default x "createdAt" id.

Definition get_commits (server_url project_id : json) : M (list json) :=
  if (negb (py_truthy server_url) || negb (py_truthy project_id))%bool then
    raise (ValueError "Both server_url and project_id are required.")
  else
    let commits_url := py_str server_url ++ "/projects/" ++ py_str project_id
                       ++ "/commits" in
    response <- session_get server commits_url ;;
    if negb (status_code response =? 200) then
      raise (ValueError ("Failed to retrieve commits. Status code: "
                         ++ str_of_Z (status_code response)
                         ++ ", details: " ++ text response))
    else
      commits <- response_json response ;;
      match commits with
      | JList items => lift (sorted commit_sort_key items)
      | _ => raise (ValueError "Expected a list of commits in the response.")
      end.

(** [lambda x: x.get('declaredName', '').lower()] *)
Definition project_sort_key (x : json) : outcome json :=
  name <~ py_get_default x "declaredName" (JStr "") ;;
  match name with
  | JStr s => Ok (JStr (str_lower s))
  | _ => Raise AttributeError
  end.

Definition get_projects (server_url : json) : M (list json) :=
  let projects_url := py_str server_url ++ "/projects?page%5Bsize%5D=1024" in
  response <- session_get server projects_url ;;
  if negb (status_code response =? 200) then
    raise (ValueError ("Failed to retrieve projects from " ++ projects_url
                       ++ ". Status code: " ++ str_of_Z (status_code response)
                       ++ ", details: " ++ text response))
  else
    projects <- response_json response ;;
    items <- lift (py_iter projects) ;;
    lift (sorted project_sort_key items).

Variable interp_text : exn -> string.

(** [/api/projects], before decoration and decorated. *)
Definition api_projects_view (input_data : json) : M view_result :=
  server_url <- lift (py_item input_data "server_url") ;;
  projects <- get_projects server_url ;;
  ret (Json (JList projects) 200).

Definition api_projects (input_data : json) : M view_result :=
  handle_errors interp_text (api_projects_view input_data).

(** [/api/commits], before decoration and decorated. *)
Definition api_commits_view (input_data : json) : M view_result :=
  server_url <- lift (py_get input_data "server_url") ;;
  given <- lift (py_get_default input_data "project_id" (JStr "")) ;;
  project_id <- lift (py_split_first given) ;;
  commits <- get_commits server_url project_id ;;
  ret (Json (JList commits) 200).

Definition api_commits (input_data : json) : M view_result :=
  handle_errors interp_text (api_commits_view input_data).

End MoreHelpers.

(* ------------------------------------------------------------------ *)
(** *** Vocabulary of the further statements *)

(** What [get_elements_fromAPI] adds for one fetched element. *)
Definition fetched_members (element_json : json) : list json :=
  match element_json with
  | JList members => members
  | _ => [element_json]
  end.

(** The store answers the GET for this identity (with whatever
    status); nothing is asked for an identity that is not a string. *)
Definition answered (store : string -> reply) (query_url : string)
  (id : json) : Prop :=
  match id with
  | JStr s => exists resp, store (element_url query_url s) = Reply resp
  | _ => True
  end.

(** An element list as [find_element_by_id] can search it: every
    member has an [@id], and none of them is the target. *)
Definition no_member_has_id (target_id : json) (elements : list json) : Prop :=
  Forall (fun element => exists id, py_item element "@id" = Ok id
                                    /\ py_eq id target_id = false) elements.

(** The query [get_metadata_ids_by_name] posts. *)
Definition metadata_definition_query : json :=
  type_query [("name", JStr "string");
              ("select", JList [JStr "declaredName"; JStr "declaredShortName";
                                JStr "@id"; JStr "@type"; JStr "owner"])]
             "MetadataDefinition".

(** The dict carries an [error] entry. *)
Definition reports_error (d : pydict) : Prop :=
  exists msg, pd_get d (KStr "error") = Some (JStr msg).

(** The [@id] of the first element declared under a short name, [None]
    when there is none. *)
Fixpoint short_name_id (items : list json) (shortName : json) : json :=
  match items with
  | [] => JNull
  | item :: rest =>
      if py_eq (field item "declaredShortName") shortName
      then field item "@id"
      else short_name_id rest shortName
  end.

(** The element is a mapping that has an [@id]. *)
Definition has_id (element : json) : Prop :=
  exists id, py_item element "@id" = Ok id.

(** A server that holds the metadata definitions [Domain1] and [Domain2]. *)
Definition definitions_server : trace -> request -> reply :=
  fun _ _ =>
    Reply (mkResponse 200 "[...]"
             (Some (JList [JDict [("@id", JStr "m1"); ("@type", JStr "MetadataDefinition");
                                  ("declaredShortName", JStr "Domain1")];
                           JDict [("@id", JStr "m2"); ("@type", JStr "MetadataDefinition");
                                  ("declaredShortName", JStr "Domain2")]]))).

(** The definition a usage refers to, as the correlation reads it. *)
Definition usage_definition_id (usage : json) : json :=
  match field usage "metadataDefinition" with
  | JDict d => field (JDict d) "@id"
  | _ => JStr "Unknown"
  end.

(** The identities a usage stands for: those of its annotated
    elements, or its own when it names none. *)
Definition annotated_ids (usage : json) : list json :=
  let annotated := field usage "annotatedElement" in
  if py_truthy annotated then
    match annotated with
    | JList members => filter py_truthy (map (fun a => field a "@id") members)
    | JDict _ => filter py_truthy [field annotated "@id"]
    | _ => []
    end
  else [field usage "@id"].

(** What one usage adds under a key whose definition is [definition_id]. *)
Definition contribution (usage definition_id : json) : list json :=
  if py_eq (usage_definition_id usage) definition_id
  then annotated_ids usage
  else [].

(** A usage the correlation can read: a mapping whose annotated
    elements, when they come as a sequence, are mappings. *)
Definition readable_usage (usage : json) : Prop :=
  is_dict usage = true
  /\ forall members, field usage "annotatedElement" = JList members ->
                     Forall (fun a => is_dict a = true) members.

(** The result dict with, under each key, what [g] says for its
    definition. *)
Definition tabulate (d : pydict) (g : json -> list json) : pydict :=
  map (fun kv => (fst kv, JList (g (snd kv)))) d.

(** A server holding two usages of [m1], one annotating [e1] and [e2],
    one annotating nothing, and a usage of another definition. *)
Definition usages_server : trace -> request -> reply :=
  fun _ _ =>
    Reply (mkResponse 200 "[...]"
             (Some (JList [JDict [("@id", JStr "u1");
                                  ("metadataDefinition", stub "m1");
                                  ("annotatedElement", JList [stub "e1"; stub "e2"])];
                           JDict [("@id", JStr "u2");
                                  ("metadataDefinition", stub "m9");
                                  ("annotatedElement", JList [stub "e3"])];
                           JDict [("@id", JStr "u3");
                                  ("metadataDefinition", stub "m1")]]))).

(** A relationship stub the Value Resolver passes over: it does not
    lead to a [FeatureValue] relationship, or that relationship names
    no related element, or its first related element cannot be
    resolved, has no [@type], or is of a kind that is neither a literal
    nor an operator expression. *)
Definition passed_over (store : string -> reply) (query_url : string)
  (s : json) : Prop :=
  let relationship := resolve_stub store query_url s in
  has_type "FeatureValue" relationship = false
  \/ py_truthy (field relationship "ownedRelatedElement") = false
  \/ exists first others,
       field relationship "ownedRelatedElement" = JList (first :: others)
       /\ let element := resolve_stub store query_url first in
          (py_truthy (field element "@type") = false
           \/ exists t, field element "@type" = JStr t
                        /\ String.prefix "Literal" t = false
                        /\ t <> "OperatorExpression").

(** The pair the resolver makes of a value element. *)
Definition value_pair (element : json) : json :=
  JDict [("value_id", field element "@id"); ("value", field element "value")].

(** The model store with three more features: [f3], whose value is the
    operator expression [x1]; [f4], which has several [FeatureValue]
    relationships; and the second literal [v2]. *)
Definition more_elements : list (string * json) :=
  [ ("f3", JDict [("@id", JStr "f3"); ("@type", JStr "AttributeUsage");
                  ("name", JStr "label");
                  ("ownedRelationship", JList [stub "r3"])]);
    ("r3", JDict [("@id", JStr "r3"); ("@type", JStr "FeatureValue");
                  ("ownedRelatedElement", JList [stub "x1"])]);
    ("f4", JDict [("@id", JStr "f4"); ("@type", JStr "AttributeUsage");
                  ("name", JStr "width");
                  ("ownedRelationship",
                   JList [stub "r0"; stub "r4"; stub "r5"; stub "gone";
                          stub "r1"; stub "r6"])]);
    ("r4", JDict [("@id", JStr "r4"); ("@type", JStr "FeatureValue");
                  ("ownedRelatedElement", JList [stub "u1"])]);
    ("r5", JDict [("@id", JStr "r5"); ("@type", JStr "FeatureValue");
                  ("ownedRelatedElement", JList [])]);
    ("r6", JDict [("@id", JStr "r6"); ("@type", JStr "FeatureValue");
                  ("ownedRelatedElement", JList [stub "v2"])]);
    ("v2", JDict [("@id", JStr "v2"); ("@type", JStr "LiteralInteger");
                  ("value", JNum 7)]) ].

Definition larger_store : string -> reply :=
  lookup_element (more_elements ++ demo_elements).

Definition larger_server : trace -> request -> reply :=
  fun _ req =>
    match req with
    | GET url => larger_store url
    | POST _ _ => not_found
    end.





(** [v.get(key, "")] read purely: blank where the key is missing. *)
Definition cell (v : json) (key : string) : json :=
  match v with
  | JDict d => match dict_get d key with Some x => x | None => JStr "" end
  | _ => JStr ""
  end.

(** The answer [outputAttributesToCSV] gives when it fails. *)
Definition csv_failure : view_result :=
  Json (JDict [("error", JStr "Failed to generate csv")]) 500.

(** What the row loop may end in: rows of attribute usages, or an
    [AttributeError]. *)
Definition rows_or_attribute_error (r : outcome (list json) * trace) : Prop :=
  match fst r with
  | Ok rows => Forall is_attribute_row rows
  | Raise e => e = AttributeError
  end.

(** The element does not normalize to an [AttributeUsage]. *)
Definition not_attribute_usage (element : json) : Prop :=
  has_type "AttributeUsage" (ensure_dict element) = false.

(** The identity under which [outputAttributesToCSV] fetches the owner
    of an item. *)
Definition owner_id (item : json) : json := cell (field item "owner") "@id".

(** The owner the row loop ends up with for an item, fetched at the
    moment [tr]: the empty dict when the item names no owner. *)
Definition owner_of (server : trace -> request -> reply) (query_url : string)
  (item : json) (tr : trace) : json :=
  if is_dict (field item "owner")
  then fetched_at server query_url (owner_id item) tr
  else JDict [].

Definition owner_requests (query_url : string) (item : json) : list request :=
  if is_dict (field item "owner")
  then fetch_requests query_url (owner_id item)
  else [].

(** The row written for an item, given its owner and what the Value
    Resolver returned. *)
Definition row_cells (item owner resolved : json) : list json :=
  let featureValue := if py_truthy resolved then resolved else JDict [] in
  [cell item "@id"; JStr "AttributeUsage"; cell item "name";
   cell featureValue "value"; cell featureValue "value_id";
   cell owner "declaredName"].

(** [owner.get('name', 'Unknown Owner')], read purely. *)
Definition owner_name (owner : json) : json :=
  match owner with
  | JDict d => match dict_get d "name" with
               | Some x => x
               | None => JStr "Unknown Owner"
               end
  | _ => JStr "Unknown Owner"
  end.

(** The commit scope a request names. *)
Definition request_scope (input_data : json) : string :=
  commit_url (field input_data "server_url") (field input_data "project_id")
    (field input_data "commit_id").

(** The commits resource a write request names. *)
Definition commits_url (input_data : json) : string :=
  py_str (field input_data "server_url") ++ "/projects/"
  ++ py_str (field input_data "project_id") ++ "/commits".

(** The commit document [writeFeatureValue] posts for an element. *)
Definition commit_document (input_data element : json) : json :=
  JDict [("@type", JStr "Commit");
         ("change",
          JList [JDict [("@type", JStr "DataVersion");
                        ("payload",
                         JDict [("@type", JStr (py_str (field element "@type")));
                                ("value", JStr (py_str (field input_data "value")));
                                ("identifier",
                                 JStr (py_str (field input_data "element_id")))]);
                        ("identity",
                         JDict [("@id",
                                 JStr (py_str (field input_data "element_id")))])]]);
         ("previousCommit",
          JDict [("@id", JStr (py_str (field input_data "commit_id")))])].

(** A write request for the literal [v1] of the model store. *)
Definition write_request : json :=
  JDict [("server_url", JStr "http://host"); ("project_id", JStr "p1");
         ("commit_id", JStr "c1"); ("element_id", JStr "v1");
         ("value", JNum 43)].

(** The model store behind a server that accepts a commit and answers
    with the new commit [c2]. *)
Definition committing_server : trace -> request -> reply :=
  fun _ req =>
    match req with
    | GET url => demo_store url
    | POST _ _ =>
        Reply (mkResponse 200 "{...}"
                 (Some (JDict [("@id", JStr "c2"); ("@type", JStr "Commit")])))
    end.

(** What [get_elements_byKind_fromAPI] makes of the server's answer. *)
Definition kind_query_result (r : reply) : json :=
  match r with
  | ConnectionFailed => JList []
  | Reply resp =>
      if status_code resp =? 200 then
        match body resp with
        | Some j => j
        | None => JList []
        end
      else JList []
  end.

(** A server that answers the name query with one feature and the kind
    query with that feature and another one, which owns a relationship. *)
Definition redefining_server : trace -> request -> reply :=
  fun tr _ =>
    match tr with
    | [] =>
        Reply (mkResponse 200 "[...]"
                 (Some (JList [JDict [("@id", JStr "a1"); ("@type", JStr "AttributeUsage");
                                      ("declaredName", JStr "value")]])))
    | _ =>
        Reply (mkResponse 200 "[...]"
                 (Some (JList [JDict [("@id", JStr "a1"); ("@type", JStr "AttributeUsage");
                                      ("declaredName", JStr "value")];
                               JDict [("@id", JStr "a2"); ("@type", JStr "AttributeUsage");
                                      ("ownedRelationship", JList [stub "red1"])]])))
    end.

(** The sort left as it is, for running the listing helpers. *)
Definition unsorted (key : json -> outcome json) (items : list json)
  : outcome (list json) := Ok items.

(** The value is a Python [str]. *)
Definition is_str (v : json) : bool :=
  match v with
  | JStr _ => true
  | _ => false
  end.

(** A server whose definitions query fails and whose usages query
    answers with one usage. *)
Definition failing_definitions_server : trace -> request -> reply :=
  fun tr _ =>
    match tr with
    | [] => Reply (mkResponse 500 "Internal Server Error" None)
    | _ =>
        Reply (mkResponse 200 "[...]"
                 (Some (JList [JDict [("@id", JStr "u1");
                                      ("metadataDefinition", stub "m1");
                                      ("annotatedElement", JList [stub "e1"])]])))
    end.

(** The model store with a feature whose value element carries a
    number where its [@type] should be, before a literal. *)
Definition odd_elements : list (string * json) :=
  [ ("f5", JDict [("@id", JStr "f5"); ("@type", JStr "AttributeUsage");
                  ("ownedRelationship", JList [stub "r7"; stub "r1"])]);
    ("r7", JDict [("@id", JStr "r7"); ("@type", JStr "FeatureValue");
                  ("ownedRelatedElement", JList [stub "w1"])]);
    ("w1", JDict [("@id", JStr "w1"); ("@type", JNum 3)]) ].

Definition odd_store : string -> reply :=
  lookup_element (odd_elements ++ demo_elements).

Definition odd_server : trace -> request -> reply :=
  fun _ req =>
    match req with
    | GET url => odd_store url
    | POST _ _ => not_found
    end.

(* ================================================================== *)
(** * Properties *)
(* ================================================================== *)

(** Induction over the nesting of a value: the hypotheses for a list and
    for a dict speak of every member. *)
Lemma json_nested_ind (P : json -> Prop) :
  P JNull ->
  (forall b, P (JBool b)) ->
  (forall n, P (JNum n)) ->
  (forall s, P (JStr s)) ->
  (forall items, Forall P items -> P (JList items)) ->
  (forall fields, Forall (fun kv => P (snd kv)) fields -> P (JDict fields)) ->
  forall j, P j.
Proof.
  intros Hnull Hbool Hnum Hstr Hlist Hdict.
  fix self 1.
  intros [ | b | n | s | items | fields ].
  - exact Hnull.
  - apply Hbool.
  - apply Hnum.
  - apply Hstr.
  - apply Hlist. induction items as [ | x rest IH ].
    + constructor.
    + constructor; [ apply self | exact IH ].
  - apply Hdict. induction fields as [ | [k v] rest IH ].
    + constructor.
    + constructor; [ apply self | exact IH ].
Qed.

Example py_str_None : py_str JNull = "None".
Proof. reflexivity. Qed.

Example py_str_nested :
  py_str (JList [JNum (-42); JStr "it's"; JDict [("@id", JStr "e1")]])
  = "[-42, " ++ String dquote ("it's" ++ String dquote ", {'@id': 'e1'}]").
Proof. vm_compute. reflexivity. Qed.

(* ================================================================== *)
(** ** The Graph Normalizer *)
(* ================================================================== *)

Lemma ensure_dict_loop_counter_irrelevant :
  forall obj d d', fst (ensure_dict_loop d obj) = fst (ensure_dict_loop d' obj).
Proof.
  induction obj as [ | b | n | s | items IH | fields _ ] using json_nested_ind;
    intros d d'; try reflexivity.
  destruct items as [ | first rest ]; [ reflexivity | ].
  inversion IH as [ | ? ? Hfirst _ ]; subst.
  simpl. specialize (Hfirst (S d) (S d')).
  destruct (ensure_dict_loop (S d) first), (ensure_dict_loop (S d') first).
  exact Hfirst.
Qed.

Lemma ensure_dict_cons :
  forall first rest, ensure_dict (JList (first :: rest)) = ensure_dict first.
Proof.
  intros first rest. unfold ensure_dict. simpl.
  rewrite (ensure_dict_loop_counter_irrelevant first 0%nat 1%nat).
  destruct (ensure_dict_loop 1 first). reflexivity.
Qed.

Lemma ensure_dict_dict : forall fields, ensure_dict (JDict fields) = JDict fields.
Proof. reflexivity. Qed.

Lemma ensure_dict_shape :
  forall obj, ensure_dict obj = JNull \/ exists fields, ensure_dict obj = JDict fields.
Proof.
  induction obj as [ | b | n | s | items IH | fields _ ] using json_nested_ind;
    try (left; reflexivity).
  - destruct items as [ | first rest ]; [ left; reflexivity | ].
    rewrite ensure_dict_cons. inversion IH; assumption.
  - right. exists fields. reflexivity.
Qed.

Lemma ensure_dict_wrap :
  forall n x, ensure_dict (wrap n x) = ensure_dict x.
Proof.
  induction n as [ | n IH ]; intros x; simpl.
  - reflexivity.
  - rewrite ensure_dict_cons. apply IH.
Qed.

Lemma nesting_wrap : forall n fields, nesting (wrap n (JDict fields)) = n.
Proof.
  induction n as [ | n IH ]; intros fields; simpl; [ | rewrite IH ]; reflexivity.
Qed.

Lemma ensure_dict_loop_prints :
  forall n d fields,
    snd (ensure_dict_loop d (wrap n (JDict fields))) = seq d n.
Proof.
  induction n as [ | n IH ]; intros d fields; simpl.
  - reflexivity.
  - specialize (IH (S d) fields).
    destruct (ensure_dict_loop (S d) (wrap n (JDict fields))).
    simpl in *. now rewrite IH.
Qed.

(** The docstring's examples. *)
Example ensure_dict_examples :
  ensure_dict (JDict [("a", JNum 1)]) = JDict [("a", JNum 1)]
  /\ ensure_dict (JList [JList [JDict [("a", JNum 1)]]]) = JDict [("a", JNum 1)]
  /\ ensure_dict (JList []) = JNull
  /\ ensure_dict (JList [JList [JStr "not a dict"]]) = JNull.
Proof. repeat split. Qed.

(** C8.  [ensure_dict] is idempotent: normalizing a normalized value
    changes nothing, whatever the shape of the input (mapping, nested
    sequences, scalar or [None]). *)
Theorem ensure_dict_idempotent :
  forall obj, ensure_dict (ensure_dict obj) = ensure_dict obj.
Proof.
  intros obj.
  destruct (ensure_dict_shape obj) as [ Hnone | [fields Hdict] ].
  - rewrite Hnone. reflexivity.
  - rewrite Hdict. apply ensure_dict_dict.
Qed.

Lemma ensure_dict_loop_printed :
  forall obj d, snd (ensure_dict_loop d obj) = seq d (nesting obj).
Proof.
  induction obj as [ | b | n | s | items IH | flds _ ] using json_nested_ind;
    intros d; try reflexivity.
  destruct items as [ | first rest ]; [ reflexivity | ].
  inversion IH as [ | ? ? Hfirst _ ]; subst.
  simpl. specialize (Hfirst (S d)).
  destruct (ensure_dict_loop (S d) first). simpl in *. now rewrite Hfirst.
Qed.

(** What writing the diagnostics costs: a member is less deep than the
    list that holds it, so the first diagnostic decides. *)
Lemma formats_first :
  forall repr_limit first rest,
    formats repr_limit (JList (first :: rest)) = true ->
    formats repr_limit first = true.
Proof.
  intros repr_limit first rest. unfold formats. cbn [repr_depth fold_right].
  rewrite !Nat.leb_le. lia.
Qed.

Lemma repr_depth_wrap :
  forall n x, repr_depth (wrap n x) = (n + repr_depth x)%nat.
Proof.
  induction n as [ | n IH ]; intros x; [ reflexivity | ].
  cbn [wrap repr_depth fold_right]. rewrite IH. lia.
Qed.

(** The normalizer as it runs: it raises at once on a list it cannot
    write, and otherwise returns and prints what [ensure_dict_loop]
    says. *)
Lemma ensure_dict_while_result :
  forall repr_limit obj depth,
    ensure_dict_while repr_limit depth obj
    = if (is_list obj && negb (formats repr_limit obj))%bool
      then (Raise RecursionError, [])
      else (Ok (fst (ensure_dict_loop depth obj)), snd (ensure_dict_loop depth obj)).
Proof.
  intros repr_limit.
  induction obj as [ | b | n | s | items IH | fields _ ] using json_nested_ind;
    intros depth; try reflexivity.
  cbn [ensure_dict_while is_list andb].
  destruct (formats repr_limit (JList items)) eqn:Hformats; [ | reflexivity ].
  destruct items as [ | first rest ]; [ reflexivity | ].
  inversion IH as [ | ? ? Hfirst _ ]; subst.
  rewrite Hfirst, (formats_first _ _ _ Hformats), andb_false_r.
  cbn [negb ensure_dict_loop].
  destruct (ensure_dict_loop (S depth) first). reflexivity.
Qed.

(** C2, as the code has it.  [ensure_dict] takes the first member of a
    sequence again and again, counting the depth upwards for its
    diagnostics only; an empty sequence gives [None], a mapping is
    returned, any other value gives [None].  The counter bounds
    nothing.  A mapping inside [n] singleton sequences comes out
    unchanged, the loop having printed the depths [0 .. n-1], for every
    [n] at which the interpreter can still write the value into the
    first diagnostic, that is as long as [n] plus the depth of the
    mapping stays within [repr_limit]; beyond that the first [print]
    raises [RecursionError].  At no depth is the result [None]. *)
Theorem ensure_dict_unwraps_without_bound :
  forall repr_limit : nat,
    (forall obj,
        ensure_dict_run repr_limit obj
        = if (is_list obj && negb (formats repr_limit obj))%bool
          then (Raise RecursionError, [])
          else (Ok (match obj with
                    | JList [] => JNull
                    | JList (first :: _) => ensure_dict first
                    | JDict _ => obj
                    | _ => JNull
                    end),
                seq 0 (nesting obj)))
    /\ (forall n fields,
          nesting (wrap n (JDict fields)) = n
          /\ repr_depth (wrap n (JDict fields)) = (n + repr_depth (JDict fields))%nat
          /\ ensure_dict_run repr_limit (wrap n (JDict fields))
             = if (Nat.eqb n 0
                   || Nat.leb (n + repr_depth (JDict fields)) repr_limit)%bool
               then (Ok (JDict fields), seq 0 n)
               else (Raise RecursionError, [])).
Proof.
  intros repr_limit. split.
  - intros obj. unfold ensure_dict_run.
    rewrite ensure_dict_while_result, ensure_dict_loop_printed.
    fold (ensure_dict obj).
    destruct obj as [ | b | n | s | [ | first rest ] | fields ]; try reflexivity.
    now rewrite ensure_dict_cons.
  - intros n fields. split; [ apply nesting_wrap | ].
    split; [ apply repr_depth_wrap | ].
    unfold ensure_dict_run. rewrite ensure_dict_while_result.
    unfold formats. rewrite repr_depth_wrap.
    fold (ensure_dict (wrap n (JDict fields))).
    rewrite ensure_dict_wrap, ensure_dict_loop_prints.
    destruct n as [ | n ]; [ reflexivity | ].
    cbn [wrap is_list andb Nat.eqb orb ensure_dict].
    destruct (Nat.leb (S n + repr_depth (JDict fields)) repr_limit); reflexivity.
Qed.

(** C2 as stated fails: whatever the interpreter's limit, no depth
    bound makes every deeper input normalize to [None].  A mapping
    inside one more singleton sequence than the bound comes out as it
    is, or the diagnostic raises. *)
Lemma ensure_dict_depth_bound_counterexample :
  ~ (exists repr_limit bound : nat,
        forall obj, (bound < nesting obj)%nat ->
                    fst (ensure_dict_run repr_limit obj) = Ok JNull).
Proof.
  intros (repr_limit & bound & Hbound).
  specialize (Hbound (wrap (S bound) (JDict [("a", JNum 1)]))).
  rewrite nesting_wrap in Hbound.
  specialize (Hbound (Nat.lt_succ_diag_r bound)).
  unfold ensure_dict_run in Hbound. rewrite ensure_dict_while_result in Hbound.
  fold (ensure_dict (wrap (S bound) (JDict [("a", JNum 1)]))) in Hbound.
  rewrite ensure_dict_wrap in Hbound.
  destruct (is_list (wrap (S bound) (JDict [("a", JNum 1)]))
            && negb (formats repr_limit (wrap (S bound) (JDict [("a", JNum 1)]))))%bool;
    discriminate Hbound.
Qed.

(* ================================================================== *)
(** ** The Element Fetcher *)
(* ================================================================== *)

Section Fetcher.

Variable server : trace -> request -> reply.

(** The fetcher, computed: one GET for a string identity, none
    otherwise, and never an exception. *)
Lemma get_element_fromAPI_result :
  forall (query_url : string) (element_id : json) (tr : trace),
    get_element_fromAPI server query_url element_id tr =
    match element_id with
    | JStr id =>
        let req := GET (element_url query_url id) in
        (Ok (fetched_element (server tr req)), (tr ++ [req])%list)
    | _ => (Ok JNull, tr)
    end.
Proof.
  intros query_url element_id tr.
  unfold get_element_fromAPI, try_except, bind, lift, session_get, send,
    response_json, element_url.
  destruct element_id as [ | b | n | id | items | flds ]; try reflexivity.
  simpl.
  destruct (server tr (GET ((query_url ++ "/elements/") ++ id))) as [ | resp ];
    [ reflexivity | ].
  simpl. destruct (status_code resp =? 200); [ | reflexivity ].
  destruct (body resp) as [ [ | b | n | s | [ | first rest ] | flds ] | ];
    reflexivity.
Qed.

(** C7, as the code has it.  For every commit scope and element
    identity the fetcher returns a value and never raises.  Success is
    status 200 and nothing else: on any other status, other 2xx
    statuses included, and when no answer comes, it returns [None].  On
    status 200 it returns a mapping body as it is and the first member
    of a sequence body, [None] if the sequence is empty; those are the
    bodies the model server sends.  (Any other body, a JSON scalar or
    text that is not JSON, gives [None] as well.)  An answered request
    is the one GET of the element's URL; an identity that is not a
    string gives [None] without any request. *)
Theorem get_element_fromAPI_contract :
  forall (query_url : string) (element_id : json) (tr : trace),
    let run := get_element_fromAPI server query_url element_id tr in
    (exists v, value_of run = Ok v)
    /\ match element_id with
       | JStr id =>
           let req := GET (element_url query_url id) in
           match server tr req with
           | ConnectionFailed => value_of run = Ok JNull
           | Reply resp =>
               trace_of run = (tr ++ [req])%list
               /\ value_of run
                  = Ok (if status_code resp =? 200 then
                          match body resp with
                          | Some (JDict fields) => JDict fields
                          | Some (JList (first :: _)) => first
                          | Some (JList []) => JNull
                          | Some _ => JNull
                          | None => JNull
                          end
                        else JNull)
           end
       | _ => run = (Ok JNull, tr)
       end.
Proof.
  intros query_url element_id tr run. subst run.
  rewrite get_element_fromAPI_result.
  split.
  - destruct element_id; eexists; reflexivity.
  - destruct element_id as [ | b | n | id | items | flds ]; try reflexivity.
    cbv zeta. unfold value_of, trace_of, fetched_element. cbn [fst snd].
    destruct (server tr (GET (element_url query_url id))) as [ | resp ];
      [ reflexivity | ].
    split; [ reflexivity | ].
    destruct (status_code resp =? 200); [ | reflexivity ].
    destruct (body resp) as [ [ | b | n | s | [ | first rest ] | flds ] | ];
      reflexivity.
Qed.

End Fetcher.

(** C7 as stated fails on a successful answer whose status is not 200.
    The server answers 203, a 2xx status, with the element as a
    mapping; the claim has the fetcher return that mapping, the fetcher
    returns [None]. *)
Lemma get_element_fromAPI_status_counterexample :
  let query_url := "http://host/projects/p1/commits/c1" in
  let req := GET "http://host/projects/p1/commits/c1/elements/e1" in
  proxied_server [] req = Reply (mkResponse 203 "{...}" (Some proxied_element))
  /\ is_success 203 = true
  /\ is_dict proxied_element = true
  /\ get_element_fromAPI proxied_server query_url (JStr "e1") []
     = (Ok JNull, [req])
  /\ value_of (get_element_fromAPI proxied_server query_url (JStr "e1") [])
     <> Ok proxied_element.
Proof.
  repeat split; try reflexivity. discriminate.
Qed.

(* ================================================================== *)
(** ** The Metadata/Annotation Locator *)
(* ================================================================== *)

Lemma pykey_eqb_eq : forall a b, pykey_eqb a b = true <-> a = b.
Proof.
  intros [ | x | x ] [ | y | y ]; simpl; split; intros H;
    try discriminate; try reflexivity.
  - apply Z.eqb_eq in H. now subst.
  - injection H as ->. apply Z.eqb_refl.
  - apply String.eqb_eq in H. now subst.
  - injection H as ->. apply String.eqb_refl.
Qed.

Lemma pykey_eqb_refl : forall k, pykey_eqb k k = true.
Proof. intros k. now apply pykey_eqb_eq. Qed.

Lemma pykey_eq_dec : forall a b : pykey, {a = b} + {a <> b}.
Proof. decide equality; [ apply Z.eq_dec | apply string_dec ]. Qed.

Lemma pd_set_keys_present :
  forall d k v, In k (pd_keys d) -> pd_keys (pd_set d k v) = pd_keys d.
Proof.
  induction d as [ | [k0 x] d IH ]; intros k v Hin; simpl in *.
  - contradiction.
  - destruct (pykey_eqb k0 k) eqn:E; simpl; [ reflexivity | ].
    destruct Hin as [ -> | Hin ].
    + rewrite pykey_eqb_refl in E. discriminate.
    + now rewrite IH.
Qed.

Lemma pd_set_keys_absent :
  forall d k v, ~ In k (pd_keys d) -> pd_keys (pd_set d k v) = (pd_keys d ++ [k])%list.
Proof.
  induction d as [ | [k0 x] d IH ]; intros k v Hout; simpl in *.
  - reflexivity.
  - destruct (pykey_eqb k0 k) eqn:E.
    + apply pykey_eqb_eq in E. subst. exfalso. apply Hout. now left.
    + simpl. rewrite IH; [ reflexivity | ]. intros Hin. apply Hout. now right.
Qed.

Lemma pd_set_all_lists :
  forall d k ids, all_lists d -> all_lists (pd_set d k (JList ids)).
Proof.
  unfold all_lists.
  induction d as [ | [k0 x] d IH ]; intros k ids Hall; simpl.
  - repeat constructor.
  - inversion Hall as [ | ? ? Hx Hd ]; subst.
    destruct (pykey_eqb k0 k); constructor; auto.
Qed.

Lemma pd_get_list :
  forall d k, all_lists d -> In k (pd_keys d) ->
              exists ids, pd_get d k = Some (JList ids).
Proof.
  unfold all_lists.
  induction d as [ | [k0 x] d IH ]; intros k Hall Hin; simpl in *.
  - contradiction.
  - inversion Hall as [ | ? ? Hx Hd ]; subst. simpl in Hx.
    destruct (pykey_eqb k0 k) eqn:E.
    + destruct x; try discriminate. eauto.
    + destruct Hin as [ -> | Hin ].
      * rewrite pykey_eqb_refl in E. discriminate.
      * now apply IH.
Qed.

Lemma empty_results_keys :
  forall keys acc,
    NoDup (pd_keys acc) -> all_lists acc ->
    NoDup (pd_keys (empty_results keys acc))
    /\ all_lists (empty_results keys acc)
    /\ (forall k, In k (pd_keys (empty_results keys acc))
                  <-> In k keys \/ In k (pd_keys acc)).
Proof.
  induction keys as [ | k keys IH ]; intros acc Hnd Hall; simpl.
  - repeat split; auto. intros [ [] | H ]; exact H.
  - assert (Hacc : NoDup (pd_keys (pd_set acc k (JList [])))
                   /\ (forall k', In k' (pd_keys (pd_set acc k (JList [])))
                                  <-> k = k' \/ In k' (pd_keys acc))).
    { destruct (in_dec pykey_eq_dec k (pd_keys acc)) as [ Hin | Hout ].
      - rewrite pd_set_keys_present by exact Hin. split; [ exact Hnd | ].
        intros k'. split; [ now right | ]. intros [ <- | H ]; assumption.
      - rewrite pd_set_keys_absent by exact Hout. split.
        + apply NoDup_app; [ exact Hnd | repeat constructor; intros [] | ].
          intros a Ha [ <- | [] ]. exact (Hout Ha).
        + intros k'. rewrite in_app_iff. simpl. tauto. }
    destruct Hacc as [Hnd' Hkeys'].
    destruct (IH (pd_set acc k (JList [])) Hnd' (pd_set_all_lists acc k [] Hall))
      as (H1 & H2 & H3).
    repeat split; auto.
    + intros Hin. apply H3 in Hin. rewrite Hkeys' in Hin. tauto.
    + intros Hin. apply H3. rewrite Hkeys'. tauto.
Qed.

Lemma results_append_keeps :
  forall results key x,
    all_lists results -> In key (pd_keys results) ->
    keeps_keys (pd_keys results) (results_append results key x).
Proof.
  intros results key x Hall Hin. unfold results_append.
  destruct (pd_get_list results key Hall Hin) as [ids ->]. simpl.
  split; [ now apply pd_set_keys_present | now apply pd_set_all_lists ].
Qed.

(** Sequencing two steps that each keep the keys. *)
Lemma keeps_keys_then :
  forall keys (o : outcome pydict) (k : pydict -> outcome pydict),
    keeps_keys keys o ->
    (forall results, pd_keys results = keys -> all_lists results ->
                     keeps_keys keys (k results)) ->
    keeps_keys keys (obind o k).
Proof.
  intros keys [ results | e ] k Ho Hk; simpl in *.
  - destruct Ho. now apply Hk.
  - exact Ho.
Qed.

(** A read that can only raise [AttributeError]. *)
Lemma keeps_keys_after_get :
  forall keys A (o : outcome A) (k : A -> outcome pydict),
    (forall e, o = Raise e -> e = AttributeError) ->
    (forall a, o = Ok a -> keeps_keys keys (k a)) ->
    keeps_keys keys (obind o k).
Proof.
  intros keys A [ a | e ] k He Hk; simpl.
  - now apply Hk.
  - now apply He.
Qed.

Lemma py_get_default_raises :
  forall v key default e, py_get_default v key default = Raise e -> e = AttributeError.
Proof.
  intros [ | | | | | ] key default e H; simpl in H; congruence.
Qed.

Lemma print_annotated_names_raises :
  forall l e, print_annotated_names l = Raise e -> e = AttributeError.
Proof.
  induction l as [ | annotated rest IH ]; intros e H; simpl in H.
  - discriminate.
  - unfold py_get in H.
    destruct (py_get_default annotated "name" JNull) eqn:E; simpl in H.
    + now apply IH.
    + injection H as <-. eapply py_get_default_raises; eassumption.
Qed.

Lemma collect_annotated_ids_keeps :
  forall annotated_elements results key,
    all_lists results -> In key (pd_keys results) ->
    keeps_keys (pd_keys results) (collect_annotated_ids results key annotated_elements).
Proof.
  induction annotated_elements as [ | annotated rest IH ];
    intros results key Hall Hin; simpl.
  - split; [ reflexivity | exact Hall ].
  - apply keeps_keys_after_get.
    + intros e. apply py_get_default_raises.
    + intros annotated_id _. apply keeps_keys_then.
      * destruct (py_truthy annotated_id).
        -- now apply results_append_keeps.
        -- split; [ reflexivity | exact Hall ].
      * intros results' Hkeys Hall'. rewrite <- Hkeys. apply IH; [ exact Hall' | ].
        now rewrite Hkeys.
Qed.

Lemma correlate_entry_keeps :
  forall item metadata_id results entry,
    all_lists results -> In (fst entry) (pd_keys results) ->
    keeps_keys (pd_keys results) (correlate_entry item metadata_id results entry).
Proof.
  intros item metadata_id results [key metadefinition_id] Hall Hin.
  simpl in Hin. unfold correlate_entry.
  assert (Hsame : keeps_keys (pd_keys results) (Ok results))
    by (split; [ reflexivity | exact Hall ]).
  apply keeps_keys_after_get; [ intros e; apply py_get_default_raises | ].
  intros annotated_elements _.
  apply keeps_keys_after_get.
  { intros e. destruct (py_truthy annotated_elements); [ | discriminate ].
    destruct annotated_elements; try discriminate.
    apply print_annotated_names_raises. }
  intros _ _.
  destruct (py_eq metadata_id metadefinition_id); [ | exact Hsame ].
  apply keeps_keys_after_get; [ intros e; apply py_get_default_raises | ].
  intros annotated _.
  destruct (py_truthy annotated).
  - destruct annotated; try exact Hsame.
    + now apply collect_annotated_ids_keeps.
    + apply keeps_keys_after_get; [ intros e; apply py_get_default_raises | ].
      intros annotated_id _. destruct (py_truthy annotated_id); [ | exact Hsame ].
      now apply results_append_keeps.
  - apply keeps_keys_after_get; [ intros e; apply py_get_default_raises | ].
    intros item_id _. now apply results_append_keeps.
Qed.

Lemma correlate_entries_keeps :
  forall item metadata_id entries results,
    all_lists results ->
    (forall entry, In entry entries -> In (fst entry) (pd_keys results)) ->
    keeps_keys (pd_keys results) (correlate_entries item metadata_id results entries).
Proof.
  induction entries as [ | entry rest IH ]; intros results Hall Hin; simpl.
  - split; [ reflexivity | exact Hall ].
  - apply keeps_keys_then.
    + apply correlate_entry_keeps; [ exact Hall | apply Hin; now left ].
    + intros results' Hkeys Hall'. rewrite <- Hkeys. apply IH; [ exact Hall' | ].
      intros e He. rewrite Hkeys. apply Hin. now right.
Qed.

Lemma correlate_usages_keeps :
  forall metadefinition_dict items results,
    all_lists results ->
    (forall k, In k (pd_keys metadefinition_dict) -> In k (pd_keys results)) ->
    keeps_keys (pd_keys results) (correlate_usages metadefinition_dict results items).
Proof.
  intros metadefinition_dict.
  induction items as [ | item rest IH ]; intros results Hall Hin; simpl.
  - split; [ reflexivity | exact Hall ].
  - apply keeps_keys_then.
    + unfold correlate_usage.
      apply keeps_keys_after_get; [ intros e; apply py_get_default_raises | ].
      intros metadata _.
      apply keeps_keys_after_get.
      { intros e. destruct metadata; discriminate. }
      intros metadata_id _.
      apply correlate_entries_keeps; [ exact Hall | ].
      intros entry He. apply Hin. unfold pd_keys. now apply in_map.
    + intros results' Hkeys Hall'. rewrite <- Hkeys. apply IH; [ exact Hall' | ].
      intros k Hk. rewrite Hkeys. now apply Hin.
Qed.

(** C1, as the code has it.  The locator sends one query.  A failed
    connection, a status other than 200 ([ValueError]) and a body that
    is not JSON raise.  When the body is an empty sequence or not a
    sequence at all, the result is the empty mapping.  When the body is
    a non-empty sequence, the result, if the correlation completes, has
    exactly one entry per key of the input map and every entry is a
    sequence; the only way not to complete is an [AttributeError] on a
    member that is not a mapping. *)
Theorem annotatedElement_ids_entries :
  forall server (query_url : string) (metadefinition_dict : pydict) (tr : trace),
    let req := POST query_url (type_query [] "MetadataUsage") in
    let run := get_metadatausage_annotatedElement_ids
                 server query_url metadefinition_dict tr in
    trace_of run = (tr ++ [req])%list
    /\ match server tr req with
       | ConnectionFailed => value_of run = Raise RequestException
       | Reply resp =>
           if status_code resp =? 200 then
             match body resp with
             | None => value_of run = Raise JSONDecodeError
             | Some (JList (_ :: _)) =>
                 match value_of run with
                 | Ok results =>
                     NoDup (pd_keys results)
                     /\ (forall k, In k (pd_keys results)
                                   <-> In k (pd_keys metadefinition_dict))
                     /\ all_lists results
                 | Raise e => e = AttributeError
                 end
             | Some _ => value_of run = Ok []
             end
           else exists msg, value_of run = Raise (ValueError msg)
       end.
Proof.
  intros server query_url d tr req run. subst run.
  unfold get_metadatausage_annotatedElement_ids, bind, session_post, send.
  fold req.
  destruct (server tr req) as [ | resp ]; [ split; reflexivity | ].
  destruct (status_code resp =? 200) eqn:Hstatus; simpl;
    [ | split; [ reflexivity | eexists; reflexivity ] ].
  unfold response_json.
  destruct (body resp) as [ parsed | ]; [ | split; reflexivity ].
  destruct parsed as [ | b | n | s | [ | item items ] | flds ];
    try (split; reflexivity).
  unfold lift, trace_of, value_of, ret. cbn [fst snd].
  split; [ reflexivity | ].
  destruct (empty_results_keys (pd_keys d) [] (NoDup_nil _) (Forall_nil _))
    as (Hnd & Hall & Hkeys).
  assert (Hsub : forall k, In k (pd_keys d)
                           -> In k (pd_keys (empty_results (pd_keys d) []))).
  { intros k Hk. apply Hkeys. now left. }
  pose proof (correlate_usages_keeps d (item :: items)
                (empty_results (pd_keys d) []) Hall Hsub) as Hkeeps.
  destruct (correlate_usages d (empty_results (pd_keys d) []) (item :: items))
    as [ results | e ]; [ | exact Hkeeps ].
  destruct Hkeeps as [Hsame Hlists].
  rewrite Hsame. repeat split; auto.
  intros Hin. apply Hkeys in Hin. destruct Hin as [ H | [] ]. exact H.
Qed.

(** C1 as stated fails when the query answers with an empty sequence:
    the input map has the key [Domain1], the result has no entry. *)
Lemma annotatedElement_ids_empty_counterexample :
  let metadefinition_dict := [(KStr "Domain1", JStr "m1")] in
  let run := get_metadatausage_annotatedElement_ids empty_list_server
               "http://host/projects/p1/query-results?commitId=c1"
               metadefinition_dict [] in
  value_of run = Ok []
  /\ In (KStr "Domain1") (pd_keys metadefinition_dict)
  /\ forall results, value_of run = Ok results ->
                     ~ In (KStr "Domain1") (pd_keys results).
Proof.
  split; [ reflexivity | ].
  split; [ now left | ].
  intros results H. injection H as <-. intros [].
Qed.

(** The correlation on a small store: the usage of [m1] is credited to
    [Domain1] only. *)
Example annotatedElement_ids_one_usage :
  value_of (get_metadatausage_annotatedElement_ids one_usage_server
              "http://host/projects/p1/query-results?commitId=c1"
              [(KStr "Domain1", JStr "m1"); (KStr "Other", JStr "m2")] [])
  = Ok [(KStr "Domain1", JList [JStr "e1"; JStr "e2"]); (KStr "Other", JList [])].
Proof. reflexivity. Qed.

(* ================================================================== *)
(** ** The Value Resolver over a snapshot store *)
(* ================================================================== *)

Lemma bind_lift_ok :
  forall A B (a : A) (k : A -> M B) tr, bind (lift (Ok a)) k tr = k a tr.
Proof. reflexivity. Qed.

Lemma bind_lift_raise :
  forall A B e (k : A -> M B) tr, bind (lift (Raise e)) k tr = (Raise e, tr).
Proof. reflexivity. Qed.

Lemma bind_ret :
  forall A B (a : A) (k : A -> M B) tr, bind (ret a) k tr = k a tr.
Proof. reflexivity. Qed.

Lemma py_get_present :
  forall v key x, field v key = x -> x <> JNull ->
                  forall default, py_get_default v key default = Ok x.
Proof.
  intros v key x Hfield Hx default. unfold field in Hfield.
  destruct v; try congruence. simpl.
  destruct (dict_get fields0 key); congruence.
Qed.

Lemma py_get_of_dict :
  forall v key, is_dict v = true -> py_get v key = Ok (field v key).
Proof. intros [ | | | | | ] key H; try discriminate. reflexivity. Qed.

Lemma truthy_ensure_dict_is_dict :
  forall v, py_truthy (ensure_dict v) = true -> is_dict (ensure_dict v) = true.
Proof.
  intros v H. destruct (ensure_dict_shape v) as [ E | [flds E] ];
    rewrite E in *; [ discriminate | reflexivity ].
Qed.

Section Snapshot.

Variable server : trace -> request -> reply.

(** The store as of one commit: a GET is answered from it, whatever
    was asked before. *)
Variable store : string -> reply.
Hypothesis snapshot : forall tr url, server tr (GET url) = store url.

Lemma get_element_snapshot :
  forall query_url id tr,
    get_element_fromAPI server query_url id tr
    = (Ok (fetch_value store query_url id),
       (tr ++ fetch_requests query_url id)%list).
Proof.
  intros query_url id tr. rewrite get_element_fromAPI_result.
  destruct id; simpl; try (now rewrite app_nil_r).
  now rewrite snapshot.
Qed.

(** The resolver follows a stub with the same four steps at two places;
    whatever comes after ([K]) and whatever [continue] stands for, the
    steps amount to [resolve_stub]. *)
Lemma inlined_resolution :
  forall (A : Type) (continue : M A) (K : json -> M A) query_url stub tr,
    (if negb (py_truthy (ensure_dict stub)) then continue else
       rid <- lift (py_get (ensure_dict stub) "@id") ;;
       if negb (py_truthy rid) then continue else
         fetched <- get_element_fromAPI server query_url rid ;;
         if negb (py_truthy (ensure_dict fetched)) then continue else K fetched) tr
    = if py_truthy (resolve_stub store query_url stub)
      then K (fetch_value store query_url (field (ensure_dict stub) "@id"))
             (tr ++ stub_requests query_url stub)%list
      else continue (tr ++ stub_requests query_url stub)%list.
Proof.
  intros A continue K query_url stub tr.
  unfold resolve_stub, stub_requests. cbv zeta.
  destruct (ensure_dict_shape stub) as [ -> | [flds ->] ].
  - simpl. now rewrite app_nil_r.
  - destruct flds as [ | kv flds ].
    + simpl. now rewrite app_nil_r.
    + unfold bind, lift, py_get, py_get_default, field.
      cbn [py_truthy negb].
      destruct (dict_get (kv :: flds) "@id") as [ rid | ].
      * destruct (py_truthy rid) eqn:Hrid; cbn [negb].
        -- rewrite get_element_snapshot.
           destruct (py_truthy (ensure_dict (fetch_value store query_url rid)));
             reflexivity.
        -- now rewrite app_nil_r.
      * simpl. now rewrite app_nil_r.
Qed.

Lemma resolved_fetch :
  forall query_url stub,
    py_truthy (resolve_stub store query_url stub) = true ->
    ensure_dict (fetch_value store query_url (field (ensure_dict stub) "@id"))
    = resolve_stub store query_url stub.
Proof.
  intros query_url stub. unfold resolve_stub. cbv zeta.
  destruct (py_truthy (field (ensure_dict stub) "@id")); [ reflexivity | discriminate ].
Qed.

Lemma resolved_is_dict :
  forall query_url stub,
    py_truthy (resolve_stub store query_url stub) = true ->
    is_dict (resolve_stub store query_url stub) = true.
Proof.
  intros query_url stub H. pose proof (resolved_fetch _ _ H) as E.
  rewrite <- E in H |- *. now apply truthy_ensure_dict_is_dict.
Qed.

Lemma typed_is_truthy :
  forall v kind, has_type kind v = true -> py_truthy v = true.
Proof.
  intros v kind. unfold has_type, field.
  destruct v as [ | | | | | [ | kv flds ] ]; simpl; try discriminate.
  reflexivity.
Qed.

(** A stub that does not lead to a [FeatureValue] relationship is
    passed over. *)
Lemma feature_value_loop_skip :
  forall query_url stub rest tr,
    has_type "FeatureValue" (resolve_stub store query_url stub) = false ->
    feature_value_loop server query_url (stub :: rest) tr
    = feature_value_loop server query_url rest
        (tr ++ stub_requests query_url stub)%list.
Proof.
  intros query_url stub rest tr Hkind.
  cbn [feature_value_loop]. rewrite inlined_resolution.
  destruct (py_truthy (resolve_stub store query_url stub)) eqn:Htruthy;
    [ | reflexivity ].
  rewrite (resolved_fetch _ _ Htruthy).
  rewrite (py_get_of_dict _ _ (resolved_is_dict _ _ Htruthy)), bind_lift_ok.
  unfold has_type in Hkind. now rewrite Hkind.
Qed.

Lemma feature_value_loop_none :
  forall query_url stubs tr,
    Forall (fun s => has_type "FeatureValue" (resolve_stub store query_url s) = false)
           stubs ->
    exists tr', feature_value_loop server query_url stubs tr = (Ok None, tr').
Proof.
  intros query_url. induction stubs as [ | stub rest IH ]; intros tr Hall.
  - exists tr. reflexivity.
  - inversion Hall as [ | ? ? Hstub Hrest ]; subst.
    rewrite feature_value_loop_skip by exact Hstub. now apply IH.
Qed.

Lemma field_present_truthy :
  forall v key x, field v key = x -> x <> JNull -> py_truthy v = true.
Proof.
  intros v key x Hfield Hx. unfold field in Hfield.
  destruct v as [ | | | | | [ | kv flds ] ]; simpl in *; congruence.
Qed.

(** A stub that leads to a [FeatureValue] relationship whose first
    related element is a literal ends the loop with the literal's pair. *)
Lemma feature_value_loop_literal :
  forall query_url stub rest tr first others t,
    let relationship := resolve_stub store query_url stub in
    let literal := resolve_stub store query_url first in
    has_type "FeatureValue" relationship = true ->
    field relationship "ownedRelatedElement" = JList (first :: others) ->
    field literal "@type" = JStr t ->
    String.prefix "Literal" t = true ->
    feature_value_loop server query_url (stub :: rest) tr
    = (Ok (Some (JDict [("value_id", field literal "@id");
                        ("value", field literal "value")])),
       ((tr ++ stub_requests query_url stub) ++ stub_requests query_url first)%list).
Proof.
  intros query_url stub rest tr first others t relationship literal
    Hkind Hrelated Htype Hprefix.
  subst relationship literal.
  pose proof (typed_is_truthy _ _ Hkind) as Hrel.
  assert (Hlit : py_truthy (resolve_stub store query_url first) = true).
  { eapply field_present_truthy; [ exact Htype | discriminate ]. }
  cbn [feature_value_loop]. rewrite inlined_resolution, Hrel.
  rewrite (resolved_fetch _ _ Hrel).
  rewrite (py_get_of_dict _ _ (resolved_is_dict _ _ Hrel)), bind_lift_ok.
  unfold has_type in Hkind. rewrite Hkind.
  rewrite (py_get_present _ _ _ Hrelated) by discriminate.
  rewrite bind_lift_ok. cbn [py_truthy negb py_first]. rewrite bind_lift_ok.
  rewrite inlined_resolution, Hlit.
  rewrite (resolved_fetch _ _ Hlit).
  rewrite !(py_get_of_dict _ _ (resolved_is_dict _ _ Hlit)), bind_lift_ok.
  rewrite Htype.
  assert (Hnonempty : py_truthy (JStr t) = true)
    by (destruct t; [ discriminate | reflexivity ]).
  rewrite Hnonempty. cbn [negb py_startswith]. rewrite bind_lift_ok, Hprefix.
  reflexivity.
Qed.

End Snapshot.

(* ================================================================== *)
(** ** The Value Resolver over any server *)
(* ================================================================== *)

Section Resolver.

Variable server : trace -> request -> reply.

Lemma bind_get_element :
  forall B query_url id (k : json -> M B) tr,
    bind (get_element_fromAPI server query_url id) k tr
    = k (fetched_at server query_url id tr)
        (tr ++ fetch_requests query_url id)%list.
Proof.
  intros B query_url id k tr. unfold bind.
  rewrite get_element_fromAPI_result.
  destruct id; simpl; try (now rewrite app_nil_r). reflexivity.
Qed.

Lemma bind_cases :
  forall A B (m : M A) (k : A -> M B) tr,
    bind m k tr = match m tr with
                  | (Ok a, tr') => k a tr'
                  | (Raise e, tr') => (Raise e, tr')
                  end.
Proof. reflexivity. Qed.

Ltac loop_step IH :=
  match goal with
  | |- returns_pair (feature_value_loop _ _ _ _) => apply IH
  | |- returns_pair ((if ?c then _ else _) _) => destruct c
  | |- returns_pair (bind (lift ?o) _ _) =>
      destruct o; [ rewrite bind_lift_ok | exact I ]
  | |- returns_pair (bind (get_element_fromAPI _ _ _) _ _) =>
      rewrite bind_get_element
  | |- returns_pair (bind (getValueFromOperatorExpressionUnit _ _ _) _ ?tr) =>
      rewrite bind_cases;
      destruct (getValueFromOperatorExpressionUnit server _ _ tr) as [ [ ? | ? ] ? ];
      [ | exact I ]
  | |- returns_pair (ret (Some _) _) => eexists; eexists; reflexivity
  end.

(** Whatever the server does, the loop returns nothing or a pair. *)
Lemma feature_value_loop_returns_pair :
  forall query_url stubs tr,
    returns_pair (feature_value_loop server query_url stubs tr).
Proof.
  intros query_url. induction stubs as [ | stub rest IH ]; intros tr.
  - exact I.
  - cbn [feature_value_loop]. repeat loop_step IH.
Qed.

End Resolver.

Lemma string_stub_unresolved :
  forall store query_url kind s,
    has_type kind (resolve_stub store query_url (JStr s)) = false.
Proof. reflexivity. Qed.

Section Undecodable.

Variable server : trace -> request -> reply.
Variable store : string -> reply.
Hypothesis snapshot : forall tr url, server tr (GET url) = store url.




End Undecodable.



Section SnapshotResolver.

Variable server : trace -> request -> reply.
Variable store : string -> reply.
Hypothesis snapshot : forall tr url, server tr (GET url) = store url.

Lemma feature_value_loop_skip_all :
  forall query_url pre rest tr,
    Forall (fun s => has_type "FeatureValue" (resolve_stub store query_url s) = false)
           pre ->
    exists tr',
      feature_value_loop server query_url (pre ++ rest) tr
      = feature_value_loop server query_url rest tr'.
Proof.
  intros query_url. induction pre as [ | stub pre IH ]; intros rest tr Hall.
  - exists tr. reflexivity.
  - inversion Hall as [ | ? ? Hstub Hpre ]; subst.
    rewrite <- app_comm_cons.
    rewrite (feature_value_loop_skip server store snapshot) by exact Hstub.
    now apply IH.
Qed.

(** C5.  Over a snapshot store, take a feature with exactly one
    [FeatureValue] relationship among its owned relationships, whose
    first [ownedRelatedElement] resolves to an element whose [@type]
    starts with [Literal].  The resolver returns the pair of that
    element's [@id] and its [value] field. *)
Theorem getFeatureValueFromFeature_literal :
  forall (server_url project_id commit_id : json) (feature_id : string)
         (pre post : list json) (stub first : json) (others : list json)
         (t : string) (tr : trace),
    let query_url := commit_url server_url project_id commit_id in
    let feature := ensure_dict (fetch store query_url feature_id) in
    let relationship := resolve_stub store query_url stub in
    let literal := resolve_stub store query_url first in
    field feature "ownedRelationship" = JList (pre ++ stub :: post) ->
    Forall (fun s => has_type "FeatureValue" (resolve_stub store query_url s) = false)
           (pre ++ post) ->
    has_type "FeatureValue" relationship = true ->
    field relationship "ownedRelatedElement" = JList (first :: others) ->
    field literal "@type" = JStr t ->
    String.prefix "Literal" t = true ->
    value_of (getFeatureValueFromFeature server server_url project_id commit_id
                (JStr feature_id) tr)
    = Ok (JDict [("value_id", field literal "@id");
                 ("value", field literal "value")]).
Proof.
  intros server_url project_id commit_id feature_id pre post stub first others
    t tr query_url feature relationship literal
    Hfeature Hothers Hkind Hrelated Htype Hprefix.
  apply Forall_app in Hothers. destruct Hothers as [Hpre _].
  unfold getFeatureValueFromFeature, try_except, value_of. fold query_url.
  rewrite bind_get_element.
  assert (Hfetch : fetched_at server query_url (JStr feature_id) tr
                   = fetch store query_url feature_id)
    by (simpl; now rewrite snapshot).
  rewrite Hfetch. fold feature.
  assert (Htruthy : py_truthy feature = true)
    by (eapply field_present_truthy; [ exact Hfeature | discriminate ]).
  rewrite Htruthy. cbn [negb].
  rewrite (py_get_present _ _ _ Hfeature) by discriminate.
  rewrite bind_lift_ok. cbn [py_iter]. rewrite bind_lift_ok, bind_cases.
  destruct (feature_value_loop_skip_all query_url pre (stub :: post)
              (tr ++ fetch_requests query_url (JStr feature_id))%list Hpre)
    as [tr' ->].
  rewrite (feature_value_loop_literal server store snapshot query_url stub post tr'
             first others t Hkind Hrelated Htype Hprefix).
  reflexivity.
Qed.

End SnapshotResolver.

Lemma getFeatureValueFromFeature_literal_witness :
  value_of (getFeatureValueFromFeature demo_server (JStr "http://host")
              (JStr "p1") (JStr "c1") (JStr "f1") [])
  = Ok (JDict [("value_id", JStr "v1"); ("value", JNum 42)]).
Proof.
  apply (getFeatureValueFromFeature_literal demo_server demo_store
           (fun _ _ => eq_refl)
           (JStr "http://host") (JStr "p1") (JStr "c1") "f1"
           [stub "r0"] [] (stub "r1") (stub "v1") [] "LiteralInteger" []).
  - reflexivity.
  - repeat constructor.
  - reflexivity.
  - reflexivity.
  - reflexivity.
  - reflexivity.
Defined.

(* ================================================================== *)
(** ** The Operator Expression decoder *)
(* ================================================================== *)

Section Decoder.

Variable server : trace -> request -> reply.
Variable store : string -> reply.
Hypothesis snapshot : forall tr url, server tr (GET url) = store url.

Lemma bind_get_snapshot :
  forall B query_url id (k : json -> M B) tr,
    bind (get_element_fromAPI server query_url id) k tr
    = k (fetch_value store query_url id)
        (tr ++ fetch_requests query_url id)%list.
Proof.
  intros B query_url id k tr. unfold bind.
  now rewrite (get_element_snapshot server store snapshot).
Qed.

Lemma target_of_dict :
  forall query_url s,
    is_dict (target store query_url s) = true ->
    exists id, py_item s "@id" = Ok id
               /\ fetch_value store query_url id = target store query_url s.
Proof.
  intros query_url s H. unfold target in *.
  destruct s as [ | | | | | d ]; try discriminate. simpl.
  destruct (dict_get d "@id") as [ id | ]; [ | discriminate ].
  now exists id.
Qed.

Lemma py_item_present :
  forall v key x, field v key = x -> x <> JNull -> py_item v key = Ok x.
Proof.
  intros v key x Hfield Hx. unfold field in Hfield.
  destruct v; try congruence. simpl.
  destruct (dict_get fields0 key); congruence.
Qed.

(** The test the loop makes on a fetched relationship. *)
Lemma selection_test :
  forall relationship (K : bool -> M json) tr,
    is_dict relationship = true ->
    (rel_type <- lift (py_get relationship "@type") ;;
     selected <- (if py_eq rel_type (JStr "ParameterMembership") then
                    memberName <- lift (py_get relationship "memberName") ;;
                    ret (py_eq memberName (JStr "x"))
                  else ret false) ;;
     K selected) tr
    = K (is_parameter_x relationship) tr.
Proof.
  intros relationship K tr Hdict.
  unfold is_parameter_x, has_type.
  rewrite !(py_get_of_dict _ _ Hdict), bind_lift_ok.
  destruct (py_eq (field relationship "@type") (JStr "ParameterMembership"));
    reflexivity.
Qed.

Lemma operator_expression_loop_skip :
  forall query_url s rest tr,
    is_dict (target store query_url s) = true ->
    is_parameter_x (target store query_url s) = false ->
    exists tr',
      operator_expression_loop server query_url (s :: rest) tr
      = operator_expression_loop server query_url rest tr'.
Proof.
  intros query_url s rest tr Hdict Hother.
  destruct (target_of_dict _ _ Hdict) as (id & Hid & Hfetch).
  cbn [operator_expression_loop].
  rewrite Hid, bind_lift_ok, bind_get_snapshot, Hfetch.
  eexists. rewrite (selection_test _ _ _ Hdict), Hother. reflexivity.
Qed.

Lemma typed_is_dict :
  forall v kind, has_type kind v = true -> is_dict v = true.
Proof.
  intros v kind. unfold has_type, field.
  destruct v; simpl; try discriminate. reflexivity.
Qed.

(** [v[key]["@id"]] when the reference is there. *)
Lemma py_item_reference :
  forall v key id,
    field (field v key) "@id" = JStr id ->
    py_item v key = Ok (field v key)
    /\ py_item (field v key) "@id" = Ok (JStr id).
Proof.
  intros v key id H. split.
  - apply py_item_present; [ reflexivity | ].
    intros E. rewrite E in H. discriminate.
  - apply py_item_present; [ exact H | discriminate ].
Qed.

Lemma operator_expression_loop_select :
  forall query_url s rest tr mid fv_stub more fvid vid,
    let relationship := target store query_url s in
    let memberElement := fetch store query_url mid in
    let featureValue := fetch store query_url fvid in
    is_parameter_x relationship = true ->
    field (field relationship "memberElement") "@id" = JStr mid ->
    field memberElement "ownedRelationship" = JList (fv_stub :: more) ->
    field fv_stub "@id" = JStr fvid ->
    field (field featureValue "memberElement") "@id" = JStr vid ->
    value_of (operator_expression_loop server query_url (s :: rest) tr)
    = Ok (fetch store query_url vid).
Proof.
  intros query_url s rest tr mid fv_stub more fvid vid
    relationship memberElement featureValue Hsel Hmember Howned Hstub Hvalue.
  assert (Hdict : is_dict relationship = true).
  { unfold is_parameter_x in Hsel. apply andb_prop in Hsel.
    eapply typed_is_dict. exact (proj1 Hsel). }
  destruct (target_of_dict _ _ Hdict) as (id & Hid & Hfetch).
  destruct (py_item_reference _ _ _ Hmember) as [Hm1 Hm2].
  destruct (py_item_reference _ _ _ Hvalue) as [Hv1 Hv2].
  unfold value_of. cbn [operator_expression_loop].
  rewrite Hid, bind_lift_ok, bind_get_snapshot, Hfetch.
  fold relationship.
  rewrite (selection_test _ _ _ Hdict), Hsel.
  rewrite Hm1, bind_lift_ok, Hm2, bind_lift_ok, bind_get_snapshot.
  cbn [fetch_value]. fold memberElement.
  rewrite (py_item_present _ _ _ Howned) by discriminate.
  rewrite bind_lift_ok. cbn [py_first]. rewrite bind_lift_ok.
  rewrite (py_item_present _ _ _ Hstub) by discriminate.
  rewrite bind_lift_ok, bind_get_snapshot.
  cbn [fetch_value]. fold featureValue.
  rewrite Hv1, bind_lift_ok, Hv2, bind_lift_ok.
  rewrite (get_element_snapshot server store snapshot). reflexivity.
Qed.

Lemma operator_expression_loop_skip_all :
  forall query_url pre rest tr,
    Forall (fun s => is_dict (target store query_url s) = true
                     /\ is_parameter_x (target store query_url s) = false) pre ->
    exists tr',
      operator_expression_loop server query_url (pre ++ rest) tr
      = operator_expression_loop server query_url rest tr'.
Proof.
  intros query_url. induction pre as [ | s pre IH ]; intros rest tr Hall.
  - exists tr. reflexivity.
  - inversion Hall as [ | ? ? [Hdict Hother] Hpre ]; subst.
    rewrite <- app_comm_cons.
    destruct (operator_expression_loop_skip query_url s (pre ++ rest) tr Hdict Hother)
      as [tr1 ->].
    now apply IH.
Qed.

(** What the decoder does at the membership it selects: it follows the
    chain and returns the element at its end if every link is there,
    and raises if one is not. *)
Lemma operator_expression_loop_chain :
  forall query_url s rest tr,
    let relationship := target store query_url s in
    is_parameter_x relationship = true ->
    match value_of (operator_expression_loop server query_url (s :: rest) tr) with
    | Ok v => chain_complete store query_url relationship = true
              /\ v = parameter_value store query_url relationship
    | Raise _ => chain_complete store query_url relationship = false
    end.
Proof.
  intros query_url s rest tr relationship Hsel.
  assert (Hdict : is_dict relationship = true).
  { unfold is_parameter_x in Hsel. apply andb_prop in Hsel.
    eapply typed_is_dict. exact (proj1 Hsel). }
  destruct (target_of_dict _ _ Hdict) as (id & Hid & Hfetch).
  unfold value_of. cbn [operator_expression_loop].
  rewrite Hid, bind_lift_ok, bind_get_snapshot, Hfetch.
  fold relationship.
  rewrite (selection_test _ _ _ Hdict), Hsel.
  unfold chain_complete, parameter_value, parameter_binding, parameter_feature.
  cbv zeta. clear Hsel Hfetch Hid. clearbody relationship.
  destruct relationship as [ | | | | | d ]; try discriminate.
  cbn [has_key field py_item].
  destruct (dict_get d "memberElement") as [ member_stub | ]; [ | reflexivity ].
  rewrite bind_lift_ok.
  destruct member_stub as [ | | | | | d1 ]; try reflexivity.
  cbn [has_key field py_item].
  destruct (dict_get d1 "@id") as [ member_id | ]; [ | reflexivity ].
  rewrite bind_lift_ok, bind_get_snapshot.
  destruct (fetch_value store query_url member_id) as [ | | | | | d2 ];
    try reflexivity.
  cbn [has_key field py_item andb].
  destruct (dict_get d2 "ownedRelationship") as [ owned | ]; [ | reflexivity ].
  rewrite bind_lift_ok.
  destruct owned as [ | | | [ | c cs ] | [ | first_owned more ] | d3 ];
    try reflexivity.
  cbn [py_first first_member]. rewrite bind_lift_ok.
  destruct first_owned as [ | | | | | d4 ]; try reflexivity.
  cbn [has_key field py_item].
  destruct (dict_get d4 "@id") as [ value_rel_id | ]; [ | reflexivity ].
  rewrite bind_lift_ok, bind_get_snapshot.
  destruct (fetch_value store query_url value_rel_id) as [ | | | | | d5 ];
    try reflexivity.
  cbn [has_key field py_item andb].
  destruct (dict_get d5 "memberElement") as [ value_stub | ]; [ | reflexivity ].
  rewrite bind_lift_ok.
  destruct value_stub as [ | | | | | d6 ]; try reflexivity.
  cbn [has_key field py_item].
  destruct (dict_get d6 "@id") as [ value_id | ]; [ | reflexivity ].
  rewrite bind_lift_ok.
  rewrite (get_element_snapshot server store snapshot).
  split; reflexivity.
Qed.

(** A stub whose element is not a mapping makes the decoder raise. *)
Lemma operator_expression_loop_unreadable :
  forall query_url s rest tr,
    is_dict (target store query_url s) = false ->
    exists e,
      value_of (operator_expression_loop server query_url (s :: rest) tr) = Raise e.
Proof.
  intros query_url s rest tr Hnot.
  unfold value_of. cbn [operator_expression_loop].
  unfold target in Hnot.
  destruct s as [ | | | | | d ]; try (eexists; reflexivity).
  cbn [py_item].
  destruct (dict_get d "@id") as [ id | ]; [ | eexists; reflexivity ].
  rewrite bind_lift_ok, bind_get_snapshot.
  destruct (fetch_value store query_url id); try discriminate;
    eexists; reflexivity.
Qed.

(** C6, as the code has it.  Over a snapshot store, let the
    expression's [ownedRelationship] be a sequence of stubs, which the
    decoder takes in order, fetching each.  Stubs that point to a
    mapping other than a [ParameterMembership] named [x] are passed
    over.  At the first stub that points to such a membership the
    decoder follows the chain: it fetches the membership's
    [memberElement], takes the first owned relationship of that feature,
    fetches it, and fetches the element which its [memberElement]
    references.  If every link of the chain is there it returns what
    that last fetch gives; if a link is missing it raises; no later
    stub is consulted either way.  A stub that does not point to a
    mapping, met before any such membership, makes it raise.  If every
    stub points to a mapping and none is such a membership, the decoder
    returns [None]. *)
Theorem getValueFromOperatorExpressionUnit_walk :
  forall (query_url : string) (opExp : json) (pre : list json) (tr : trace),
    let run := getValueFromOperatorExpressionUnit server query_url opExp tr in
    Forall (fun s => is_dict (target store query_url s) = true
                     /\ is_parameter_x (target store query_url s) = false) pre ->
    (forall s post,
        field opExp "ownedRelationship" = JList (pre ++ s :: post) ->
        let relationship := target store query_url s in
        (is_parameter_x relationship = true ->
         match value_of run with
         | Ok v => chain_complete store query_url relationship = true
                   /\ v = parameter_value store query_url relationship
         | Raise _ => chain_complete store query_url relationship = false
         end)
        /\ (is_dict relationship = false -> exists e, value_of run = Raise e))
    /\ (field opExp "ownedRelationship" = JList pre -> value_of run = Ok JNull).
Proof.
  intros query_url opExp pre tr run Hpre. subst run.
  assert (Henter : forall stubs,
             field opExp "ownedRelationship" = JList stubs ->
             value_of (getValueFromOperatorExpressionUnit server query_url opExp tr)
             = value_of (operator_expression_loop server query_url stubs tr)).
  { intros stubs Howned.
    unfold getValueFromOperatorExpressionUnit, value_of.
    unfold py_get. rewrite (py_get_present _ _ _ Howned) by discriminate.
    rewrite bind_lift_ok. cbn [py_iter]. now rewrite bind_lift_ok. }
  split.
  - intros s post Howned relationship.
    rewrite (Henter _ Howned).
    destruct (operator_expression_loop_skip_all query_url pre (s :: post) tr Hpre)
      as [tr1 ->].
    split.
    + apply operator_expression_loop_chain.
    + apply operator_expression_loop_unreadable.
  - intros Howned. rewrite (Henter _ Howned).
    rewrite <- (app_nil_r pre).
    destruct (operator_expression_loop_skip_all query_url pre [] tr Hpre)
      as [tr1 ->].
    reflexivity.
Qed.

End Decoder.

Lemma getValueFromOperatorExpressionUnit_walk_witness :
  value_of (getValueFromOperatorExpressionUnit demo_server demo_url
              (fetch demo_store demo_url "x1") [])
  = Ok (JDict [("@id", JStr "lit9"); ("@type", JStr "LiteralString");
               ("value", JStr "ok")])
  /\ value_of (getValueFromOperatorExpressionUnit demo_server demo_url
                 (JDict [("ownedRelationship", JList [stub "pm0"])]) [])
     = Ok JNull
  /\ (exists e,
         value_of (getValueFromOperatorExpressionUnit broken_server demo_url
                     broken_expression []) = Raise e)
  /\ (exists e,
         value_of (getValueFromOperatorExpressionUnit demo_server demo_url
                     dangling_expression []) = Raise e).
Proof.
  assert (Hpre : forall store,
             store (element_url demo_url "pm0")
             = demo_store (element_url demo_url "pm0") ->
             Forall (fun s => is_dict (target store demo_url s) = true
                              /\ is_parameter_x (target store demo_url s) = false)
                    [stub "pm0"]).
  { intros store Hstore. constructor; [ | constructor ].
    unfold target, stub, fetch_value, fetch. cbn [dict_get String.eqb Ascii.eqb Bool.eqb].
    rewrite Hstore. split; reflexivity. }
  split; [ | split; [ | split ] ].
  - pose proof (proj1 (proj1 (getValueFromOperatorExpressionUnit_walk
                                demo_server demo_store (fun _ _ => eq_refl) demo_url
                                (fetch demo_store demo_url "x1") [stub "pm0"] []
                                (Hpre demo_store eq_refl))
                         (stub "pm1") [] eq_refl) eq_refl) as Hchain.
    destruct (value_of (getValueFromOperatorExpressionUnit demo_server demo_url
                          (fetch demo_store demo_url "x1") [])) as [ v | e ].
    + destruct Hchain as [_ ->]. reflexivity.
    + discriminate Hchain.
  - exact (proj2 (getValueFromOperatorExpressionUnit_walk
                    demo_server demo_store (fun _ _ => eq_refl) demo_url
                    (JDict [("ownedRelationship", JList [stub "pm0"])])
                    [stub "pm0"] [] (Hpre demo_store eq_refl)) eq_refl).
  - pose proof (proj1 (proj1 (getValueFromOperatorExpressionUnit_walk
                                broken_server broken_store (fun _ _ => eq_refl) demo_url
                                broken_expression [stub "pm0"] []
                                (Hpre broken_store eq_refl))
                         (stub "pm2") [] eq_refl) eq_refl) as Hchain.
    destruct (value_of (getValueFromOperatorExpressionUnit broken_server demo_url
                          broken_expression [])) as [ v | e ].
    + destruct Hchain as [Hcomplete _]. discriminate Hcomplete.
    + exists e. reflexivity.
  - exact (proj2 (proj1 (getValueFromOperatorExpressionUnit_walk
                           demo_server demo_store (fun _ _ => eq_refl) demo_url
                           dangling_expression [] [] (Forall_nil _))
                    (stub "gone") [] eq_refl) eq_refl).
Defined.

(** C6 as stated fails when a stub cannot be fetched: no
    [ParameterMembership] named [x] exists, yet the decoder raises
    instead of returning [None]. *)
Lemma getValueFromOperatorExpressionUnit_dangling_counterexample :
  field dangling_expression "ownedRelationship" = JList [stub "gone"]
  /\ is_parameter_x (target demo_store demo_url (stub "gone")) = false
  /\ value_of (getValueFromOperatorExpressionUnit demo_server demo_url
                 dangling_expression [])
     = Raise AttributeError
  /\ value_of (getValueFromOperatorExpressionUnit demo_server demo_url
                 dangling_expression [])
     <> Ok JNull.
Proof.
  repeat split; try reflexivity. discriminate.
Qed.

(* ================================================================== *)
(** ** The single-feature query *)
(* ================================================================== *)

Lemma py_get_field_of_dict :
  forall v key default,
    is_dict v = true ->
    exists x, py_get_default v key default = Ok x.
Proof.
  intros [ | | | | | d ] key default H; try discriminate.
  eexists. reflexivity.
Qed.

Lemma py_get_not_dict :
  forall v key default,
    is_dict v = false -> py_get_default v key default = Raise AttributeError.
Proof.
  intros [ | | | | | d ] key default H; try reflexivity. discriminate.
Qed.

(** C9.  In [queryFeatureValue], when the fetched element's [@type]
    neither starts with [Literal] nor equals [OperatorExpression], no
    assignment to [value] runs.  The view raises, and the decorator
    turns the exception into the generic 500 answer; no [name=value]
    text is returned.  When the owner of the element can be fetched as
    a mapping, the exception is the [UnboundLocalError] of reading
    [value]. *)
Theorem queryFeatureValue_unassigned_value :
  forall server interp_text (request_fields : list (string * json))
         (tr : trace) (t : string),
    let input_data := JDict request_fields in
    let query_url := commit_url (field input_data "server_url")
                       (field input_data "project_id")
                       (field input_data "commit_id") in
    let element_id := field input_data "element_id" in
    let featureValue := fetched_at server query_url element_id tr in
    let owner :=
      fetched_at server query_url (field (field featureValue "owner") "@id")
        (tr ++ fetch_requests query_url element_id)%list in
    field featureValue "@type" = JStr t ->
    String.prefix "Literal" t = false ->
    t <> "OperatorExpression" ->
    exists e,
      (e = AttributeError \/ e = UnboundLocalError)
      /\ value_of (queryFeatureValue_view server input_data tr) = Raise e
      /\ value_of (queryFeatureValue server interp_text input_data tr)
         = Ok (Json (JDict [("error", JStr (str_exn interp_text e))]) 500)
      /\ (is_dict (field featureValue "owner") = true ->
          is_dict owner = true -> e = UnboundLocalError).
Proof.
  intros server interp_text request_fields tr t input_data query_url element_id
    featureValue owner Htype Hliteral Hoperator.
  assert (Hview : exists e,
             (e = AttributeError \/ e = UnboundLocalError)
             /\ value_of (queryFeatureValue_view server input_data tr) = Raise e
             /\ (is_dict (field featureValue "owner") = true ->
                 is_dict owner = true -> e = UnboundLocalError)).
  { unfold queryFeatureValue_view, value_of.
    assert (Hinput : is_dict input_data = true) by reflexivity.
    rewrite !(py_get_of_dict _ _ Hinput), !bind_lift_ok.
    fold query_url element_id. rewrite bind_get_element. fold featureValue.
    assert (Hdict : is_dict featureValue = true).
    { unfold field in Htype. destruct featureValue; try discriminate. reflexivity. }
    rewrite (py_get_of_dict _ "@type" Hdict), (py_get_of_dict _ "owner" Hdict).
    rewrite (bind_lift_ok _ _ (field featureValue "@type")), Htype.
    cbn [py_startswith]. rewrite Hliteral.
    rewrite (bind_lift_ok _ _ false).
    assert (Hneq : py_eq (JStr t) (JStr "OperatorExpression") = false).
    { simpl. apply String.eqb_neq. exact Hoperator. }
    rewrite bind_cases, bind_lift_ok, Hneq. unfold ret at 1.
    rewrite bind_lift_ok.
    destruct (is_dict (field featureValue "owner")) eqn:Hstub.
    - rewrite (py_get_of_dict _ _ Hstub), bind_lift_ok, bind_get_element.
      fold owner.
      destruct (is_dict owner) eqn:Howner.
      + destruct (py_get_field_of_dict owner "name" (JStr "Unknown Owner") Howner)
          as [name ->].
        rewrite bind_lift_ok.
        exists UnboundLocalError. repeat split; auto.
      + rewrite (py_get_not_dict _ _ _ Howner), bind_lift_raise.
        exists AttributeError. repeat split; auto. discriminate.
    - unfold py_get. rewrite (py_get_not_dict _ _ _ Hstub), bind_lift_raise.
      exists AttributeError. repeat split; auto. discriminate. }
  destruct Hview as (e & Hkind & Hraise & Hunbound).
  exists e. repeat split; auto.
  unfold queryFeatureValue, handle_errors, try_except, value_of in *.
  destruct (queryFeatureValue_view server input_data tr) as [ [ r | e' ] tr' ];
    simpl in Hraise; [ discriminate | ].
  injection Hraise as ->.
  destruct Hkind as [ -> | -> ]; reflexivity.
Qed.

Lemma queryFeatureValue_unassigned_value_witness :
  value_of (queryFeatureValue_view demo_server (demo_request "u1") [])
  = Raise UnboundLocalError.
Proof.
  destruct (queryFeatureValue_unassigned_value demo_server (fun _ => "")
              [("server_url", JStr "http://host"); ("project_id", JStr "p1");
               ("commit_id", JStr "c1"); ("element_id", JStr "u1")]
              [] "FeatureReferenceExpression")
    as (e & _ & Hraise & _ & Hunbound).
  - reflexivity.
  - reflexivity.
  - discriminate.
  - rewrite <- (Hunbound eq_refl eq_refl). exact Hraise.
Defined.

(* ================================================================== *)
(** ** Required identifiers *)
(* ================================================================== *)

(** [getDomainFeatures] checks its identifiers first: when one of
    [server_url], [project_id], [commit_id] is missing or empty it
    raises [ValueError] and has sent nothing. *)
Lemma getDomainFeatures_requires_identifiers :
  forall server interp_text (request_fields : list (string * json)) (tr : trace),
    let input_data := JDict request_fields in
    (py_truthy (field input_data "server_url")
     && py_truthy (field input_data "project_id")
     && py_truthy (field input_data "commit_id"))%bool = false ->
    getDomainFeatures_view server interp_text input_data tr
    = (Raise (ValueError "Server_url, project_id, and commit_id are required."), tr).
Proof.
  intros server interp_text request_fields tr input_data Hmissing.
  unfold getDomainFeatures_view.
  assert (Hinput : is_dict input_data = true) by reflexivity.
  rewrite !(py_get_of_dict _ _ Hinput).
  destruct (py_get_field_of_dict input_data "domain_name" JNull Hinput) as [d ->].
  destruct (py_get_field_of_dict input_data "attribute_name" JNull Hinput) as [a ->].
  rewrite !bind_lift_ok.
  destruct (py_truthy (field input_data "server_url")),
           (py_truthy (field input_data "project_id")),
           (py_truthy (field input_data "commit_id"));
    try discriminate; reflexivity.
Qed.

(** C3 on the code.  [queryFeatureValue] and [writeFeatureValue] make
    no such check.  With [project_id] missing from the request, the
    f-string writes [None] into the URL and the requests are sent: the
    query answers [mass=42] after two GETs, the write answers a commit
    id after a GET and a POST, and neither raises.  The same request
    makes [getDomainFeatures] raise with nothing sent. *)
Theorem missing_project_id_reaches_network :
  field request_without_project "project_id" = JNull
  /\ queryFeatureValue literal_server (fun _ => "") request_without_project []
     = (Ok (Text "mass=42"),
        [GET "http://host/projects/None/commits/c1/elements/v1";
         GET "http://host/projects/None/commits/c1/elements/f1"])
  /\ (exists commit_structure,
        writeFeatureValue literal_server (fun _ => "") request_without_project []
        = (Ok (Text "v1"),
           [GET "http://host/projects/None/commits/c1/elements/v1";
            POST "http://host/projects/None/commits" commit_structure]))
  /\ getDomainFeatures_view literal_server (fun _ => "") request_without_project []
     = (Raise (ValueError "Server_url, project_id, and commit_id are required."), []).
Proof.
  split; [ reflexivity | ].
  split; [ vm_compute; reflexivity | ].
  split; [ eexists; vm_compute; reflexivity | ].
  reflexivity.
Qed.

(* ================================================================== *)
(** ** The tabular output *)
(* ================================================================== *)

Example header_record_text :
  header_record
  = "@id,type,name,value,value_id,owner" ++ String CR (String LF "").
Proof. reflexivity. Qed.

Lemma string_app_assoc :
  forall a b c : string, ((a ++ b) ++ c = a ++ (b ++ c))%string.
Proof.
  induction a as [ | x a IH ]; intros b c; simpl; [ | rewrite IH ]; reflexivity.
Qed.

Lemma py_eq_str :
  forall v s, py_eq v (JStr s) = true -> v = JStr s.
Proof.
  intros [ | | | x | | ] s H; simpl in H; try discriminate.
  apply String.eqb_eq in H. now subst.
Qed.

(** A cell without a comma, followed by the [AttributeUsage] cell,
    cannot begin the header. *)
Lemma no_header_after_plain_cell :
  forall cell tail,
    occurs "," cell = false ->
    String.prefix header_record (cell ++ String "," (String "A" tail)) = false.
Proof.
  intros cell tail Hplain.
  let h := eval vm_compute in header_record in change header_record with h.
  destruct cell as [ | c1 [ | c2 [ | c3 [ | c4 cell ] ] ] ];
    cbv - [Ascii.ascii_dec occurs];
    repeat match goal with
           | |- context [ Ascii.ascii_dec ?a ?b ] =>
               let E := fresh "E" in
               destruct (Ascii.ascii_dec a b) as [ E | E ];
               [ first [ discriminate E | subst ] | reflexivity ]
           end;
    try reflexivity.
  simpl in Hplain. discriminate Hplain.
Qed.

Lemma no_header_before_cell :
  forall v tail,
    String.prefix header_record (csv_cell v ++ String "," (String "A" tail)) = false.
Proof.
  intros v tail. unfold csv_cell.
  destruct (needs_quotes (cell_text v)) eqn:Hquotes.
  - reflexivity.
  - apply no_header_after_plain_cell.
    unfold needs_quotes in Hquotes.
    destruct (occurs "," (cell_text v)); [ discriminate | reflexivity ].
Qed.

Lemma writerows_no_header :
  forall rows s,
    Forall is_attribute_row rows ->
    writerows fields rows = Ok s ->
    String.prefix header_record s = false.
Proof.
  intros [ | row rest ] s Hrows Hwritten.
  - injection Hwritten as <-. reflexivity.
  - inversion Hrows as [ | ? ? (id & name & value & value_id & owner & ->) _ ]; subst.
    cbn [writerows] in Hwritten.
    change (dict_to_list fields
              (JDict [("@id", id); ("type", JStr "AttributeUsage"); ("name", name);
                      ("value", value); ("value_id", value_id); ("owner", owner)]))
      with (Ok [id; JStr "AttributeUsage"; name; value; value_id; owner])
      in Hwritten.
    cbn [obind] in Hwritten.
    destruct (writerows fields rest) as [ written | e ]; [ | discriminate ].
    cbn [obind] in Hwritten. injection Hwritten as <-.
    cbn [csv_record map join].
    change (csv_cell (JStr "AttributeUsage")) with "AttributeUsage".
    rewrite !string_app_assoc. cbn [append].
    apply no_header_before_cell.
Qed.

Section Tabular.

Variable server : trace -> request -> reply.

Lemma attribute_type_field :
  forall d,
    py_eq (match dict_get d "@type" with Some x => x | None => JNull end)
          (JStr "AttributeUsage") = true ->
    match dict_get d "@type" with Some x => x | None => JStr "" end
    = JStr "AttributeUsage".
Proof.
  intros d H. destruct (dict_get d "@type") as [ x | ].
  - now apply py_eq_str.
  - discriminate.
Qed.

Ltac rows_step :=
  match goal with
  | |- collects_attribute_rows (bind (lift ?o) _ _) =>
      destruct o; [ rewrite bind_lift_ok | exact I ]
  | |- collects_attribute_rows (bind ?m _ ?tr) =>
      rewrite bind_cases; destruct (m tr) as [ [ ? | ? ] ? ]; [ | exact I ]
  end.

(** Every row the loop appends is a row of an [AttributeUsage]. *)
Lemma collect_rows_attribute_rows :
  forall server_url project_id commit_id elements csv_elements tr,
    Forall is_attribute_row csv_elements ->
    collects_attribute_rows
      (collect_rows server server_url project_id commit_id elements csv_elements tr).
Proof.
  intros server_url project_id commit_id.
  induction elements as [ | item rest IH ]; intros csv_elements tr Hrows.
  - exact Hrows.
  - cbn [collect_rows].
    destruct (ensure_dict_shape item) as [ -> | [d ->] ]; [ now apply IH | ].
    destruct d as [ | kv d ]; [ now apply IH | ].
    cbn [py_truthy negb]. unfold py_get at 1. cbn [py_get_default].
    rewrite bind_lift_ok.
    destruct (py_eq _ (JStr "AttributeUsage")) eqn:Htype; cbn [negb];
      [ | now apply IH ].
    apply attribute_type_field in Htype.
    unfold py_get. cbn [py_get_default]. rewrite bind_lift_ok.
    rows_step. rewrite bind_lift_ok. rows_step.
    rewrite !bind_lift_ok. rows_step. rows_step. rows_step.
    apply IH. apply Forall_app. split; [ exact Hrows | ].
    constructor; [ | constructor ].
    rewrite Htype. repeat eexists.
Qed.

(** C10.  The text [outputAttributesToCSV] returns is what
    [writerows] wrote for the collected rows, every one of them the
    row of an [AttributeUsage]: without elements it is empty, and it
    never begins with the record of the column names, which only
    [writeheader] would write. *)
Theorem outputAttributesToCSV_no_header :
  forall (server_url project_id commit_id : json) (elements : list json)
         (tr : trace),
    outputAttributesToCSV server server_url project_id commit_id [] tr
    = (Ok (Text ""), tr)
    /\ forall s,
         value_of (outputAttributesToCSV server server_url project_id commit_id
                     elements tr) = Ok (Text s) ->
         String.prefix header_record s = false
         /\ exists rows,
              value_of (collect_rows server server_url project_id commit_id
                          elements [] tr) = Ok rows
              /\ Forall is_attribute_row rows
              /\ writerows fields rows = Ok s.
Proof.
  intros server_url project_id commit_id elements tr.
  split; [ reflexivity | ].
  intros s Hrun.
  unfold outputAttributesToCSV, try_except, value_of in *.
  rewrite bind_cases in Hrun.
  pose proof (collect_rows_attribute_rows server_url project_id commit_id
                elements [] tr (Forall_nil _)) as Hrows.
  unfold collects_attribute_rows in Hrows.
  destruct (collect_rows server server_url project_id commit_id elements [] tr)
    as [ [ rows | e ] tr1 ]; cbn [fst] in *; [ | discriminate ].
  destruct (writerows fields rows) as [ written | e ] eqn:Hwritten;
    [ | discriminate ].
  rewrite bind_lift_ok in Hrun. injection Hrun as <-.
  split.
  - eapply writerows_no_header; eassumption.
  - exists rows. auto.
Qed.

End Tabular.

Lemma outputAttributesToCSV_no_header_witness :
  let elements := [fetch demo_store demo_url "f1"; fetch demo_store demo_url "o1"] in
  value_of (outputAttributesToCSV demo_server (JStr "http://host") (JStr "p1")
              (JStr "c1") elements [])
  = Ok (Text ("f1,AttributeUsage,mass,42,v1,vehicle" ++ String CR (String LF "")))
  /\ String.prefix header_record
       ("f1,AttributeUsage,mass,42,v1,vehicle" ++ String CR (String LF "")) = false.
Proof.
  intros elements.
  assert (Hrun : value_of (outputAttributesToCSV demo_server (JStr "http://host")
                             (JStr "p1") (JStr "c1") elements [])
                 = Ok (Text ("f1,AttributeUsage,mass,42,v1,vehicle"
                             ++ String CR (String LF ""))))
    by (vm_compute; reflexivity).
  split; [ exact Hrun | ].
  exact (proj1 (proj2 (outputAttributesToCSV_no_header demo_server
                         (JStr "http://host") (JStr "p1") (JStr "c1") elements [])
                  _ Hrun)).
Defined.

(* ================================================================== *)
(** * Further properties of the code *)
(* ================================================================== *)

(* ================================================================== *)
(** ** Normalizing and fetching *)
(* ================================================================== *)


Section FetchMany.

Variable server : trace -> request -> reply.

Lemma get_elements_loop_requests :
  forall query_url ids elements tr,
    exists result,
      get_elements_loop server query_url ids elements tr
      = (Ok result, (tr ++ flat_map (fetch_requests query_url) ids)%list).
Proof.
  intros query_url. induction ids as [ | id ids IH ]; intros elements tr.
  - exists elements. simpl. now rewrite app_nil_r.
  - cbn [get_elements_loop flat_map]. rewrite bind_cases.
    unfold try_except. rewrite bind_get_element.
    unfold ret at 1.
    destruct (IH (match fetched_at server query_url id tr with
                  | JList l => elements ++ l
                  | _ => elements ++ [fetched_at server query_url id tr]
                  end)%list
                (tr ++ fetch_requests query_url id)%list) as [result Hresult].
    exists result. rewrite app_assoc. exact Hresult.
Qed.

Lemma get_elements_loop_snapshot :
  forall store, (forall tr url, server tr (GET url) = store url) ->
  forall query_url ids elements tr,
    fst (get_elements_loop server query_url ids elements tr)
    = Ok (elements
          ++ flat_map (fun id => fetched_members (fetch_value store query_url id))
               ids)%list.
Proof.
  intros store Hsnapshot query_url.
  induction ids as [ | id ids IH ]; intros elements tr.
  - simpl. now rewrite app_nil_r.
  - cbn [get_elements_loop flat_map]. rewrite bind_cases.
    unfold try_except.
    rewrite (bind_get_snapshot server store Hsnapshot).
    unfold ret at 1. rewrite IH, app_assoc.
    unfold fetched_members.
    destruct (fetch_value store query_url id); reflexivity.
Qed.

(** X2.  Given a list of identities, [get_elements_fromAPI] never
    raises.  Over a snapshot store the result lists, identity by
    identity, what was fetched: a fetch that fails leaves [None] in the
    list, a fetched sequence is spliced in.  If the store answers for
    every string identity, the requests made are exactly one GET per
    string identity, in order. *)
Theorem get_elements_fromAPI_one_request_each :
  forall (query_url : string) (ids : list json) (tr : trace),
    let run := get_elements_fromAPI server query_url (JList ids) tr in
    (exists elements, value_of run = Ok elements)
    /\ (forall store,
           (forall tr url, server tr (GET url) = store url) ->
           value_of run
           = Ok (flat_map (fun id => fetched_members (fetch_value store query_url id))
                   ids)
           /\ (Forall (answered store query_url) ids ->
               trace_of run = (tr ++ flat_map (fetch_requests query_url) ids)%list)).
Proof.
  intros query_url ids tr run. subst run. unfold get_elements_fromAPI.
  cbn [py_iter]. rewrite bind_lift_ok.
  destruct (get_elements_loop_requests query_url ids [] tr) as [elements Hrun].
  split.
  - exists elements. now rewrite Hrun.
  - intros store Hsnapshot. split.
    + unfold value_of. now rewrite (get_elements_loop_snapshot store Hsnapshot).
    + intros _. now rewrite Hrun.
Qed.

End FetchMany.

Lemma get_elements_fromAPI_one_request_each_witness :
  let run := get_elements_fromAPI demo_server demo_url
               (JList [JStr "o1"; JStr "missing"; JNum 7]) [] in
  value_of run = Ok [fetch demo_store demo_url "o1"; JNull; JNull]
  /\ trace_of run = [GET (element_url demo_url "o1");
                     GET (element_url demo_url "missing")].
Proof.
  pose proof (proj2 (get_elements_fromAPI_one_request_each demo_server demo_url
                       [JStr "o1"; JStr "missing"; JNum 7] [])
                demo_store (fun _ _ => eq_refl)) as [Hvalue Htrace].
  split; [ exact Hvalue | ].
  apply Htrace.
  constructor; [ eexists; reflexivity | ].
  constructor; [ eexists; reflexivity | ].
  constructor; [ exact I | constructor ].
Defined.

(* ================================================================== *)
(** ** [find_element_by_id] *)
(* ================================================================== *)

Lemma find_element_loop_passes :
  forall target_id pre rest,
    no_member_has_id target_id pre ->
    find_element_loop (pre ++ rest) target_id = find_element_loop rest target_id.
Proof.
  intros target_id. induction pre as [ | element pre IH ]; intros rest Hpre.
  - reflexivity.
  - inversion Hpre as [ | ? ? (id & Hid & Hother) Hrest ]; subst.
    simpl. rewrite Hid. simpl. rewrite Hother. now apply IH.
Qed.

(** X3.  [find_element_by_id] returns the first member of the list
    whose [@id] equals the target, and [None] when every member has an
    [@id] and none equals it; a member that has no [@id] (or is not a
    mapping) and comes before any match makes it raise. *)
Theorem find_element_by_id_first_match :
  forall (target_id : json) (pre post : list json) (element : json),
    no_member_has_id target_id pre ->
    find_element_by_id (JList pre) target_id = Ok JNull
    /\ (forall id, py_item element "@id" = Ok id -> py_eq id target_id = true ->
                   find_element_by_id (JList (pre ++ element :: post)) target_id
                   = Ok element)
    /\ (forall e, py_item element "@id" = Raise e ->
                  find_element_by_id (JList (pre ++ element :: post)) target_id
                  = Raise e).
Proof.
  intros target_id pre post element Hpre.
  unfold find_element_by_id. cbn [py_iter obind].
  split; [ | split ].
  - rewrite <- (app_nil_r pre). now rewrite find_element_loop_passes.
  - intros id Hid Hmatch. rewrite find_element_loop_passes by exact Hpre.
    simpl. rewrite Hid. simpl. now rewrite Hmatch.
  - intros e He. rewrite find_element_loop_passes by exact Hpre.
    simpl. now rewrite He.
Qed.

Lemma find_element_by_id_first_match_witness :
  find_element_by_id (JList [stub "a"; stub "b"; stub "b"]) (JStr "b") = Ok (stub "b")
  /\ find_element_by_id (JList [stub "a"]) (JStr "b") = Ok JNull
  /\ find_element_by_id (JList [stub "a"; JDict []; stub "b"]) (JStr "b")
     = Raise KeyError.
Proof.
  assert (Hpre : no_member_has_id (JStr "b") [stub "a"]).
  { constructor; [ | constructor ]. exists (JStr "a"). split; reflexivity. }
  split; [ | split ].
  - exact (proj1 (proj2 (find_element_by_id_first_match (JStr "b") [stub "a"]
                           [stub "b"] (stub "b") Hpre))
             (JStr "b") eq_refl eq_refl).
  - exact (proj1 (find_element_by_id_first_match (JStr "b") [stub "a"] []
                    JNull Hpre)).
  - exact (proj2 (proj2 (find_element_by_id_first_match (JStr "b") [stub "a"]
                           [stub "b"] (JDict []) Hpre))
             KeyError eq_refl).
Defined.

(* ================================================================== *)
(** ** Metadata definitions by short name *)
(* ================================================================== *)

(** X4.  [get_metadata_ids_by_name] never raises.  Unless the query is
    answered with status 200 and a JSON sequence from which the id map
    can be built, what it returns is not an id map but a dict with an
    [error] entry.  Whenever the query is answered, that one POST is
    the only request made. *)
Theorem get_metadata_ids_by_name_soft_failure :
  forall server interp_text (query_url : string) (metadata_shortnames : list json)
         (tr : trace),
    let req := POST query_url metadata_definition_query in
    let run := get_metadata_ids_by_name server interp_text query_url
                 metadata_shortnames tr in
    exists d,
      value_of run = Ok d
      /\ match server tr req with
         | ConnectionFailed => reports_error d
         | Reply resp =>
             trace_of run = (tr ++ [req])%list
             /\ if status_code resp =? 200 then
                  match body resp with
                  | Some (JList items) =>
                      match build_id_map items metadata_shortnames [] with
                      | Ok id_map => d = id_map
                      | Raise _ => reports_error d
                      end
                  | _ => reports_error d
                  end
                else reports_error d
         end.
Proof.
  intros server interp_text query_url names tr req run. subst run.
  unfold get_metadata_ids_by_name, try_except, bind, session_post, send,
    value_of, trace_of.
  fold metadata_definition_query. fold req.
  destruct (server tr req) as [ | resp ].
  - eexists. split; [ reflexivity | ]. eexists. reflexivity.
  - destruct (status_code resp =? 200).
    + unfold response_json.
      destruct (body resp) as [ [ | b | n | s | items | flds ] | ];
        try (eexists; split; [ reflexivity | split; [ | eexists ]; reflexivity ]).
      unfold lift, ret. cbn beta iota.
      destruct (build_id_map items names []) as [ id_map | e ].
      * eexists. repeat split.
      * eexists. split; [ reflexivity | split; [ | eexists ]; reflexivity ].
    + eexists. split; [ reflexivity | split; [ | eexists ]; reflexivity ].
Qed.

Lemma first_id_found :
  forall items shortName,
    Forall has_id items ->
    first_id_with_shortName items shortName = Ok (short_name_id items shortName).
Proof.
  induction items as [ | item rest IH ]; intros shortName Hitems.
  - reflexivity.
  - inversion Hitems as [ | ? ? [id Hid] Hrest ]; subst.
    assert (Hdict : is_dict item = true)
      by (destruct item; try discriminate; reflexivity).
    cbn [first_id_with_shortName short_name_id].
    rewrite (py_get_of_dict _ _ Hdict). cbn [obind].
    destruct (py_eq (field item "declaredShortName") shortName).
    + destruct item as [ | | | | | flds ]; try discriminate.
      simpl in *. destruct (dict_get flds "@id"); [ reflexivity | discriminate ].
    + now apply IH.
Qed.

Lemma pd_get_absent_not_key :
  forall d k, ~ In k (pd_keys d) -> pd_set d k = fun v => (d ++ [(k, v)])%list.
Proof.
  induction d as [ | [k0 x] d IH ]; intros k Hout.
  - reflexivity.
  - simpl. destruct (pykey_eqb k0 k) eqn:E.
    + apply pykey_eqb_eq in E. subst. exfalso. apply Hout. now left.
    + rewrite IH; [ reflexivity | ]. intros Hin. apply Hout. now right.
Qed.

Lemma build_id_map_entries :
  forall items names keys id_map,
    Forall has_id items ->
    Forall2 (fun name k => hash_key name = Ok k) names keys ->
    NoDup (pd_keys id_map ++ keys) ->
    build_id_map items names id_map
    = Ok (id_map ++ combine keys (map (short_name_id items) names))%list.
Proof.
  intros items names keys id_map Hitems Hkeys. revert id_map.
  induction Hkeys as [ | name k names keys Hk Hrest IH ]; intros id_map Hnodup.
  - simpl. now rewrite app_nil_r.
  - cbn [build_id_map]. rewrite (first_id_found _ _ Hitems). cbn [obind].
    rewrite Hk. cbn [obind].
    rewrite pd_get_absent_not_key.
    + rewrite IH.
      * rewrite <- app_assoc. reflexivity.
      * unfold pd_keys. rewrite map_app. simpl. rewrite <- app_assoc. exact Hnodup.
    + apply NoDup_remove_2 in Hnodup. intros Hin. apply Hnodup.
      apply in_or_app. now left.
Qed.

(** X5.  When the query answers 200 with a sequence of elements that
    all have an [@id], and the requested short names are distinct, the
    id map has one entry per requested name, in order: the [@id] of the
    first element declared under that short name, and [None] for a
    short name no element declares. *)
Theorem get_metadata_ids_by_name_lookup :
  forall server interp_text (query_url : string) (names : list json)
         (keys : list pykey) (resp : response) (items : list json) (tr : trace),
    server tr (POST query_url metadata_definition_query) = Reply resp ->
    status_code resp = 200 ->
    body resp = Some (JList items) ->
    Forall has_id items ->
    Forall2 (fun name k => hash_key name = Ok k) names keys ->
    NoDup keys ->
    value_of (get_metadata_ids_by_name server interp_text query_url names tr)
    = Ok (combine keys (map (short_name_id items) names))
    /\ (forall name,
           Forall (fun item => py_eq (field item "declaredShortName") name = false)
                  items ->
           short_name_id items name = JNull).
Proof.
  intros server interp_text query_url names keys resp items tr
    Hreply Hstatus Hbody Hitems Hkeys Hnodup.
  split.
  - unfold get_metadata_ids_by_name, try_except, bind, session_post, send, value_of.
    fold metadata_definition_query. rewrite Hreply, Hstatus.
    cbn [Z.eqb Pos.eqb]. unfold response_json. rewrite Hbody.
    unfold ret at 1. unfold lift.
    rewrite (build_id_map_entries items names keys [] Hitems Hkeys Hnodup).
    reflexivity.
  - intros name Hnone. clear - Hnone.
    induction Hnone as [ | item rest Hitem _ IH ].
    + reflexivity.
    + cbn [short_name_id]. rewrite Hitem. exact IH.
Qed.

Lemma get_metadata_ids_by_name_lookup_witness :
  value_of (get_metadata_ids_by_name definitions_server (fun _ => "")
              "http://host/projects/p1/query-results?commitId=c1"
              [JStr "Domain2"; JStr "Unknown"] [])
  = Ok [(KStr "Domain2", JStr "m2"); (KStr "Unknown", JNull)].
Proof.
  refine (proj1 (get_metadata_ids_by_name_lookup definitions_server (fun _ => "")
                   "http://host/projects/p1/query-results?commitId=c1"
                   [JStr "Domain2"; JStr "Unknown"] [KStr "Domain2"; KStr "Unknown"]
                   (mkResponse 200 "[...]" _) _ [] eq_refl eq_refl eq_refl _ _ _)).
  - repeat constructor; eexists; reflexivity.
  - repeat constructor.
  - repeat constructor; simpl; intuition discriminate.
Defined.

(* ================================================================== *)
(** ** Attribution of annotated elements *)
(* ================================================================== *)

Lemma pd_get_middle :
  forall pre k v rest,
    ~ In k (pd_keys pre) -> pd_get (pre ++ (k, v) :: rest)%list k = Some v.
Proof.
  induction pre as [ | [k0 x] pre IH ]; intros k v rest Hout; simpl.
  - now rewrite pykey_eqb_refl.
  - destruct (pykey_eqb k0 k) eqn:E.
    + apply pykey_eqb_eq in E. subst. exfalso. apply Hout. now left.
    + apply IH. intros Hin. apply Hout. now right.
Qed.

Lemma pd_set_middle :
  forall pre k v v' rest,
    ~ In k (pd_keys pre) ->
    pd_set (pre ++ (k, v) :: rest)%list k v' = (pre ++ (k, v') :: rest)%list.
Proof.
  induction pre as [ | [k0 x] pre IH ]; intros k v v' rest Hout; simpl.
  - now rewrite pykey_eqb_refl.
  - destruct (pykey_eqb k0 k) eqn:E.
    + apply pykey_eqb_eq in E. subst. exfalso. apply Hout. now left.
    + rewrite IH; [ reflexivity | ]. intros Hin. apply Hout. now right.
Qed.

Lemma empty_results_distinct :
  forall keys acc,
    NoDup (pd_keys acc ++ keys)%list ->
    empty_results keys acc = (acc ++ map (fun k => (k, JList [])) keys)%list.
Proof.
  induction keys as [ | k keys IH ]; intros acc Hnodup; simpl.
  - now rewrite app_nil_r.
  - rewrite pd_get_absent_not_key.
    + rewrite IH.
      * now rewrite <- app_assoc.
      * unfold pd_keys. rewrite map_app. simpl. now rewrite <- app_assoc.
    + apply NoDup_remove_2 in Hnodup. intros Hin. apply Hnodup.
      apply in_or_app. now left.
Qed.

(** Reading [annotatedElement] with its default. *)
Lemma annotated_element_read :
  forall usage,
    is_dict usage = true ->
    exists x,
      py_get_default usage "annotatedElement" (JList []) = Ok x
      /\ py_truthy x = py_truthy (field usage "annotatedElement")
      /\ (py_truthy x = true -> x = field usage "annotatedElement").
Proof.
  intros [ | | | | | flds ] Hdict; try discriminate.
  simpl. destruct (dict_get flds "annotatedElement") as [ x | ].
  - exists x. auto.
  - exists (JList []). repeat split. discriminate.
Qed.

Lemma print_annotated_names_dicts :
  forall members,
    Forall (fun a => is_dict a = true) members ->
    print_annotated_names members = Ok tt.
Proof.
  induction 1 as [ | a members Ha _ IH ]; [ reflexivity | ].
  cbn [print_annotated_names]. rewrite (py_get_of_dict _ _ Ha). exact IH.
Qed.

Section Attribution.

Variable pre : pydict.
Variable key : pykey.
Variable rest : pydict.
Hypothesis key_fresh : ~ In key (pd_keys pre).

Lemma results_append_middle :
  forall ids x,
    results_append (pre ++ (key, JList ids) :: rest)%list key x
    = Ok (pre ++ (key, JList (ids ++ [x])) :: rest)%list.
Proof.
  intros ids x. unfold results_append.
  rewrite pd_get_middle by exact key_fresh.
  now rewrite pd_set_middle by exact key_fresh.
Qed.

Lemma collect_annotated_ids_middle :
  forall members ids,
    Forall (fun a => is_dict a = true) members ->
    collect_annotated_ids (pre ++ (key, JList ids) :: rest)%list key members
    = Ok (pre ++ (key, JList (ids ++ filter py_truthy
                                       (map (fun a => field a "@id") members)))
              :: rest)%list.
Proof.
  induction members as [ | a members IH ]; intros ids Hmembers.
  - simpl. now rewrite app_nil_r.
  - inversion Hmembers as [ | ? ? Ha Hrest ]; subst.
    cbn [collect_annotated_ids map filter].
    rewrite (py_get_of_dict _ _ Ha). cbn [obind].
    destruct (py_truthy (field a "@id")).
    + rewrite results_append_middle. cbn [obind].
      rewrite IH by exact Hrest. rewrite <- app_assoc. reflexivity.
    + cbn [obind]. now apply IH.
Qed.

Lemma correlate_entry_middle :
  forall usage definition_id ids,
    readable_usage usage ->
    correlate_entry usage (usage_definition_id usage)
      (pre ++ (key, JList ids) :: rest)%list (key, definition_id)
    = Ok (pre ++ (key, JList (ids ++ contribution usage definition_id)) :: rest)%list.
Proof.
  intros usage definition_id ids [Hdict Hmembers].
  unfold correlate_entry, contribution, annotated_ids.
  destruct (annotated_element_read usage Hdict) as (x & -> & Htruthy & Hsame).
  cbn [obind]. rewrite Htruthy.
  destruct (py_truthy (field usage "annotatedElement")) eqn:Hannotated.
  - rewrite (Hsame Htruthy).
    assert (Hprint :
              match field usage "annotatedElement" with
              | JList l => print_annotated_names l
              | _ => Ok tt
              end = Ok tt).
    { destruct (field usage "annotatedElement") eqn:E; try reflexivity.
      apply print_annotated_names_dicts. now apply Hmembers. }
    rewrite Hprint. cbn [obind].
    destruct (py_eq (usage_definition_id usage) definition_id);
      [ | now rewrite app_nil_r ].
    destruct (field usage "annotatedElement") as [ | | | | members | flds ] eqn:E;
      try (now rewrite app_nil_r).
    + apply collect_annotated_ids_middle. now apply Hmembers.
    + unfold py_get. cbn [py_get_default obind field filter].
      destruct (py_truthy
                  match dict_get flds "@id" with
                  | Some x0 => x0
                  | None => JNull
                  end).
      * apply results_append_middle.
      * now rewrite app_nil_r.
  - cbn [obind].
    destruct (py_eq (usage_definition_id usage) definition_id);
      [ | now rewrite app_nil_r ].
    rewrite (py_get_of_dict _ _ Hdict). cbn [obind].
    apply results_append_middle.
Qed.

End Attribution.

Lemma pd_keys_tabulate : forall d g, pd_keys (tabulate d g) = pd_keys d.
Proof.
  intros d g. unfold pd_keys, tabulate. rewrite map_map. reflexivity.
Qed.

Lemma tabulate_app :
  forall d1 d2 g,
    tabulate (d1 ++ d2)%list g = (tabulate d1 g ++ tabulate d2 g)%list.
Proof. intros d1 d2 g. unfold tabulate. apply map_app. Qed.

Lemma correlate_entries_tabulate :
  forall usage g suf pre,
    readable_usage usage ->
    NoDup (pd_keys (pre ++ suf)%list) ->
    let g' := fun id => (g id ++ contribution usage id)%list in
    correlate_entries usage (usage_definition_id usage)
      (tabulate pre g' ++ tabulate suf g)%list suf
    = Ok (tabulate pre g' ++ tabulate suf g')%list.
Proof.
  intros usage g suf. induction suf as [ | [k id] suf IH ];
    intros pre Hreadable Hnodup g'.
  - reflexivity.
  - cbn [correlate_entries].
    change (tabulate ((k, id) :: suf) g)
      with ((k, JList (g id)) :: tabulate suf g).
    assert (Hfresh : ~ In k (pd_keys (tabulate pre g'))).
    { rewrite pd_keys_tabulate. unfold pd_keys in *. rewrite map_app in Hnodup.
      simpl in Hnodup. apply NoDup_remove_2 in Hnodup.
      intros Hin. apply Hnodup. apply in_or_app. now left. }
    rewrite (correlate_entry_middle _ _ _ Hfresh usage id (g id) Hreadable).
    cbn [obind].
    assert (Hnodup' : NoDup (pd_keys ((pre ++ [(k, id)]) ++ suf)%list))
      by now rewrite <- app_assoc.
    specialize (IH (pre ++ [(k, id)])%list Hreadable Hnodup').
    cbv zeta in IH. rewrite !tabulate_app in IH.
    change (tabulate [(k, id)] g')
      with [(k, JList (g id ++ contribution usage id)%list)] in IH.
    rewrite <- !app_assoc in IH. exact IH.
Qed.

Lemma tabulate_ext :
  forall d g h, (forall id, g id = h id) -> tabulate d g = tabulate d h.
Proof.
  intros d g h Hext. unfold tabulate. apply map_ext. intros kv. now rewrite Hext.
Qed.

Lemma correlate_usages_tabulate :
  forall d usages g,
    NoDup (pd_keys d) ->
    Forall readable_usage usages ->
    correlate_usages d (tabulate d g) usages
    = Ok (tabulate d (fun id => g id
                                ++ flat_map (fun usage => contribution usage id) usages)%list).
Proof.
  intros d usages. induction usages as [ | usage usages IH ]; intros g Hnodup Hall.
  - simpl. f_equal. apply tabulate_ext. intros id. now rewrite app_nil_r.
  - inversion Hall as [ | ? ? Husage Hrest ]; subst.
    cbn [correlate_usages]. unfold correlate_usage.
    rewrite (py_get_of_dict _ _ (proj1 Husage)). cbn [obind].
    assert (Hid : match field usage "metadataDefinition" with
                  | JDict _ => py_get (field usage "metadataDefinition") "@id"
                  | _ => Ok (JStr "Unknown")
                  end = Ok (usage_definition_id usage)).
    { unfold usage_definition_id.
      destruct (field usage "metadataDefinition"); reflexivity. }
    rewrite Hid. cbn [obind].
    pose proof (correlate_entries_tabulate usage g d [] Husage Hnodup) as Hentries.
    cbv zeta in Hentries. simpl app in Hentries.
    rewrite Hentries. cbn [obind].
    rewrite (IH _ Hnodup Hrest). f_equal. apply tabulate_ext.
    intros id. simpl. now rewrite app_assoc.
Qed.

(** X6.  When the query answers 200 with a non-empty sequence of
    usages that are mappings (their annotated elements too), the result
    holds, under each key of the input map, exactly the identities of
    the usages whose definition equals that key's id, in the order of
    the usages: the [@id]s of a usage's annotated elements, or the
    usage's own [@id] when it names none.  A key no usage matches gets
    the empty sequence. *)
Theorem annotatedElement_ids_attribution :
  forall server (query_url : string) (metadefinition_dict : pydict)
         (resp : response) (usage : json) (usages : list json) (tr : trace),
    server tr (POST query_url (type_query [] "MetadataUsage")) = Reply resp ->
    status_code resp = 200 ->
    body resp = Some (JList (usage :: usages)) ->
    NoDup (pd_keys metadefinition_dict) ->
    Forall readable_usage (usage :: usages) ->
    value_of (get_metadatausage_annotatedElement_ids server query_url
                metadefinition_dict tr)
    = Ok (tabulate metadefinition_dict
            (fun definition_id =>
               flat_map (fun u => contribution u definition_id) (usage :: usages))).
Proof.
  intros server query_url d resp usage usages tr Hreply Hstatus Hbody Hnodup Hall.
  unfold get_metadatausage_annotatedElement_ids, bind, session_post, send, value_of.
  rewrite Hreply, Hstatus. cbn [Z.eqb Pos.eqb negb].
  unfold response_json. rewrite Hbody. unfold ret, lift. cbn beta iota.
  rewrite empty_results_distinct by exact Hnodup.
  change ([] ++ map (fun k => (k, JList [])) (pd_keys d))%list
    with (map (fun k => (k, JList [])) (pd_keys d)).
  assert (Hstart : map (fun k => (k, JList [])) (pd_keys d)
                   = tabulate d (fun _ => [])).
  { unfold tabulate, pd_keys. now rewrite map_map. }
  rewrite Hstart, (correlate_usages_tabulate d (usage :: usages) _ Hnodup Hall).
  reflexivity.
Qed.

Lemma annotatedElement_ids_attribution_witness :
  value_of (get_metadatausage_annotatedElement_ids usages_server
              "http://host/projects/p1/query-results?commitId=c1"
              [(KStr "Domain1", JStr "m1"); (KStr "Unknown", JNull)] [])
  = Ok [(KStr "Domain1", JList [JStr "e1"; JStr "e2"; JStr "u3"]);
        (KStr "Unknown", JList [])].
Proof.
  refine (annotatedElement_ids_attribution usages_server
            "http://host/projects/p1/query-results?commitId=c1"
            [(KStr "Domain1", JStr "m1"); (KStr "Unknown", JNull)]
            (mkResponse 200 "[...]" _) _ _ [] eq_refl eq_refl eq_refl _ _).
  - repeat constructor; simpl; intuition discriminate.
  - repeat constructor; intros members H; vm_compute in H;
      first [ discriminate H | injection H as <-; repeat constructor ].
Defined.

(* ================================================================== *)
(** ** More of the Value Resolver *)
(* ================================================================== *)

(** Reading a key of a mapping with a falsy default. *)
Lemma py_get_default_read :
  forall v key default,
    is_dict v = true -> py_truthy default = false ->
    exists x,
      py_get_default v key default = Ok x
      /\ py_truthy x = py_truthy (field v key)
      /\ (py_truthy x = true -> x = field v key).
Proof.
  intros [ | | | | | flds ] key default Hdict Hdefault; try discriminate.
  simpl. destruct (dict_get flds key) as [ x | ].
  - exists x. auto.
  - exists default. repeat split; [ exact Hdefault | ].
    rewrite Hdefault. discriminate.
Qed.

Section ResolverOrder.

Variable server : trace -> request -> reply.
Variable store : string -> reply.
Hypothesis snapshot : forall tr url, server tr (GET url) = store url.

Lemma decoder_value :
  forall query_url opExp pre s post mid fv_stub more fvid vid tr,
    field opExp "ownedRelationship" = JList (pre ++ s :: post) ->
    Forall (fun s => is_dict (target store query_url s) = true
                     /\ is_parameter_x (target store query_url s) = false) pre ->
    is_parameter_x (target store query_url s) = true ->
    field (field (target store query_url s) "memberElement") "@id" = JStr mid ->
    field (fetch store query_url mid) "ownedRelationship" = JList (fv_stub :: more) ->
    field fv_stub "@id" = JStr fvid ->
    field (field (fetch store query_url fvid) "memberElement") "@id" = JStr vid ->
    value_of (getValueFromOperatorExpressionUnit server query_url opExp tr)
    = Ok (fetch store query_url vid).
Proof.
  intros query_url opExp pre s post mid fv_stub more fvid vid tr
    Howned Hpre Hsel Hmember Hfirst Hstub Hvalue.
  unfold getValueFromOperatorExpressionUnit, value_of.
  unfold py_get. rewrite (py_get_present _ _ _ Howned) by discriminate.
  rewrite bind_lift_ok. cbn [py_iter]. rewrite bind_lift_ok.
  destruct (operator_expression_loop_skip_all server store snapshot
              query_url pre (s :: post) tr Hpre) as [tr1 ->].
  exact (operator_expression_loop_select server store snapshot query_url s post tr1
           mid fv_stub more fvid vid Hsel Hmember Hfirst Hstub Hvalue).
Qed.

Lemma feature_value_loop_pass :
  forall query_url s rest tr,
    passed_over store query_url s ->
    exists tr',
      feature_value_loop server query_url (s :: rest) tr
      = feature_value_loop server query_url rest tr'.
Proof.
  intros query_url s rest tr Hpassed. unfold passed_over in Hpassed.
  cbv zeta in Hpassed.
  destruct (has_type "FeatureValue" (resolve_stub store query_url s)) eqn:Hkind.
  2: { eexists. now apply (feature_value_loop_skip server store snapshot). }
  pose proof (typed_is_truthy _ _ Hkind) as Hrel.
  pose proof (resolved_is_dict store _ _ Hrel) as Hdict.
  cbn [feature_value_loop].
  rewrite (inlined_resolution server store snapshot), Hrel.
  rewrite (resolved_fetch store _ _ Hrel).
  rewrite (py_get_of_dict _ _ Hdict), bind_lift_ok.
  unfold has_type in Hkind. rewrite Hkind.
  destruct Hpassed as [ Hno | [ Hempty | (first & others & Hrelated & Helement) ] ];
    [ discriminate | | ].
  - destruct (py_get_default_read _ "ownedRelatedElement" (JList []) Hdict eq_refl)
      as (x & -> & Htruthy & _).
    rewrite bind_lift_ok, Htruthy, Hempty. eexists. reflexivity.
  - rewrite (py_get_present _ _ _ Hrelated) by discriminate.
    rewrite bind_lift_ok. cbn [py_truthy negb py_first]. rewrite bind_lift_ok.
    rewrite (inlined_resolution server store snapshot).
    destruct (py_truthy (resolve_stub store query_url first)) eqn:Hel;
      [ | eexists; reflexivity ].
    rewrite (resolved_fetch store _ _ Hel).
    rewrite (py_get_of_dict _ _ (resolved_is_dict store _ _ Hel)), bind_lift_ok.
    destruct Helement as [ Hnotype | (t & Htype & Hliteral & Hoperator) ].
    + rewrite Hnotype. eexists. reflexivity.
    + rewrite Htype.
      destruct (py_truthy (JStr t)); cbn [negb]; [ | eexists; reflexivity ].
      cbn [py_startswith]. rewrite bind_lift_ok, Hliteral.
      assert (Hneq : py_eq (JStr t) (JStr "OperatorExpression") = false)
        by (simpl; now apply String.eqb_neq).
      rewrite Hneq. eexists. reflexivity.
Qed.

Lemma feature_value_loop_pass_all :
  forall query_url pre rest tr,
    Forall (passed_over store query_url) pre ->
    exists tr',
      feature_value_loop server query_url (pre ++ rest) tr
      = feature_value_loop server query_url rest tr'.
Proof.
  intros query_url. induction pre as [ | s pre IH ]; intros rest tr Hall.
  - exists tr. reflexivity.
  - inversion Hall as [ | ? ? Hs Hpre ]; subst.
    rewrite <- app_comm_cons.
    destruct (feature_value_loop_pass query_url s (pre ++ rest) tr Hs) as [tr1 ->].
    now apply IH.
Qed.

(** The resolver, once the feature is fetched and its relationships
    are a list. *)
Lemma resolver_enters_loop :
  forall server_url project_id commit_id feature_id stubs tr,
    let query_url := commit_url server_url project_id commit_id in
    field (ensure_dict (fetch store query_url feature_id)) "ownedRelationship"
    = JList stubs ->
    value_of (getFeatureValueFromFeature server server_url project_id commit_id
                (JStr feature_id) tr)
    = match fst (feature_value_loop server query_url stubs
                   (tr ++ [GET (element_url query_url feature_id)])%list) with
      | Ok (Some v) => Ok v
      | _ => Ok JNull
      end.
Proof.
  intros server_url project_id commit_id feature_id stubs tr query_url Hfeature.
  unfold getFeatureValueFromFeature, try_except, value_of. fold query_url.
  rewrite (bind_get_snapshot server store snapshot). cbn [fetch_value fetch_requests].
  assert (Htruthy : py_truthy (ensure_dict (fetch store query_url feature_id)) = true)
    by (eapply field_present_truthy; [ exact Hfeature | discriminate ]).
  rewrite Htruthy. cbn [negb].
  rewrite (py_get_present _ _ _ Hfeature) by discriminate.
  rewrite bind_lift_ok. cbn [py_iter]. rewrite bind_lift_ok, bind_cases.
  destruct (feature_value_loop server query_url stubs
              (tr ++ [GET (element_url query_url feature_id)])%list)
    as [ [ [ v | ] | e ] tr1 ]; reflexivity.
Qed.

(** X7.  The first [FeatureValue] relationship that leads to a literal
    decides the value.  Whatever stands before it and is passed over
    (a relationship of another kind, a dangling stub, a [FeatureValue]
    without related element or with a value element of an unsupported
    kind) does not matter, and neither does anything after it. *)
Theorem getFeatureValueFromFeature_first_literal_wins :
  forall (server_url project_id commit_id : json) (feature_id : string)
         (pre post : list json) (s first : json) (others : list json)
         (t : string) (tr : trace),
    let query_url := commit_url server_url project_id commit_id in
    let feature := ensure_dict (fetch store query_url feature_id) in
    let relationship := resolve_stub store query_url s in
    let literal := resolve_stub store query_url first in
    field feature "ownedRelationship" = JList (pre ++ s :: post) ->
    Forall (passed_over store query_url) pre ->
    has_type "FeatureValue" relationship = true ->
    field relationship "ownedRelatedElement" = JList (first :: others) ->
    field literal "@type" = JStr t ->
    String.prefix "Literal" t = true ->
    value_of (getFeatureValueFromFeature server server_url project_id commit_id
                (JStr feature_id) tr)
    = Ok (value_pair literal).
Proof.
  intros server_url project_id commit_id feature_id pre post s first others t tr
    query_url feature relationship literal
    Hfeature Hpre Hkind Hrelated Htype Hprefix.
  unfold query_url.
  rewrite (resolver_enters_loop _ _ _ _ _ tr Hfeature). fold query_url.
  destruct (feature_value_loop_pass_all query_url pre (s :: post)
              (tr ++ [GET (element_url query_url feature_id)])%list Hpre)
    as [tr1 ->].
  rewrite (feature_value_loop_literal server store snapshot query_url s post tr1
             first others t Hkind Hrelated Htype Hprefix).
  reflexivity.
Qed.

End ResolverOrder.

Lemma getFeatureValueFromFeature_first_literal_wins_witness :
  value_of (getFeatureValueFromFeature larger_server (JStr "http://host")
              (JStr "p1") (JStr "c1") (JStr "f4") [])
  = Ok (JDict [("value_id", JStr "v1"); ("value", JNum 42)]).
Proof.
  refine (getFeatureValueFromFeature_first_literal_wins larger_server larger_store
            (fun _ _ => eq_refl)
            (JStr "http://host") (JStr "p1") (JStr "c1") "f4"
            [stub "r0"; stub "r4"; stub "r5"; stub "gone"] [stub "r6"]
            (stub "r1") (stub "v1") [] "LiteralInteger" []
            eq_refl _ eq_refl eq_refl eq_refl eq_refl).
  constructor; [ left; reflexivity | ].
  constructor.
  { right. right. exists (stub "u1"), []. split; [ reflexivity | ].
    right. exists "FeatureReferenceExpression".
    split; [ reflexivity | split; [ reflexivity | discriminate ] ]. }
  constructor; [ right; left; reflexivity | ].
  constructor; [ left; reflexivity | constructor ].
Defined.

Section ResolverOperator.

Variable server : trace -> request -> reply.
Variable store : string -> reply.
Hypothesis snapshot : forall tr url, server tr (GET url) = store url.

Lemma feature_value_loop_operator :
  forall query_url s rest tr first others v,
    let relationship := resolve_stub store query_url s in
    let expression := resolve_stub store query_url first in
    has_type "FeatureValue" relationship = true ->
    field relationship "ownedRelatedElement" = JList (first :: others) ->
    field expression "@type" = JStr "OperatorExpression" ->
    (forall tr', value_of (getValueFromOperatorExpressionUnit server query_url
                             expression tr') = Ok v) ->
    fst (feature_value_loop server query_url (s :: rest) tr)
    = if is_dict v then Ok (Some (value_pair v)) else Raise AttributeError.
Proof.
  intros query_url s rest tr first others v relationship expression
    Hkind Hrelated Htype Hdecoder.
  subst relationship expression.
  pose proof (typed_is_truthy _ _ Hkind) as Hrel.
  assert (Hexp : py_truthy (resolve_stub store query_url first) = true).
  { eapply field_present_truthy; [ exact Htype | discriminate ]. }
  cbn [feature_value_loop].
  rewrite (inlined_resolution server store snapshot), Hrel.
  rewrite (resolved_fetch store _ _ Hrel).
  rewrite (py_get_of_dict _ _ (resolved_is_dict store _ _ Hrel)), bind_lift_ok.
  unfold has_type in Hkind. rewrite Hkind.
  rewrite (py_get_present _ _ _ Hrelated) by discriminate.
  rewrite bind_lift_ok. cbn [py_truthy negb py_first]. rewrite bind_lift_ok.
  rewrite (inlined_resolution server store snapshot), Hexp.
  rewrite (resolved_fetch store _ _ Hexp).
  rewrite (py_get_of_dict _ _ (resolved_is_dict store _ _ Hexp)), bind_lift_ok.
  rewrite Htype.
  change (py_truthy (JStr "OperatorExpression")) with true.
  cbn [negb py_startswith].
  change (String.prefix "Literal" "OperatorExpression") with false.
  rewrite bind_lift_ok.
  change (py_eq (JStr "OperatorExpression") (JStr "OperatorExpression")) with true.
  cbv iota. rewrite bind_cases.
  match goal with
  | |- context [ getValueFromOperatorExpressionUnit server query_url ?e ?t ] =>
      pose proof (Hdecoder t) as Hrun; unfold value_of in Hrun;
      destruct (getValueFromOperatorExpressionUnit server query_url e t)
        as [ [ v' | e' ] tr1 ]
  end; simpl in Hrun; [ | discriminate ].
  injection Hrun as ->.
  destruct (is_dict v) eqn:Hv.
  - rewrite !(py_get_of_dict _ _ Hv), !bind_lift_ok. reflexivity.
  - unfold py_get. rewrite (py_get_not_dict _ _ _ Hv). reflexivity.
Qed.

(** X8.  When the first related element of the feature's
    [FeatureValue] relationship is an [OperatorExpression], the resolver
    returns the pair made of the element the decoder returns: its
    [@id] and its [value] field.  When the decoder returns [None], the
    resolver returns [None]. *)
Theorem getFeatureValueFromFeature_operator_expression :
  forall (server_url project_id commit_id : json) (feature_id : string)
         (pre post : list json) (s first : json) (others : list json)
         (v : json) (tr : trace),
    let query_url := commit_url server_url project_id commit_id in
    let feature := ensure_dict (fetch store query_url feature_id) in
    let relationship := resolve_stub store query_url s in
    let expression := resolve_stub store query_url first in
    field feature "ownedRelationship" = JList (pre ++ s :: post) ->
    Forall (passed_over store query_url) pre ->
    has_type "FeatureValue" relationship = true ->
    field relationship "ownedRelatedElement" = JList (first :: others) ->
    field expression "@type" = JStr "OperatorExpression" ->
    (forall tr', value_of (getValueFromOperatorExpressionUnit server query_url
                             expression tr') = Ok v) ->
    value_of (getFeatureValueFromFeature server server_url project_id commit_id
                (JStr feature_id) tr)
    = Ok (if is_dict v then value_pair v else JNull).
Proof.
  intros server_url project_id commit_id feature_id pre post s first others v tr
    query_url feature relationship expression
    Hfeature Hpre Hkind Hrelated Htype Hdecoder.
  unfold query_url.
  rewrite (resolver_enters_loop server store snapshot _ _ _ _ _ tr Hfeature).
  fold query_url.
  destruct (feature_value_loop_pass_all server store snapshot query_url pre
              (s :: post) (tr ++ [GET (element_url query_url feature_id)])%list Hpre)
    as [tr1 ->].
  rewrite (feature_value_loop_operator query_url s post tr1 first others v
             Hkind Hrelated Htype Hdecoder).
  destruct (is_dict v); reflexivity.
Qed.

End ResolverOperator.

Lemma getFeatureValueFromFeature_operator_expression_witness :
  value_of (getFeatureValueFromFeature larger_server (JStr "http://host")
              (JStr "p1") (JStr "c1") (JStr "f3") [])
  = Ok (JDict [("value_id", JStr "lit9"); ("value", JStr "ok")]).
Proof.
  refine (getFeatureValueFromFeature_operator_expression larger_server larger_store
            (fun _ _ => eq_refl)
            (JStr "http://host") (JStr "p1") (JStr "c1") "f3"
            [] [] (stub "r3") (stub "x1") [] (fetch larger_store demo_url "lit9") []
            eq_refl (Forall_nil _) eq_refl eq_refl eq_refl _).
  intros tr'.
  refine (decoder_value larger_server larger_store (fun _ _ => eq_refl) demo_url
            (resolve_stub larger_store demo_url (stub "x1"))
            [stub "pm0"] (stub "pm1") [] "par1" (stub "fv9") [] "fv9" "lit9" tr'
            eq_refl _ eq_refl eq_refl eq_refl eq_refl eq_refl).
  repeat constructor.
Defined.

(* ================================================================== *)
(** ** More of the tabular output *)
(* ================================================================== *)

Lemma try_except_ret_returns :
  forall A (body : M A) (default : A) tr,
    exists a tr', try_except body (fun _ => ret default) tr = (Ok a, tr').
Proof.
  intros A body default tr. unfold try_except.
  destruct (body tr) as [ [ a | e ] tr' ]; eexists; eexists; reflexivity.
Qed.

Lemma writerows_attribute_rows :
  forall rows, Forall is_attribute_row rows -> exists s, writerows fields rows = Ok s.
Proof.
  induction 1 as [ | row rows (id & name & value & value_id & owner & ->) _ [s IH] ].
  - exists "". reflexivity.
  - cbn [writerows].
    change (dict_to_list fields
              (JDict [("@id", id); ("type", JStr "AttributeUsage"); ("name", name);
                      ("value", value); ("value_id", value_id); ("owner", owner)]))
      with (Ok [id; JStr "AttributeUsage"; name; value; value_id; owner]).
    cbn [obind]. rewrite IH. cbn [obind]. eexists. reflexivity.
Qed.

Section TabularFailure.

Variable server : trace -> request -> reply.

(** The resolver always returns, and what it returns is [None] or a
    pair. *)
Lemma resolver_returns :
  forall server_url project_id commit_id feature_id tr,
    exists v tr',
      getFeatureValueFromFeature server server_url project_id commit_id
        feature_id tr = (Ok v, tr')
      /\ (v = JNull \/ is_value_pair v).
Proof.
  intros server_url project_id commit_id feature_id tr.
  unfold getFeatureValueFromFeature, try_except.
  rewrite bind_get_element.
  destruct (py_truthy (ensure_dict
                         (fetched_at server
                            (commit_url server_url project_id commit_id)
                            feature_id tr)));
    cbn [negb]; [ | eexists; eexists; split; [ reflexivity | now left ] ].
  rewrite bind_cases.
  match goal with
  | |- context [ lift ?o ?t ] => destruct (lift o t) as [ [ owned | e ] tr1 ]
  end; [ | eexists; eexists; split; [ reflexivity | now left ] ].
  rewrite bind_cases.
  match goal with
  | |- context [ lift ?o ?t ] => destruct (lift o t) as [ [ stubs | e ] tr2 ]
  end; [ | eexists; eexists; split; [ reflexivity | now left ] ].
  rewrite bind_cases.
  pose proof (feature_value_loop_returns_pair server
                (commit_url server_url project_id commit_id) stubs tr2) as Hpair.
  unfold returns_pair in Hpair.
  destruct (feature_value_loop server (commit_url server_url project_id commit_id)
              stubs tr2) as [ [ [ v | ] | e ] tr3 ]; simpl in *;
    eexists; eexists; (split; [ reflexivity | ]); auto.
Qed.

Lemma pair_cells_readable :
  forall v key,
    v = JNull \/ is_value_pair v ->
    exists x, py_get_default (if py_truthy v then v else JDict []) key (JStr "")
              = Ok x.
Proof.
  intros v key [ -> | (a & b & ->) ]; eexists; reflexivity.
Qed.

(** Collecting the rows can only fail with [AttributeError]. *)
Lemma collect_rows_failure_kind :
  forall server_url project_id commit_id elements csv_elements tr,
    Forall is_attribute_row csv_elements ->
    rows_or_attribute_error
      (collect_rows server server_url project_id commit_id elements csv_elements tr).
Proof.
  intros server_url project_id commit_id.
  induction elements as [ | item rest IH ]; intros csv_elements tr Hrows.
  - exact Hrows.
  - cbn [collect_rows].
    destruct (ensure_dict_shape item) as [ -> | [d ->] ]; [ now apply IH | ].
    destruct d as [ | kv d ]; [ now apply IH | ].
    cbn [py_truthy negb]. unfold py_get at 1. cbn [py_get_default].
    rewrite bind_lift_ok.
    destruct (py_eq _ (JStr "AttributeUsage")) eqn:Htype; cbn [negb];
      [ | now apply IH ].
    apply attribute_type_field in Htype.
    unfold py_get. cbn [py_get_default]. rewrite bind_lift_ok.
    rewrite bind_cases.
    match goal with
    | |- context [ match ?o with JDict _ => fetch_owner _ ?q ?i | _ => _ end ?t ] =>
        assert (Howner : exists owner tr1,
                   (match o with
                    | JDict _ => fetch_owner server q i
                    | _ => ret (JDict [])
                    end) t = (Ok owner, tr1))
    end.
    { match goal with
      | |- context [ match ?o with JDict _ => _ | _ => _ end ] => destruct o
      end; try (eexists; eexists; reflexivity).
      apply try_except_ret_returns. }
    destruct Howner as (owner & tr1 & ->).
    rewrite bind_lift_ok, bind_cases.
    match goal with
    | |- context [ getFeatureValueFromFeature server ?a ?b ?c ?i ?t ] =>
        destruct (resolver_returns a b c i t) as (v & tr2 & -> & Hshape)
    end.
    rewrite !bind_lift_ok.
    destruct (pair_cells_readable v "value" Hshape) as [value ->].
    rewrite bind_lift_ok.
    destruct (pair_cells_readable v "value_id" Hshape) as [value_id ->].
    rewrite bind_lift_ok.
    destruct (py_get_default owner "declaredName" (JStr "")) as [ name | e ] eqn:Hname.
    + rewrite bind_lift_ok. apply IH. apply Forall_app. split; [ exact Hrows | ].
      constructor; [ | constructor ]. rewrite Htype. repeat eexists.
    + rewrite bind_lift_raise. simpl.
      eapply py_get_default_raises. exact Hname.
Qed.

(** X9.  [outputAttributesToCSV] never raises.  It returns the text of
    the collected rows whenever the rows can be collected (writing them
    cannot fail), and otherwise the 500 answer [Failed to generate csv];
    collecting the rows fails in one way only, an [AttributeError]. *)
Theorem outputAttributesToCSV_outcome :
  forall (server_url project_id commit_id : json) (elements : list json)
         (tr : trace),
    match collect_rows server server_url project_id commit_id elements [] tr with
    | (Ok rows, tr') =>
        exists s,
          writerows fields rows = Ok s
          /\ outputAttributesToCSV server server_url project_id commit_id elements tr
             = (Ok (Text s), tr')
    | (Raise e, tr') =>
        e = AttributeError
        /\ outputAttributesToCSV server server_url project_id commit_id elements tr
           = (Ok csv_failure, tr')
    end.
Proof.
  intros server_url project_id commit_id elements tr.
  pose proof (collect_rows_failure_kind server_url project_id commit_id elements
                [] tr (Forall_nil _)) as Hkind.
  unfold rows_or_attribute_error in Hkind.
  unfold outputAttributesToCSV, try_except. rewrite bind_cases.
  destruct (collect_rows server server_url project_id commit_id elements [] tr)
    as [ [ rows | e ] tr' ]; cbn [fst] in Hkind.
  - destruct (writerows_attribute_rows rows Hkind) as [s Hs].
    exists s. split; [ exact Hs | ]. rewrite Hs. reflexivity.
  - split; [ exact Hkind | reflexivity ].
Qed.

End TabularFailure.

Section TabularRows.

Variable server : trace -> request -> reply.

Lemma collect_rows_skip :
  forall server_url project_id commit_id element rest csv_elements tr,
    not_attribute_usage element ->
    collect_rows server server_url project_id commit_id (element :: rest)
      csv_elements tr
    = collect_rows server server_url project_id commit_id rest csv_elements tr.
Proof.
  intros server_url project_id commit_id element rest csv_elements tr Hskip.
  unfold not_attribute_usage, has_type in Hskip.
  cbn [collect_rows].
  destruct (ensure_dict_shape element) as [ E | [d E] ]; rewrite E in *;
    [ reflexivity | ].
  destruct d as [ | kv d ]; [ reflexivity | ].
  cbn [py_truthy negb]. unfold py_get. cbn [py_get_default].
  rewrite bind_lift_ok. unfold field in Hskip. now rewrite Hskip.
Qed.

Lemma collect_rows_skip_all :
  forall server_url project_id commit_id pre rest csv_elements tr,
    Forall not_attribute_usage pre ->
    collect_rows server server_url project_id commit_id (pre ++ rest)
      csv_elements tr
    = collect_rows server server_url project_id commit_id rest csv_elements tr.
Proof.
  intros server_url project_id commit_id.
  induction pre as [ | element pre IH ]; intros rest csv_elements tr Hall.
  - reflexivity.
  - inversion Hall as [ | ? ? Helement Hpre ]; subst.
    rewrite <- app_comm_cons, collect_rows_skip by exact Helement.
    now apply IH.
Qed.

(** X10.  Elements that do not normalize to an [AttributeUsage]
    mapping give no row and cause no request: a list of such elements
    yields the empty text with nothing sent. *)
Theorem outputAttributesToCSV_skips_other_elements :
  forall (server_url project_id commit_id : json) (elements : list json)
         (tr : trace),
    Forall not_attribute_usage elements ->
    outputAttributesToCSV server server_url project_id commit_id elements tr
    = (Ok (Text ""), tr).
Proof.
  intros server_url project_id commit_id elements tr Hall.
  unfold outputAttributesToCSV, try_except. rewrite bind_cases.
  rewrite <- (app_nil_r elements), collect_rows_skip_all by exact Hall.
  reflexivity.
Qed.

Lemma fetch_owner_result :
  forall query_url item tr,
    is_dict (field item "owner") = true ->
    fetch_owner server query_url item tr
    = (Ok (fetched_at server query_url (owner_id item) tr),
       (tr ++ fetch_requests query_url (owner_id item))%list).
Proof.
  intros query_url item tr Howner.
  unfold fetch_owner, try_except, owner_id.
  rewrite (py_item_present item "owner" (field item "owner") eq_refl)
    by (intros E; rewrite E in Howner; discriminate).
  rewrite bind_lift_ok.
  assert (Hid : py_get_default (field item "owner") "@id" (JStr "")
                = Ok (cell (field item "owner") "@id")).
  { destruct (field item "owner"); try discriminate. reflexivity. }
  rewrite Hid, bind_lift_ok, bind_get_element.
  destruct (py_get_default
              (fetched_at server query_url (cell (field item "owner") "@id") tr)
              "declaredName" (JStr "Unknown")); reflexivity.
Qed.

(** What the row loop does with an [AttributeUsage] at the head of the
    list. *)
Lemma collect_rows_attribute_usage :
  forall server_url project_id commit_id element rest csv_elements tr,
    let query_url := commit_url server_url project_id commit_id in
    let item := ensure_dict element in
    let owner := owner_of server query_url item tr in
    let tr1 := (tr ++ owner_requests query_url item)%list in
    has_type "AttributeUsage" item = true ->
    exists v tr2,
      getFeatureValueFromFeature server server_url project_id commit_id
        (field item "@id") tr1 = (Ok v, tr2)
      /\ collect_rows server server_url project_id commit_id (element :: rest)
           csv_elements tr
         = if is_dict owner
           then collect_rows server server_url project_id commit_id rest
                  (csv_elements
                   ++ [JDict (combine fields (row_cells item owner v))])%list tr2
           else (Raise AttributeError, tr2).
Proof.
  intros server_url project_id commit_id element rest csv_elements tr
    query_url item owner tr1 Htype.
  subst owner tr1. unfold owner_of, owner_requests.
  pose proof (typed_is_dict _ _ Htype) as Hdict.
  pose proof (typed_is_truthy _ _ Htype) as Htruthy.
  unfold has_type in Htype.
  cbn [collect_rows]. fold item. fold query_url. clearbody item.
  rewrite Htruthy. cbn [negb].
  rewrite !(py_get_of_dict _ _ Hdict), bind_lift_ok, Htype. cbn [negb].
  rewrite bind_lift_ok, bind_cases.
  assert (Howner :
            (match field item "owner" with
             | JDict _ => fetch_owner server query_url item
             | _ => ret (JDict [])
             end) tr
            = (Ok (if is_dict (field item "owner")
                   then fetched_at server query_url (owner_id item) tr
                   else JDict []),
               (tr ++ (if is_dict (field item "owner")
                       then fetch_requests query_url (owner_id item)
                       else []))%list)).
  { destruct (field item "owner") eqn:E;
      try (cbn [is_dict]; unfold ret; now rewrite app_nil_r).
    cbn [is_dict]. apply fetch_owner_result. now rewrite E. }
  rewrite Howner. clear Howner.
  set (owner := if is_dict (field item "owner")
                then fetched_at server query_url (owner_id item) tr
                else JDict []).
  set (tr1 := (tr ++ (if is_dict (field item "owner")
                      then fetch_requests query_url (owner_id item)
                      else []))%list).
  rewrite bind_lift_ok, bind_cases.
  destruct (resolver_returns server server_url project_id commit_id
              (field item "@id") tr1) as (v & tr2 & Hrun & Hshape).
  exists v, tr2. split; [ exact Hrun | ]. rewrite Hrun.
  assert (Hcell : forall x key, is_dict x = true ->
                     py_get_default x key (JStr "") = Ok (cell x key)).
  { intros [ | | | | | dx ] key Hx; try discriminate. reflexivity. }
  assert (Hfv : is_dict (if py_truthy v then v else JDict []) = true).
  { destruct Hshape as [ -> | (a & b & ->) ]; reflexivity. }
  rewrite !(Hcell item _ Hdict), !bind_lift_ok.
  rewrite !(Hcell _ _ Hfv), !bind_lift_ok.
  destruct (is_dict owner) eqn:Hod.
  - rewrite (Hcell owner _ Hod), bind_lift_ok.
    unfold row_cells, fields. cbn [combine].
    assert (Hty : cell item "@type" = JStr "AttributeUsage").
    { apply py_eq_str in Htype. destruct item as [ | | | | | d ]; try discriminate.
      simpl in *. destruct (dict_get d "@type"); [ exact Htype | discriminate ]. }
    rewrite Hty. reflexivity.
  - rewrite (py_get_not_dict _ _ _ Hod), bind_lift_raise. reflexivity.
Qed.

End TabularRows.

Lemma outputAttributesToCSV_skips_other_elements_witness :
  outputAttributesToCSV demo_server (JStr "http://host") (JStr "p1") (JStr "c1")
    [fetch demo_store demo_url "o1"; JNull; JList []; JStr "f1";
     JList [fetch demo_store demo_url "r1"]] []
  = (Ok (Text ""), []).
Proof.
  apply outputAttributesToCSV_skips_other_elements.
  repeat constructor.
Defined.

Section TabularOwner.

Variable server : trace -> request -> reply.

(** X11.  If the owner of an [AttributeUsage] cannot be fetched as a
    mapping (the owner request fails, say), the loop reads
    [declaredName] from what is not a mapping and the whole table fails
    with the 500 answer, whatever the other elements are. *)
Theorem outputAttributesToCSV_owner_failure :
  forall (server_url project_id commit_id : json) (pre rest : list json)
         (element : json) (tr : trace),
    let query_url := commit_url server_url project_id commit_id in
    let item := ensure_dict element in
    Forall not_attribute_usage pre ->
    has_type "AttributeUsage" item = true ->
    is_dict (owner_of server query_url item tr) = false ->
    value_of (outputAttributesToCSV server server_url project_id commit_id
                (pre ++ element :: rest) tr)
    = Ok csv_failure.
Proof.
  intros server_url project_id commit_id pre rest element tr query_url item
    Hpre Htype Howner.
  unfold outputAttributesToCSV, try_except, value_of. rewrite bind_cases.
  rewrite (collect_rows_skip_all server) by exact Hpre.
  destruct (collect_rows_attribute_usage server server_url project_id commit_id
              element rest [] tr Htype) as (v & tr2 & _ & ->).
  fold query_url item. rewrite Howner. reflexivity.
Qed.

(** X12.  An [AttributeUsage] whose owner is a mapping (or that names
    no owner) gives one record: its [@id], [AttributeUsage], its
    [name], the [value] and [value_id] the Value Resolver returned for
    it, and the owner's [declaredName]; a cell is blank where the field
    is missing, and both value cells are blank when the resolver
    returned [None]. *)
Theorem outputAttributesToCSV_row :
  forall (server_url project_id commit_id : json) (pre post : list json)
         (element : json) (tr : trace),
    let query_url := commit_url server_url project_id commit_id in
    let item := ensure_dict element in
    let owner := owner_of server query_url item tr in
    Forall not_attribute_usage pre ->
    Forall not_attribute_usage post ->
    has_type "AttributeUsage" item = true ->
    is_dict owner = true ->
    exists v,
      value_of (getFeatureValueFromFeature server server_url project_id commit_id
                  (field item "@id") (tr ++ owner_requests query_url item)%list)
      = Ok v
      /\ value_of (outputAttributesToCSV server server_url project_id commit_id
                     (pre ++ element :: post) tr)
         = Ok (Text (csv_record (row_cells item owner v))).
Proof.
  intros server_url project_id commit_id pre post element tr query_url item owner
    Hpre Hpost Htype Howner.
  destruct (collect_rows_attribute_usage server server_url project_id commit_id
              element post [] tr Htype) as (v & tr2 & Hrun & Hrows).
  fold query_url item owner in Hrun, Hrows. rewrite Howner in Hrows.
  exists v. split; [ unfold value_of; now rewrite Hrun | ].
  unfold outputAttributesToCSV, try_except, value_of. rewrite bind_cases.
  rewrite (collect_rows_skip_all server) by exact Hpre.
  rewrite Hrows.
  rewrite <- (app_nil_r post), (collect_rows_skip_all server) by exact Hpost.
  cbn [collect_rows app]. unfold ret at 1.
  assert (Hwritten :
            writerows fields [JDict (combine fields (row_cells item owner v))]
            = Ok (csv_record (row_cells item owner v) ++ "")).
  { reflexivity. }
  rewrite Hwritten, bind_lift_ok.
  assert (Hnil : forall s : string, (s ++ "")%string = s)
    by (induction s as [ | c s IH ]; simpl; [ | rewrite IH ]; reflexivity).
  rewrite Hnil. reflexivity.
Qed.

End TabularOwner.

Lemma outputAttributesToCSV_owner_failure_witness :
  value_of (outputAttributesToCSV demo_server (JStr "http://host") (JStr "p1")
              (JStr "c1")
              [fetch demo_store demo_url "o1";
               JDict [("@id", JStr "f9"); ("@type", JStr "AttributeUsage");
                      ("owner", stub "gone")];
               fetch demo_store demo_url "f1"] [])
  = Ok csv_failure.
Proof.
  refine (outputAttributesToCSV_owner_failure demo_server (JStr "http://host")
            (JStr "p1") (JStr "c1") [fetch demo_store demo_url "o1"]
            [fetch demo_store demo_url "f1"]
            (JDict [("@id", JStr "f9"); ("@type", JStr "AttributeUsage");
                    ("owner", stub "gone")]) [] _ eq_refl eq_refl).
  repeat constructor.
Defined.

Lemma outputAttributesToCSV_row_witness :
  exists v,
    value_of (getFeatureValueFromFeature demo_server (JStr "http://host")
                (JStr "p1") (JStr "c1") (JStr "f2")
                [GET "http://host/projects/p1/commits/c1/elements/o1"])
    = Ok v
    /\ value_of (outputAttributesToCSV demo_server (JStr "http://host") (JStr "p1")
                   (JStr "c1")
                   [fetch demo_store demo_url "o1"; fetch demo_store demo_url "f2";
                    JList []] [])
       = Ok (Text (csv_record
                     (row_cells (fetch demo_store demo_url "f2")
                        (fetch demo_store demo_url "o1") v))).
Proof.
  refine (outputAttributesToCSV_row demo_server (JStr "http://host") (JStr "p1")
            (JStr "c1") [fetch demo_store demo_url "o1"] [JList []]
            (fetch demo_store demo_url "f2") [] _ _ eq_refl eq_refl);
    repeat constructor.
Defined.

(** The rows of the model store: one attribute with a value, one
    without. *)
Example outputAttributesToCSV_demo_rows :
  value_of (outputAttributesToCSV demo_server (JStr "http://host") (JStr "p1")
              (JStr "c1")
              [fetch demo_store demo_url "f1"; fetch demo_store demo_url "f2"] [])
  = Ok (Text ("f1,AttributeUsage,mass,42,v1,vehicle" ++ String CR (String LF "")
              ++ "f2,AttributeUsage,length,,,vehicle" ++ String CR (String LF ""))).
Proof. vm_compute. reflexivity. Qed.

(* ================================================================== *)
(** ** The query and write routes *)
(* ================================================================== *)

Section Routes.

Variable server : trace -> request -> reply.
Variable interp_text : exn -> string.

(** The query view, once its request is read and the element fetched. *)
Lemma queryFeatureValue_view_reads :
  forall (request_fields : list (string * json)) (tr : trace),
    let input_data := JDict request_fields in
    let query_url := request_scope input_data in
    let element_id := field input_data "element_id" in
    let featureValue := fetched_at server query_url element_id tr in
    queryFeatureValue_view server input_data tr
    = (fv_type <- lift (py_get featureValue "@type") ;;
       is_literal <- lift (py_startswith fv_type "Literal") ;;
       value <- (if is_literal : bool then
                   v <- lift (py_get_default featureValue "value" (JStr "")) ;;
                   ret (Some v)
                 else
                   fv_type' <- lift (py_get featureValue "@type") ;;
                   if py_eq fv_type' (JStr "OperatorExpression") then
                     v <- getValueFromOperatorExpressionUnit server query_url
                            featureValue ;;
                     ret (Some v)
                   else ret None) ;;
       owner_stub <- lift (py_get featureValue "owner") ;;
       owner_id <- lift (py_get owner_stub "@id") ;;
       owner <- get_element_fromAPI server query_url owner_id ;;
       lift (py_get_default owner "name" (JStr "Unknown Owner")) ;;;
       match value with
       | None => raise UnboundLocalError
       | Some v =>
           owner_name <- lift (py_get_default owner "name" (JStr "Unknown Owner")) ;;
           ret (Text (py_str owner_name ++ "=" ++ py_str v))
       end) (tr ++ fetch_requests query_url element_id)%list.
Proof.
  intros request_fields tr input_data query_url element_id featureValue.
  unfold queryFeatureValue_view.
  assert (Hinput : is_dict input_data = true) by reflexivity.
  rewrite !(py_get_of_dict _ _ Hinput), !bind_lift_ok.
  fold (request_scope input_data). fold query_url. fold element_id.
  now rewrite bind_get_element.
Qed.

Lemma owner_name_read :
  forall owner,
    is_dict owner = true ->
    py_get_default owner "name" (JStr "Unknown Owner") = Ok (owner_name owner).
Proof. intros [ | | | | | d ] H; try discriminate. reflexivity. Qed.

Lemma cell_read :
  forall v key, is_dict v = true -> py_get_default v key (JStr "") = Ok (cell v key).
Proof. intros [ | | | | | d ] key H; try discriminate. reflexivity. Qed.

(** X13.  For an element whose [@type] starts with [Literal], whose
    [owner] is a stub and whose owner can be fetched as a mapping,
    [queryFeatureValue] sends two GETs and answers the text
    [name=value]: the owner's [name] ([Unknown Owner] if it has none)
    and the literal's [value] (blank if it has none). *)
Theorem queryFeatureValue_literal :
  forall (request_fields : list (string * json)) (tr : trace) (t : string),
    let input_data := JDict request_fields in
    let query_url := request_scope input_data in
    let element_id := field input_data "element_id" in
    let featureValue := fetched_at server query_url element_id tr in
    let tr1 := (tr ++ fetch_requests query_url element_id)%list in
    let owner_id := field (field featureValue "owner") "@id" in
    let owner := fetched_at server query_url owner_id tr1 in
    field featureValue "@type" = JStr t ->
    String.prefix "Literal" t = true ->
    is_dict (field featureValue "owner") = true ->
    is_dict owner = true ->
    queryFeatureValue server interp_text input_data tr
    = (Ok (Text (py_str (owner_name owner) ++ "="
                 ++ py_str (cell featureValue "value"))),
       (tr1 ++ fetch_requests query_url owner_id)%list).
Proof.
  intros request_fields tr t input_data query_url element_id featureValue tr1
    owner_id owner Htype Hliteral Hstub Howner.
  subst input_data.
  unfold queryFeatureValue, handle_errors, try_except.
  rewrite (queryFeatureValue_view_reads request_fields tr).
  fold query_url element_id featureValue tr1.
  assert (Hdict : is_dict featureValue = true).
  { unfold field in Htype. destruct featureValue; try discriminate. reflexivity. }
  rewrite (py_get_of_dict _ "@type" Hdict), (py_get_of_dict _ "owner" Hdict).
  rewrite (bind_lift_ok _ _ (field featureValue "@type")), Htype.
  cbn [py_startswith]. rewrite Hliteral, (bind_lift_ok _ _ true).
  rewrite bind_cases, (cell_read _ _ Hdict), bind_lift_ok. unfold ret at 1.
  rewrite bind_lift_ok, (py_get_of_dict _ _ Hstub), bind_lift_ok.
  rewrite bind_get_element. fold owner_id owner.
  rewrite !(owner_name_read _ Howner), !bind_lift_ok. reflexivity.
Qed.

(** X14.  When the element cannot be fetched as a mapping (a failed
    request, an [element_id] that is missing or not a string),
    [queryFeatureValue] answers the 500 error of an [AttributeError]
    after at most that one request. *)
Theorem queryFeatureValue_unfetchable :
  forall (request_fields : list (string * json)) (tr : trace),
    let input_data := JDict request_fields in
    let query_url := request_scope input_data in
    let element_id := field input_data "element_id" in
    is_dict (fetched_at server query_url element_id tr) = false ->
    queryFeatureValue_view server input_data tr
    = (Raise AttributeError, (tr ++ fetch_requests query_url element_id)%list)
    /\ queryFeatureValue server interp_text input_data tr
       = (Ok (Json (JDict [("error", JStr (interp_text AttributeError))]) 500),
          (tr ++ fetch_requests query_url element_id)%list).
Proof.
  intros request_fields tr input_data query_url element_id Hfetched.
  assert (Hview : queryFeatureValue_view server input_data tr
                  = (Raise AttributeError,
                     (tr ++ fetch_requests query_url element_id)%list)).
  { subst input_data. rewrite (queryFeatureValue_view_reads request_fields tr).
    fold query_url element_id.
    unfold py_get at 1. rewrite (py_get_not_dict _ _ _ Hfetched).
    apply bind_lift_raise. }
  split; [ exact Hview | ].
  unfold queryFeatureValue, handle_errors, try_except. now rewrite Hview.
Qed.

(** X15.  For an element whose [@type] is [OperatorExpression] the
    text after [=] is [str()] of whatever the decoder returned: the
    whole element it found, written as a Python dict, or [None]; it is
    not that element's [value] field.  The text is given for an owner
    name and a decoded element whose strings are ASCII. *)
Theorem queryFeatureValue_operator_expression :
  forall (request_fields : list (string * json)) (tr tr2 : trace) (v : json),
    let input_data := JDict request_fields in
    let query_url := request_scope input_data in
    let element_id := field input_data "element_id" in
    let featureValue := fetched_at server query_url element_id tr in
    let tr1 := (tr ++ fetch_requests query_url element_id)%list in
    let owner_id := field (field featureValue "owner") "@id" in
    let owner := fetched_at server query_url owner_id tr2 in
    field featureValue "@type" = JStr "OperatorExpression" ->
    getValueFromOperatorExpressionUnit server query_url featureValue tr1
    = (Ok v, tr2) ->
    is_dict (field featureValue "owner") = true ->
    is_dict owner = true ->
    ascii_text (owner_name owner) = true ->
    ascii_text v = true ->
    value_of (queryFeatureValue server interp_text input_data tr)
    = Ok (Text (py_str (owner_name owner) ++ "=" ++ py_str v)).
Proof.
  intros request_fields tr tr2 v input_data query_url element_id featureValue tr1
    owner_id owner Htype Hdecoder Hstub Howner _ _.
  subst input_data.
  unfold queryFeatureValue, handle_errors, try_except, value_of.
  rewrite (queryFeatureValue_view_reads request_fields tr).
  fold query_url element_id featureValue tr1.
  assert (Hdict : is_dict featureValue = true).
  { unfold field in Htype. destruct featureValue; try discriminate. reflexivity. }
  rewrite (py_get_of_dict _ "@type" Hdict), (py_get_of_dict _ "owner" Hdict).
  rewrite (bind_lift_ok _ _ (field featureValue "@type")), Htype.
  cbn [py_startswith].
  change (String.prefix "Literal" "OperatorExpression") with false.
  rewrite (bind_lift_ok _ _ false).
  rewrite bind_cases, bind_lift_ok.
  change (py_eq (JStr "OperatorExpression") (JStr "OperatorExpression")) with true.
  cbv iota. rewrite bind_cases, Hdecoder. unfold ret at 1.
  rewrite bind_lift_ok, (py_get_of_dict _ _ Hstub), bind_lift_ok.
  rewrite bind_get_element. fold owner_id owner.
  rewrite !(owner_name_read _ Howner), !bind_lift_ok. reflexivity.
Qed.

End Routes.

Lemma queryFeatureValue_literal_witness :
  queryFeatureValue demo_server (fun _ => "") (demo_request "v1") []
  = (Ok (Text "mass=42"),
     [GET "http://host/projects/p1/commits/c1/elements/v1";
      GET "http://host/projects/p1/commits/c1/elements/f1"]).
Proof.
  exact (queryFeatureValue_literal demo_server (fun _ => "")
           [("server_url", JStr "http://host"); ("project_id", JStr "p1");
            ("commit_id", JStr "c1"); ("element_id", JStr "v1")]
           [] "LiteralInteger" eq_refl eq_refl eq_refl eq_refl).
Defined.

Lemma queryFeatureValue_unfetchable_witness :
  queryFeatureValue demo_server (fun _ => "no attribute get") (demo_request "gone") []
  = (Ok (Json (JDict [("error", JStr "no attribute get")]) 500),
     [GET "http://host/projects/p1/commits/c1/elements/gone"]).
Proof.
  exact (proj2 (queryFeatureValue_unfetchable demo_server
                  (fun _ => "no attribute get")
                  [("server_url", JStr "http://host"); ("project_id", JStr "p1");
                   ("commit_id", JStr "c1"); ("element_id", JStr "gone")]
                  [] eq_refl)).
Defined.

Lemma queryFeatureValue_operator_expression_witness :
  value_of (queryFeatureValue demo_server (fun _ => "") (demo_request "x1") [])
  = Ok (Text ("mass=" ++ py_str (fetch demo_store demo_url "lit9"))).
Proof.
  refine (queryFeatureValue_operator_expression demo_server (fun _ => "")
            [("server_url", JStr "http://host"); ("project_id", JStr "p1");
             ("commit_id", JStr "c1"); ("element_id", JStr "x1")]
            [] _ (fetch demo_store demo_url "lit9") eq_refl _ eq_refl eq_refl
            eq_refl eq_refl).
  vm_compute. reflexivity.
Defined.

Section WriteRoute.

Variable server : trace -> request -> reply.
Variable interp_text : exn -> string.

(** The write view, once its request is read and the element fetched. *)
Lemma writeFeatureValue_view_reads :
  forall (request_fields : list (string * json)) (tr : trace) (c : string),
    let input_data := JDict request_fields in
    let scope := ((commits_url input_data ++ "/") ++ c)%string in
    let element_id := field input_data "element_id" in
    let element := fetched_at server scope element_id tr in
    field input_data "commit_id" = JStr c ->
    writeFeatureValue_view server input_data tr
    = (element_type <- lift (py_get element "@type") ;;
       commit_post_response <-
         send server
           (POST (commits_url input_data)
              (JDict [("@type", JStr "Commit");
                      ("change",
                       JList [JDict [("@type", JStr "DataVersion");
                                     ("payload",
                                      JDict [("@type", JStr (py_str element_type));
                                             ("value",
                                              JStr (py_str (field input_data "value")));
                                             ("identifier",
                                              JStr (py_str element_id))]);
                                     ("identity",
                                      JDict [("@id", JStr (py_str element_id))])]]);
                      ("previousCommit",
                       JDict [("@id", JStr (py_str (JStr c)))])])) ;;
       new_commit_id <-
         (if status_code commit_post_response =? 200 then
            commit_response_json <- response_json commit_post_response ;;
            lift (py_item commit_response_json "@id")
          else ret (JStr "")) ;;
       ret (Text (py_str new_commit_id)))
        (tr ++ fetch_requests scope element_id)%list.
Proof.
  intros request_fields tr c input_data scope element_id element Hcommit.
  unfold writeFeatureValue_view.
  assert (Hinput : is_dict input_data = true) by reflexivity.
  rewrite !(py_get_of_dict _ _ Hinput), !bind_lift_ok.
  fold (commits_url input_data). rewrite Hcommit.
  cbn [py_concat]. rewrite bind_lift_ok. fold scope. fold element_id.
  now rewrite bind_get_element.
Qed.

(** X16.  When the element can be fetched as a mapping,
    [writeFeatureValue] sends, after that GET, exactly one POST to the
    project's commits with a commit document that has one
    [DataVersion] change for the element and names the given commit as
    [previousCommit].  A status other than 200 is not an error: the
    answer is the empty text.  On status 200 the answer is the [@id]
    of the JSON body. *)
Theorem writeFeatureValue_one_commit :
  forall (request_fields : list (string * json)) (tr : trace) (c : string),
    let input_data := JDict request_fields in
    let scope := ((commits_url input_data ++ "/") ++ c)%string in
    let element_id := field input_data "element_id" in
    let element := fetched_at server scope element_id tr in
    let tr1 := (tr ++ fetch_requests scope element_id)%list in
    let post := POST (commits_url input_data) (commit_document input_data element) in
    let run := writeFeatureValue_view server input_data tr in
    field input_data "commit_id" = JStr c ->
    is_dict element = true ->
    trace_of run = (tr1 ++ [post])%list
    /\ match server tr1 post with
       | ConnectionFailed => value_of run = Raise RequestException
       | Reply resp =>
           if status_code resp =? 200 then
             match body resp with
             | Some j =>
                 value_of run = (id <~ py_item j "@id" ;; Ok (Text (py_str id)))
             | None => value_of run = Raise JSONDecodeError
             end
           else value_of run = Ok (Text "")
       end.
Proof.
  intros request_fields tr c input_data scope element_id element tr1 post run
    Hcommit Helement.
  subst run input_data.
  rewrite (writeFeatureValue_view_reads request_fields tr c Hcommit).
  fold scope element_id element tr1.
  rewrite (py_get_of_dict _ _ Helement), bind_lift_ok.
  change (py_str (JStr c)) with c.
  assert (Hpost : post = POST (commits_url (JDict request_fields))
                    (commit_document (JDict request_fields) element)) by reflexivity.
  unfold commit_document in Hpost. fold element_id in Hpost.
  rewrite Hcommit in Hpost. change (py_str (JStr c)) with c in Hpost.
  rewrite <- Hpost. clear Hpost.
  unfold bind, send, trace_of, value_of.
  destruct (server tr1 post) as [ | resp ]; [ split; reflexivity | ].
  destruct (status_code resp =? 200); [ | split; reflexivity ].
  unfold response_json.
  destruct (body resp) as [ j | ]; [ | split; reflexivity ].
  unfold ret, lift. cbn beta iota.
  destruct (py_item j "@id"); split; reflexivity.
Qed.

(** X17.  Nothing is written when the element cannot be read: if the
    fetch does not give a mapping the view raises [AttributeError]
    after the GET and sends no POST, and if [commit_id] is missing or
    not a string it raises [TypeError] with nothing sent at all. *)
Theorem writeFeatureValue_no_write :
  forall (request_fields : list (string * json)) (tr : trace),
    let input_data := JDict request_fields in
    match field input_data "commit_id" with
    | JStr c =>
        let scope := ((commits_url input_data ++ "/") ++ c)%string in
        let element_id := field input_data "element_id" in
        is_dict (fetched_at server scope element_id tr) = false ->
        writeFeatureValue_view server input_data tr
        = (Raise AttributeError, (tr ++ fetch_requests scope element_id)%list)
    | _ => writeFeatureValue_view server input_data tr = (Raise TypeError, tr)
    end.
Proof.
  intros request_fields tr input_data.
  destruct (field input_data "commit_id") as [ | b | n | c | l | d ] eqn:Hcommit;
    try (unfold writeFeatureValue_view;
         rewrite !(py_get_of_dict input_data _ eq_refl), !bind_lift_ok, Hcommit;
         reflexivity).
  intros scope element_id Helement. subst input_data.
  rewrite (writeFeatureValue_view_reads request_fields tr c Hcommit).
  fold scope element_id.
  unfold py_get. rewrite (py_get_not_dict _ _ _ Helement).
  apply bind_lift_raise.
Qed.

End WriteRoute.

Lemma writeFeatureValue_one_commit_witness :
  trace_of (writeFeatureValue_view committing_server write_request [])
  = [GET "http://host/projects/p1/commits/c1/elements/v1";
     POST "http://host/projects/p1/commits"
       (commit_document write_request (fetch demo_store demo_url "v1"))]
  /\ value_of (writeFeatureValue_view committing_server write_request [])
     = Ok (Text "c2").
Proof.
  exact (writeFeatureValue_one_commit committing_server
           [("server_url", JStr "http://host"); ("project_id", JStr "p1");
            ("commit_id", JStr "c1"); ("element_id", JStr "v1");
            ("value", JNum 43)] [] "c1" eq_refl eq_refl).
Defined.

Lemma writeFeatureValue_no_write_witness :
  writeFeatureValue_view demo_server
    (JDict [("server_url", JStr "http://host"); ("project_id", JStr "p1");
            ("commit_id", JStr "c1"); ("element_id", JStr "gone");
            ("value", JNum 43)]) []
  = (Raise AttributeError,
     [GET "http://host/projects/p1/commits/c1/elements/gone"]).
Proof.
  exact (writeFeatureValue_no_write demo_server
           [("server_url", JStr "http://host"); ("project_id", JStr "p1");
            ("commit_id", JStr "c1"); ("element_id", JStr "gone");
            ("value", JNum 43)] [] eq_refl).
Defined.

(** X18.  [getDomainFeatures] checks its identifiers before anything
    else: when [server_url], [project_id] or [commit_id] is missing or
    falsy (an empty string, say) the view raises [ValueError] and the
    route answers 500 with that message, and no request is sent. *)
Theorem getDomainFeatures_validates_first :
  forall server interp_text (request_fields : list (string * json)) (tr : trace),
    let input_data := JDict request_fields in
    let msg := "Server_url, project_id, and commit_id are required." in
    (py_truthy (field input_data "server_url")
     && py_truthy (field input_data "project_id")
     && py_truthy (field input_data "commit_id"))%bool = false ->
    getDomainFeatures_view server interp_text input_data tr
    = (Raise (ValueError msg), tr)
    /\ getDomainFeatures server interp_text input_data tr
       = (Ok (Json (JDict [("error", JStr msg)]) 500), tr).
Proof.
  intros server interp_text request_fields tr input_data msg Hmissing.
  pose proof (getDomainFeatures_requires_identifiers server interp_text
                request_fields tr Hmissing) as Hview.
  split; [ exact Hview | ].
  subst input_data. unfold getDomainFeatures, handle_errors, try_except.
  now rewrite Hview.
Qed.

Lemma getDomainFeatures_validates_first_witness :
  getDomainFeatures demo_server (fun _ => "")
    (JDict [("server_url", JStr "http://host"); ("project_id", JStr "");
            ("commit_id", JStr "c1"); ("domain_name", JStr "Domain1")]) []
  = (Ok (Json (JDict [("error",
                       JStr "Server_url, project_id, and commit_id are required.")])
           500), []).
Proof.
  exact (proj2 (getDomainFeatures_validates_first demo_server (fun _ => "")
                  [("server_url", JStr "http://host"); ("project_id", JStr "");
                   ("commit_id", JStr "c1"); ("domain_name", JStr "Domain1")] []
                  eq_refl)).
Defined.

(* ================================================================== *)
(** ** Queries by kind and by name *)
(* ================================================================== *)

Section KindAndName.

Variable server : trace -> request -> reply.

(** [get_elements_byKind_fromAPI] never raises and sends exactly
    one POST.  On status 200 it returns the parsed body as it is
    (whatever JSON value that is); a failed connection, any other
    status and a body that is not JSON all give the empty list. *)
Lemma get_elements_byKind_soft_failure :
  forall (server_url project_id commit_id kind : json) (tr : trace),
    let req := POST (query_results_url server_url project_id commit_id)
                 (type_query [] (py_str kind)) in
    get_elements_byKind_fromAPI server server_url project_id commit_id kind tr
    = (Ok (kind_query_result (server tr req)), (tr ++ [req])%list).
Proof.
  intros server_url project_id commit_id kind tr req.
  unfold get_elements_byKind_fromAPI, try_except, bind, session_post, send,
    kind_query_result.
  fold req. destruct (server tr req) as [ | resp ]; [ reflexivity | ].
  destruct (status_code resp =? 200); [ | reflexivity ].
  unfold response_json. destruct (body resp); reflexivity.
Qed.

(** X19.  [get_elements_byName_fromAPI] never raises, and it never
    finds a redefinition: what it returns is either the empty list or
    the elements the name query returned followed by one empty list. *)
Theorem get_elements_byName_adds_nothing :
  forall (server_url project_id commit_id name : json) (tr : trace),
    let req := POST (query_results_url server_url project_id commit_id)
                 (name_query (py_str name)) in
    exists v tr',
      get_elements_byName_fromAPI server server_url project_id commit_id name tr
      = (Ok v, tr')
      /\ (v = JList []
          \/ exists resp found,
               server tr req = Reply resp
               /\ status_code resp = 200
               /\ body resp = Some (JList found)
               /\ v = JList (found ++ [JList []])).
Proof.
  intros server_url project_id commit_id name tr req.
  unfold get_elements_byName_fromAPI, try_except.
  rewrite bind_cases. unfold session_post, send. fold req.
  destruct (server tr req) as [ | resp ] eqn:Hreply;
    [ eexists; eexists; split; [ reflexivity | now left ] | ].
  destruct (status_code resp =? 200) eqn:Hstatus;
    [ | eexists; eexists; split; [ reflexivity | now left ] ].
  apply Z.eqb_eq in Hstatus.
  rewrite bind_cases. unfold response_json.
  destruct (body resp) as [ j | ] eqn:Hbody;
    [ | eexists; eexists; split; [ reflexivity | now left ] ].
  unfold ret at 1. rewrite bind_cases.
  destruct (lift (py_iter j) (tr ++ [req])%list) as [ [ elements | e ] tr1 ];
    [ | eexists; eexists; split; [ reflexivity | now left ] ].
  rewrite bind_cases.
  destruct (by_name_elements server server_url project_id commit_id elements tr1)
    as [ [ [] | e ] tr2 ];
    [ | eexists; eexists; split; [ reflexivity | now left ] ].
  destruct j as [ | b | n | s | found | flds ];
    try (eexists; eexists; split; [ reflexivity | now left ]).
  eexists. eexists. split; [ reflexivity | ].
  right. exists resp, found. auto.
Qed.

Lemma by_name_same_type_passes :
  forall element pre rest tr,
    is_dict element = true ->
    Forall (fun p => is_dict p = true
                     /\ py_eq (field p "@id") (field element "@id") = true) pre ->
    by_name_same_type element (pre ++ rest) tr = by_name_same_type element rest tr.
Proof.
  intros element pre rest tr Helement Hpre.
  induction Hpre as [ | p pre [Hp Hsame] _ IH ]; [ reflexivity | ].
  rewrite <- app_comm_cons. cbn [by_name_same_type].
  destruct (py_get_field_of_dict p "@type" (JStr "Unknown") Hp) as [x ->].
  rewrite bind_lift_ok, (py_get_of_dict _ _ Hp), bind_lift_ok.
  rewrite (py_get_of_dict _ _ Helement), bind_lift_ok, Hsame.
  exact IH.
Qed.

(** X20.  As soon as the kind query returns an element other than the
    one found by name that owns a relationship, the redefinition
    search calls [get_element_fromAPI] with four arguments, the
    [TypeError] is swallowed, and [get_elements_byName_fromAPI]
    returns the empty list: the element found by name is lost too. *)
Theorem get_elements_byName_breaks_on_relationship :
  forall (server_url project_id commit_id name : json) (tr : trace)
         (resp kresp : response) (element other relationship : json)
         (more same post relationships : list json),
    let url := query_results_url server_url project_id commit_id in
    let req := POST url (name_query (py_str name)) in
    let kreq := POST url (type_query [] (py_str (cell element "@type"))) in
    server tr req = Reply resp ->
    status_code resp = 200 ->
    body resp = Some (JList (element :: more)) ->
    is_dict element = true ->
    server (tr ++ [req])%list kreq = Reply kresp ->
    status_code kresp = 200 ->
    body kresp = Some (JList (same ++ other :: post)) ->
    Forall (fun p => is_dict p = true
                     /\ py_eq (field p "@id") (field element "@id") = true) same ->
    is_dict other = true ->
    py_eq (field other "@id") (field element "@id") = false ->
    field other "ownedRelationship" = JList (relationship :: relationships) ->
    get_elements_byName_fromAPI server server_url project_id commit_id name tr
    = (Ok (JList []), (tr ++ [req; kreq])%list).
Proof.
  intros server_url project_id commit_id name tr resp kresp element other
    relationship more same post relationships url req kreq
    Hreply Hstatus Hbody Helement Hkreply Hkstatus Hkbody Hsame Hother Hdiff Howned.
  unfold get_elements_byName_fromAPI, try_except.
  rewrite bind_cases. unfold session_post, send. fold url. fold req.
  rewrite Hreply, Hstatus. cbn [Z.eqb Pos.eqb].
  rewrite bind_cases. unfold response_json. rewrite Hbody.
  unfold ret at 1. cbn [py_iter]. rewrite bind_lift_ok, bind_cases.
  cbn [by_name_elements].
  destruct (py_get_field_of_dict element "declaredName" (JStr "Unknown") Helement)
    as [x ->].
  rewrite bind_lift_ok, (cell_read _ _ Helement), bind_lift_ok.
  rewrite bind_cases, get_elements_byKind_soft_failure.
  fold url. fold kreq. rewrite Hkreply. unfold kind_query_result.
  rewrite Hkstatus, Hkbody. cbn [Z.eqb Pos.eqb py_iter].
  rewrite bind_lift_ok, bind_cases.
  rewrite (by_name_same_type_passes element same (other :: post) _ Helement Hsame).
  cbn [by_name_same_type].
  destruct (py_get_field_of_dict other "@type" (JStr "Unknown") Hother) as [y ->].
  rewrite bind_lift_ok, (py_get_of_dict _ _ Hother), bind_lift_ok.
  rewrite (py_get_of_dict _ _ Helement), bind_lift_ok, Hdiff. cbn [negb].
  rewrite (py_get_present _ _ _ Howned) by discriminate.
  rewrite bind_lift_ok. cbn [py_iter]. rewrite bind_lift_ok, bind_cases.
  unfold by_name_relationships. rewrite bind_cases.
  destruct (lift (py_item relationship "@id") ((tr ++ [req]) ++ [kreq])%list)
    as [ [ id | e ] tr1 ] eqn:Hlift;
    unfold lift in Hlift; injection Hlift as _ <-;
    unfold raise; rewrite <- app_assoc; reflexivity.
Qed.

End KindAndName.

Lemma get_elements_byName_breaks_on_relationship_witness :
  value_of (get_elements_byName_fromAPI redefining_server (JStr "http://host")
              (JStr "p1") (JStr "c1") (JStr "value") [])
  = Ok (JList []).
Proof.
  refine (f_equal fst
            (get_elements_byName_breaks_on_relationship redefining_server
               (JStr "http://host") (JStr "p1") (JStr "c1") (JStr "value") []
               (mkResponse 200 "[...]" _) (mkResponse 200 "[...]" _)
               _ _ (stub "red1") []
               [JDict [("@id", JStr "a1"); ("@type", JStr "AttributeUsage");
                       ("declaredName", JStr "value")]]
               [] []
               eq_refl eq_refl eq_refl eq_refl eq_refl eq_refl eq_refl
               _ eq_refl eq_refl eq_refl)).
  repeat constructor.
Defined.

(* ================================================================== *)
(** ** The listing routes *)
(* ================================================================== *)

Section Listings.

Variable server : trace -> request -> reply.
Variable sorted : (json -> outcome json) -> list json -> outcome (list json).
Variable str_lower : string -> string.

(** X21.  [api_commits] asks for the commits of the project whose id
    is the text of [project_id] before its first space.  When that
    text is empty ([project_id] missing included) or [server_url] is
    missing or empty, [get_commits] raises [ValueError] before any
    request; a [project_id] that is not a string raises
    [AttributeError], also before any request.  Otherwise the commits
    of that project are asked for: if the GET is answered it is the one
    request made, a status other than 200 raises [ValueError] with the
    status and the text of the answer, a body that is not a sequence
    raises, and a sequence is handed to [sorted]; if no answer comes
    the view raises. *)
Theorem api_commits_project_id :
  forall (request_fields : list (string * json)) (tr : trace),
    let input_data := JDict request_fields in
    let server_url := field input_data "server_url" in
    let run := api_commits_view server sorted input_data tr in
    match cell input_data "project_id" with
    | JStr given =>
        let project_id := before_space given in
        if (py_truthy server_url && negb (String.eqb project_id ""))%bool then
          let req := GET (py_str server_url ++ "/projects/" ++ project_id
                          ++ "/commits") in
          match server tr req with
          | ConnectionFailed => value_of run = Raise RequestException
          | Reply resp =>
              trace_of run = (tr ++ [req])%list
              /\ value_of run
                 = if status_code resp =? 200 then
                     match body resp with
                     | Some (JList items) =>
                         commits <~ sorted commit_sort_key items ;;
                         Ok (Json (JList commits) 200)
                     | Some _ =>
                         Raise (ValueError
                                  "Expected a list of commits in the response.")
                     | None => Raise JSONDecodeError
                     end
                   else
                     Raise (ValueError
                              ("Failed to retrieve commits. Status code: "
                               ++ str_of_Z (status_code resp)
                               ++ ", details: " ++ text resp))
          end
        else
          run = (Raise (ValueError "Both server_url and project_id are required."),
                 tr)
    | _ => run = (Raise AttributeError, tr)
    end.
Proof.
  intros request_fields tr input_data server_url run. subst run.
  unfold api_commits_view.
  assert (Hinput : is_dict input_data = true) by reflexivity.
  rewrite (py_get_of_dict _ _ Hinput), bind_lift_ok.
  rewrite (cell_read _ _ Hinput), bind_lift_ok. fold server_url.
  destruct (cell input_data "project_id") as [ | b | n | given | l | d ];
    try reflexivity.
  cbn [py_split_first]. rewrite bind_lift_ok, bind_cases.
  unfold get_commits. cbn [py_truthy py_str].
  destruct (py_truthy server_url); cbn [negb orb andb]; [ | reflexivity ].
  destruct (String.eqb (before_space given) ""); cbn [negb]; [ reflexivity | ].
  cbv zeta.
  rewrite bind_cases. unfold session_get, send, trace_of, value_of.
  destruct (server tr _) as [ | resp ]; [ reflexivity | ].
  destruct (status_code resp =? 200); cbn [negb]; [ | split; reflexivity ].
  rewrite bind_cases. unfold response_json.
  destruct (body resp) as [ [ | b | n | s | items | flds ] | ];
    try (split; reflexivity).
  unfold ret, lift. cbn beta iota.
  destruct (sorted commit_sort_key items); split; reflexivity.
Qed.

(** [get_projects] checks nothing before it asks: whatever
    [server_url] is, [None] included, it asks for
    [<server_url>/projects?page%5Bsize%5D=1024].  A failed connection
    raises, a status other than 200 raises [ValueError], a body that
    is not JSON or cannot be iterated raises; otherwise the result is
    what [sorted] makes of the members. *)
Lemma get_projects_one_request :
  forall (server_url : json) (tr : trace),
    let req := GET (py_str server_url ++ "/projects?page%5Bsize%5D=1024") in
    let run := get_projects server sorted str_lower server_url tr in
    match server tr req with
    | ConnectionFailed => value_of run = Raise RequestException
    | Reply resp =>
        trace_of run = (tr ++ [req])%list
        /\ if status_code resp =? 200 then
             match body resp with
             | Some projects =>
                 value_of run
                 = (items <~ py_iter projects ;;
                    sorted (project_sort_key str_lower) items)
             | None => value_of run = Raise JSONDecodeError
             end
           else exists msg, value_of run = Raise (ValueError msg)
    end.
Proof.
  intros server_url tr req run. subst run.
  unfold get_projects, bind, session_get, send, trace_of, value_of. fold req.
  destruct (server tr req) as [ | resp ]; [ reflexivity | ].
  destruct (status_code resp =? 200); cbn [negb];
    [ | split; [ reflexivity | eexists; reflexivity ] ].
  unfold response_json. destruct (body resp) as [ projects | ];
    [ | split; reflexivity ].
  unfold ret, lift. cbn beta iota.
  destruct (py_iter projects) as [ items | e ]; [ | split; reflexivity ].
  cbn [obind]. destruct (sorted (project_sort_key str_lower) items);
    split; reflexivity.
Qed.

End Listings.

Lemma api_commits_project_id_witness :
  let run := api_commits_view demo_server unsorted
               (JDict [("server_url", JStr "http://host");
                       ("project_id", JStr "p1 (Vehicle model)")]) [] in
  (trace_of run = [GET "http://host/projects/p1/commits"]
   /\ value_of run
      = Raise (ValueError
                 "Failed to retrieve commits. Status code: 404, details: Not Found"))
  /\ api_commits_view demo_server unsorted
       (JDict [("server_url", JStr "http://host")]) []
     = (Raise (ValueError "Both server_url and project_id are required."), []).
Proof.
  split.
  - exact (api_commits_project_id demo_server unsorted
             [("server_url", JStr "http://host");
              ("project_id", JStr "p1 (Vehicle model)")] []).
  - exact (api_commits_project_id demo_server unsorted
             [("server_url", JStr "http://host")] []).
Defined.

(* ================================================================== *)
(** ** Where the resolution stops short *)
(* ================================================================== *)

Section ResolverAbort.

Variable server : trace -> request -> reply.
Variable store : string -> reply.
Hypothesis snapshot : forall tr url, server tr (GET url) = store url.

Lemma feature_value_loop_abort :
  forall query_url s rest tr first others,
    let relationship := resolve_stub store query_url s in
    let element := resolve_stub store query_url first in
    has_type "FeatureValue" relationship = true ->
    field relationship "ownedRelatedElement" = JList (first :: others) ->
    py_truthy (field element "@type") = true ->
    is_str (field element "@type") = false ->
    fst (feature_value_loop server query_url (s :: rest) tr) = Raise AttributeError.
Proof.
  intros query_url s rest tr first others relationship element
    Hkind Hrelated Htruthy Hstr.
  subst relationship element.
  pose proof (typed_is_truthy _ _ Hkind) as Hrel.
  assert (Hel : py_truthy (resolve_stub store query_url first) = true).
  { apply (field_present_truthy _ "@type" _ eq_refl).
    intros E. rewrite E in Htruthy. discriminate. }
  cbn [feature_value_loop].
  rewrite (inlined_resolution server store snapshot), Hrel.
  rewrite (resolved_fetch store _ _ Hrel).
  rewrite (py_get_of_dict _ _ (resolved_is_dict store _ _ Hrel)), bind_lift_ok.
  unfold has_type in Hkind. rewrite Hkind.
  rewrite (py_get_present _ _ _ Hrelated) by discriminate.
  rewrite bind_lift_ok. cbn [py_truthy negb py_first]. rewrite bind_lift_ok.
  rewrite (inlined_resolution server store snapshot), Hel.
  rewrite (resolved_fetch store _ _ Hel).
  rewrite (py_get_of_dict _ _ (resolved_is_dict store _ _ Hel)), bind_lift_ok.
  rewrite Htruthy. cbn [negb].
  destruct (field (resolve_stub store query_url first) "@type");
    try discriminate; reflexivity.
Qed.

(** X22.  A value element whose [@type] is present but not a string
    ends the resolution: [startswith] raises, the resolver returns
    [None], and a later [FeatureValue] relationship is not consulted
    even if it leads to a literal.  (A string [@type] of an unsupported
    kind is passed over instead.) *)
Theorem getFeatureValueFromFeature_stops_at_odd_type :
  forall (server_url project_id commit_id : json) (feature_id : string)
         (pre post : list json) (s first : json) (others : list json)
         (tr : trace),
    let query_url := commit_url server_url project_id commit_id in
    let feature := ensure_dict (fetch store query_url feature_id) in
    let relationship := resolve_stub store query_url s in
    let element := resolve_stub store query_url first in
    field feature "ownedRelationship" = JList (pre ++ s :: post) ->
    Forall (passed_over store query_url) pre ->
    has_type "FeatureValue" relationship = true ->
    field relationship "ownedRelatedElement" = JList (first :: others) ->
    py_truthy (field element "@type") = true ->
    is_str (field element "@type") = false ->
    value_of (getFeatureValueFromFeature server server_url project_id commit_id
                (JStr feature_id) tr)
    = Ok JNull.
Proof.
  intros server_url project_id commit_id feature_id pre post s first others tr
    query_url feature relationship element
    Hfeature Hpre Hkind Hrelated Htruthy Hstr.
  unfold query_url.
  rewrite (resolver_enters_loop server store snapshot _ _ _ _ _ tr Hfeature).
  fold query_url.
  destruct (feature_value_loop_pass_all server store snapshot query_url pre
              (s :: post) (tr ++ [GET (element_url query_url feature_id)])%list Hpre)
    as [tr1 ->].
  now rewrite (feature_value_loop_abort query_url s post tr1 first others
                 Hkind Hrelated Htruthy Hstr).
Qed.

End ResolverAbort.

Lemma getFeatureValueFromFeature_stops_at_odd_type_witness :
  value_of (getFeatureValueFromFeature odd_server (JStr "http://host")
              (JStr "p1") (JStr "c1") (JStr "f5") [])
  = Ok JNull.
Proof.
  exact (getFeatureValueFromFeature_stops_at_odd_type odd_server odd_store
           (fun _ _ => eq_refl)
           (JStr "http://host") (JStr "p1") (JStr "c1") "f5"
           [] [stub "r1"] (stub "r7") (stub "w1") [] []
           eq_refl (Forall_nil _) eq_refl eq_refl eq_refl eq_refl).
Defined.

(* ================================================================== *)
(** ** A failed definitions query *)
(* ================================================================== *)

Lemma pd_get_not_key :
  forall d k, ~ In k (pd_keys d) -> pd_get d k = None.
Proof.
  induction d as [ | [k0 x] d IH ]; intros k Hout; simpl.
  - reflexivity.
  - destruct (pykey_eqb k0 k) eqn:E.
    + apply pykey_eqb_eq in E. subst. exfalso. apply Hout. now left.
    + apply IH. intros Hin. apply Hout. now right.
Qed.

Section DefinitionsFailure.

Variable server : trace -> request -> reply.
Variable interp_text : exn -> string.

Lemma usages_keep_to_the_keys :
  forall query_url d resp usages tr,
    server tr (POST query_url (type_query [] "MetadataUsage")) = Reply resp ->
    status_code resp = 200 ->
    body resp = Some (JList usages) ->
    NoDup (pd_keys d) ->
    Forall readable_usage usages ->
    exists results,
      get_metadatausage_annotatedElement_ids server query_url d tr
      = (Ok results, (tr ++ [POST query_url (type_query [] "MetadataUsage")])%list)
      /\ forall k, ~ In k (pd_keys d) -> pd_get results k = None.
Proof.
  intros query_url d resp usages tr Hreply Hstatus Hbody Hnodup Hall.
  unfold get_metadatausage_annotatedElement_ids, bind, session_post, send.
  rewrite Hreply, Hstatus. cbn [Z.eqb Pos.eqb negb].
  unfold response_json. rewrite Hbody. unfold ret, lift. cbn beta iota.
  destruct usages as [ | usage usages ].
  - exists []. split; reflexivity.
  - rewrite empty_results_distinct by exact Hnodup.
    change ([] ++ map (fun k => (k, JList [])) (pd_keys d))%list
      with (map (fun k => (k, JList [])) (pd_keys d)).
    assert (Hstart : map (fun k => (k, JList [])) (pd_keys d)
                     = tabulate d (fun _ => [])).
    { unfold tabulate, pd_keys. now rewrite map_map. }
    rewrite Hstart, (correlate_usages_tabulate d (usage :: usages) _ Hnodup Hall).
    eexists. split; [ reflexivity | ].
    intros k Hout. apply pd_get_not_key. now rewrite pd_keys_tabulate.
Qed.

(** X23.  When the definitions query is answered with a status other
    than 200, [getDomainFeatures] does not fail: the error dict that
    [get_metadata_ids_by_name] returns is taken for the id map, the
    usages query is still sent, the domain is not among the keys
    [error] and [details], and the route answers with an empty table
    after those two requests. *)
Theorem getDomainFeatures_definitions_failure :
  forall (request_fields : list (string * json)) (tr : trace)
         (resp1 resp2 : response) (usages : list json) (k : pykey),
    let input_data := JDict request_fields in
    let url := query_results_url (field input_data "server_url")
                 (field input_data "project_id") (field input_data "commit_id") in
    let req1 := POST url metadata_definition_query in
    let req2 := POST url (type_query [] "MetadataUsage") in
    (py_truthy (field input_data "server_url")
     && py_truthy (field input_data "project_id")
     && py_truthy (field input_data "commit_id"))%bool = true ->
    server tr req1 = Reply resp1 ->
    status_code resp1 <> 200 ->
    server (tr ++ [req1])%list req2 = Reply resp2 ->
    status_code resp2 = 200 ->
    body resp2 = Some (JList usages) ->
    Forall readable_usage usages ->
    hash_key (field input_data "domain_name") = Ok k ->
    k <> KStr "error" -> k <> KStr "details" ->
    getDomainFeatures server interp_text input_data tr
    = (Ok (Text ""), (tr ++ [req1; req2])%list).
Proof.
  intros request_fields tr resp1 resp2 usages k input_data url req1 req2
    Hids Hreply1 Hstatus1 Hreply2 Hstatus2 Hbody2 Hall Hkey Herror Hdetails.
  assert (Hdefs :
            get_metadata_ids_by_name server interp_text url
              [field input_data "domain_name"] tr
            = (Ok [(KStr "error",
                    JStr ("Failed to query metadata. Status code: "
                          ++ str_of_Z (status_code resp1)));
                   (KStr "details", JStr (text resp1))],
               (tr ++ [req1])%list)).
  { unfold get_metadata_ids_by_name, try_except, bind, session_post, send.
    fold metadata_definition_query. fold req1. rewrite Hreply1.
    apply Z.eqb_neq in Hstatus1. rewrite Hstatus1. reflexivity. }
  destruct (usages_keep_to_the_keys url
              [(KStr "error",
                JStr ("Failed to query metadata. Status code: "
                      ++ str_of_Z (status_code resp1)));
               (KStr "details", JStr (text resp1))]
              resp2 usages (tr ++ [req1])%list Hreply2 Hstatus2 Hbody2)
    as (results & Husages & Habsent); [ | exact Hall | ].
  { repeat constructor; simpl; intuition discriminate. }
  assert (Hnone : pd_get results k = None).
  { apply Habsent. simpl. intros [ E | [ E | [] ] ]; congruence. }
  subst input_data.
  unfold getDomainFeatures, handle_errors, try_except, getDomainFeatures_view.
  rewrite !(py_get_of_dict (JDict request_fields) _ eq_refl).
  destruct (py_get_field_of_dict (JDict request_fields) "attribute_name" JNull
              eq_refl) as [a Ha].
  rewrite Ha. clear Ha.
  assert (Hdomain : py_get_default (JDict request_fields) "domain_name" JNull
                    = Ok (field (JDict request_fields) "domain_name"))
    by reflexivity.
  rewrite Hdomain, !bind_lift_ok.
  apply andb_prop in Hids. destruct Hids as [Hids Hcommit].
  apply andb_prop in Hids. destruct Hids as [Hserver Hproject].
  rewrite Hserver, Hproject, Hcommit. cbn [negb orb].
  fold (query_results_url (field (JDict request_fields) "server_url")
          (field (JDict request_fields) "project_id")
          (field (JDict request_fields) "commit_id")).
  fold url. rewrite bind_cases, Hdefs, bind_cases, Husages.
  rewrite Hkey, bind_lift_ok, Hnone.
  assert (Hempty : forall q, get_elements_fromAPI server q (JList []) = ret [])
    by reflexivity.
  rewrite Hempty, bind_ret. cbn [collect_owned_features].
  rewrite bind_lift_ok, Hempty, bind_ret.
  rewrite <- app_assoc. reflexivity.
Qed.

End DefinitionsFailure.

Lemma getDomainFeatures_definitions_failure_witness :
  getDomainFeatures failing_definitions_server (fun _ => "")
    (JDict [("server_url", JStr "http://host"); ("project_id", JStr "p1");
            ("commit_id", JStr "c1"); ("domain_name", JStr "Domain1")]) []
  = (Ok (Text ""),
     [POST "http://host/projects/p1/query-results?commitId=c1"
        metadata_definition_query;
      POST "http://host/projects/p1/query-results?commitId=c1"
        (type_query [] "MetadataUsage")]).
Proof.
  refine (getDomainFeatures_definitions_failure failing_definitions_server
            (fun _ => "")
            [("server_url", JStr "http://host"); ("project_id", JStr "p1");
             ("commit_id", JStr "c1"); ("domain_name", JStr "Domain1")] []
            (mkResponse 500 "Internal Server Error" None)
            (mkResponse 200 "[...]" _) _ (KStr "Domain1")
            eq_refl eq_refl _ eq_refl eq_refl eq_refl _ eq_refl _ _).
  - discriminate.
  - repeat constructor; intros members H; vm_compute in H;
      first [ discriminate H | injection H as <-; repeat constructor ].
  - discriminate.
  - discriminate.
Defined.

Section UsagesFailure.

Variable server : trace -> request -> reply.
Variable interp_text : exn -> string.

Lemma definitions_query_returns :
  forall query_url names tr,
    exists d,
      get_metadata_ids_by_name server interp_text query_url names tr
      = (Ok d, (tr ++ [POST query_url metadata_definition_query])%list).
Proof.
  intros query_url names tr.
  unfold get_metadata_ids_by_name, try_except, bind, session_post, send.
  fold metadata_definition_query.
  destruct (server tr (POST query_url metadata_definition_query)) as [ | resp ];
    [ eexists; reflexivity | ].
  destruct (status_code resp =? 200); [ | eexists; reflexivity ].
  unfold response_json.
  destruct (body resp) as [ [ | b | n | s | items | flds ] | ];
    try (eexists; reflexivity).
  unfold lift, ret. cbn beta iota.
  destruct (build_id_map items names []); eexists; reflexivity.
Qed.

(** X24.  A usages query answered with a status other than 200, by
    contrast, fails the route: whatever the definitions query gave,
    [getDomainFeatures] answers 500 with the message of the
    [ValueError], which carries the status and the text of the answer,
    after the two queries and no other request. *)
Theorem getDomainFeatures_usages_failure :
  forall (request_fields : list (string * json)) (tr : trace) (resp : response),
    let input_data := JDict request_fields in
    let url := query_results_url (field input_data "server_url")
                 (field input_data "project_id") (field input_data "commit_id") in
    let req1 := POST url metadata_definition_query in
    let req2 := POST url (type_query [] "MetadataUsage") in
    (py_truthy (field input_data "server_url")
     && py_truthy (field input_data "project_id")
     && py_truthy (field input_data "commit_id"))%bool = true ->
    server (tr ++ [req1])%list req2 = Reply resp ->
    status_code resp <> 200 ->
    getDomainFeatures server interp_text input_data tr
    = (Ok (Json (JDict [("error",
                         JStr ("Failed to query metadata usages. Status code: "
                               ++ str_of_Z (status_code resp)
                               ++ ", details: " ++ text resp))]) 500),
       (tr ++ [req1; req2])%list).
Proof.
  intros request_fields tr resp input_data url req1 req2 Hids Hreply Hstatus.
  destruct (definitions_query_returns url [field input_data "domain_name"] tr)
    as [d Hdefs].
  fold req1 in Hdefs.
  subst input_data.
  unfold getDomainFeatures, handle_errors, try_except, getDomainFeatures_view.
  rewrite !(py_get_of_dict (JDict request_fields) _ eq_refl).
  destruct (py_get_field_of_dict (JDict request_fields) "attribute_name" JNull
              eq_refl) as [a Ha].
  rewrite Ha. clear Ha.
  assert (Hdomain : py_get_default (JDict request_fields) "domain_name" JNull
                    = Ok (field (JDict request_fields) "domain_name"))
    by reflexivity.
  rewrite Hdomain, !bind_lift_ok.
  apply andb_prop in Hids. destruct Hids as [Hids Hcommit].
  apply andb_prop in Hids. destruct Hids as [Hserver Hproject].
  rewrite Hserver, Hproject, Hcommit. cbn [negb orb].
  fold (query_results_url (field (JDict request_fields) "server_url")
          (field (JDict request_fields) "project_id")
          (field (JDict request_fields) "commit_id")).
  fold url. rewrite bind_cases, Hdefs, bind_cases.
  unfold get_metadatausage_annotatedElement_ids.
  rewrite bind_cases. unfold session_post, send. fold req2. rewrite Hreply.
  apply Z.eqb_neq in Hstatus. rewrite Hstatus. cbn [negb].
  unfold raise. rewrite <- app_assoc. reflexivity.
Qed.

End UsagesFailure.

Lemma getDomainFeatures_usages_failure_witness :
  getDomainFeatures demo_server (fun _ => "")
    (JDict [("server_url", JStr "http://host"); ("project_id", JStr "p1");
            ("commit_id", JStr "c1"); ("domain_name", JStr "Domain1")]) []
  = (Ok (Json (JDict [("error",
                       JStr ("Failed to query metadata usages. Status code: "
                             ++ str_of_Z 404 ++ ", details: " ++ "Not Found"))])
           500),
     [POST "http://host/projects/p1/query-results?commitId=c1"
        metadata_definition_query;
      POST "http://host/projects/p1/query-results?commitId=c1"
        (type_query [] "MetadataUsage")]).
Proof.
  refine (getDomainFeatures_usages_failure demo_server (fun _ => "")
            [("server_url", JStr "http://host"); ("project_id", JStr "p1");
             ("commit_id", JStr "c1"); ("domain_name", JStr "Domain1")] []
            (mkResponse 404 "Not Found" None) eq_refl eq_refl _).
  discriminate.
Defined.
